(** * streamer: a rendezvous file relay (main.go)

    A shallow embedding of the HTTP handler of [main.go] and of its
    [responseLogWriter], together with the parts of the Go standard library
    the handler leans on ([io.LimitReader], [io.CopyBuffer],
    [base64.URLEncoding], [http.ResponseWriter], [bufio.Writer]).

    Conventions.
    - A [[]byte] is a [list byte]; a Go [string] is a [string]; [int] and
      [int64] are [Z], with the 64-bit wrap-around written out where the
      code does arithmetic on them.
    - [map[string]*client] is a [gmap string loc] together with a heap
      [gmap loc client]: several flows hold the same pointer.
    - Channels, timers and the peer's behaviour are inputs of the model:
      a flow is a function of the state it finds and of the events that
      reach it; interleavings of several flows are schedules of atomic
      steps.
    - A function that may panic or block for ever returns an [option];
      [None] is the flow that does not come back. *)

From Stdlib Require Import ZArith NArith Ascii String List Lia.
From Stdlib.Strings Require Import Byte.
From stdpp Require Import base option list gmap strings.

Open Scope string_scope.
Open Scope Z_scope.
Open Scope list_scope.

(* ===================================================================== *)
(** * Part I. Definitions *)
(* ===================================================================== *)

(* --------------------------------------------------------------------- *)
(** ** Strings and bytes *)

(** Line feed, carriage return and the double quote character. *)
Definition nl : string := String (ascii_of_nat 10) EmptyString.
Definition cr : string := String (ascii_of_nat 13) EmptyString.
Definition dq : string := String (ascii_of_nat 34) EmptyString.

(** [[]byte(s)] and [string(b)]. *)
Definition bytes_of (s : string) : list byte := list_byte_of_string s.
Definition string_of (b : list byte) : string := string_of_list_byte b.

(** Go's [int] on a 64-bit platform: two's complement wrap-around. *)
Definition wrap_int (z : Z) : Z := (z + 2^63) mod 2^64 - 2^63.
Definition MaxInt : Z := 2^63 - 1.

(* --------------------------------------------------------------------- *)
(** ** package io: errors, readers, writers *)

(** Go error values.  [EOF], [ErrShortWrite] and [errInvalidWrite] are the
    sentinels of package io; every other error is its text. *)
Inductive error : Type :=
| EOF
| ErrShortWrite
| errInvalidWrite
| ErrOther (msg : string).

Definition Error (e : error) : string :=
  match e with
  | EOF => "EOF"
  | ErrShortWrite => "short write"
  | errInvalidWrite => "invalid write result"
  | ErrOther msg => msg
  end.

(** [er != EOF] compares error identities. *)
Definition is_EOF (e : error) : bool :=
  match e with EOF => true | _ => false end.

(** [io.Reader]: [Read r c] is [r.Read(p)] with [len(p) = c]; it returns the
    bytes stored in [p[0:n]] and the error. *)
Class Reader (R : Type) := Read : R -> nat -> R * (list byte * option error).

(** [io.Writer]: [Write w p] returns [n] and the error. *)
Class Writer (W : Type) := Write : W -> list byte -> W * (Z * option error).

(** The read side of a connection, as the reader sees it: a script of
    arrivals.  An arrival [(data, oe)] makes [data] readable; when its last
    byte is handed out the same call also returns [oe] (a read that returns
    data together with an error).  After the script the reader reports
    [EOF]. *)
Definition stream : Type := list (list byte * option error).

(** The reader half of the hijacked [bufrw]: what is still to arrive, and
    the bytes handed out so far. *)
Record bufioReader : Type := mkReader {
  br_pending : stream;
  br_read    : list byte;
}.

Definition new_reader (s : stream) : bufioReader := mkReader s [].

Definition bufio_Read (r : bufioReader) (c : nat)
    : bufioReader * (list byte * option error) :=
  match br_pending r with
  | [] => (r, ([], Some EOF))
  | (data, oe) :: rest =>
      if (length data <=? c)%nat
      then (mkReader rest (br_read r ++ data), (data, oe))
      else (mkReader ((drop c data, oe) :: rest) (br_read r ++ take c data),
            (take c data, None))
  end.

#[export] Instance bufioReader_Read : Reader bufioReader := bufio_Read.

(** [io.LimitedReader]. *)
Record LimitedReader (R : Type) : Type := mkLimited { lr_R : R; lr_N : Z }.
Arguments mkLimited {R} _ _.
Arguments lr_R {R} _.
Arguments lr_N {R} _.

Definition LimitReader {R} (r : R) (n : Z) : LimitedReader R := mkLimited r n.

(** [func (l *LimitedReader) Read(p []byte)]:
    [if l.N <= 0 { return 0, EOF }; if int64(len(p)) > l.N { p = p[0:l.N] };
     n, err = l.R.Read(p); l.N -= int64(n)]. *)
#[export] Instance LimitedReader_Read {R} `{Reader R} : Reader (LimitedReader R) :=
  fun l c =>
    if lr_N l <=? 0 then (l, ([], Some EOF))
    else
      let c' := if Z.of_nat c >? lr_N l then Z.to_nat (lr_N l) else c in
      let '(r', (data, e)) := Read (lr_R l) c' in
      (mkLimited r' (lr_N l - Z.of_nat (length data)), (data, e)).

(** Result of a copy: [None] when the loop has not returned within the
    fuel; otherwise the writer, the reader, [written] and [err]. *)
Definition copy_result (W R : Type) : Type := option (W * R * (Z * option error)).

(** The loop of [io.copyBuffer]:
    [[
    for {
      nr, er := src.Read(buf)
      if nr > 0 {
        nw, ew := dst.Write(buf[0:nr])
        if nw < 0 || nr < nw { nw = 0; if ew == nil { ew = errInvalidWrite } }
        written += int64(nw)
        if ew != nil { err = ew; break }
        if nr != nw { err = ErrShortWrite; break }
      }
      if er != nil { if er != EOF { err = er }; break }
    }
    return written, err
    ]] *)
Fixpoint copyBuffer_loop {W R} `{Writer W} `{Reader R}
    (fuel : nat) (dst : W) (src : R) (buflen : nat) (written : Z)
    : copy_result W R :=
  match fuel with
  | O => None
  | S fuel' =>
      let '(src1, (data, er)) := Read src buflen in
      let nr := Z.of_nat (length data) in
      let on_er (dst1 : W) (written1 : Z) : copy_result W R :=
        match er with
        | Some e => Some (dst1, src1, (written1, if is_EOF e then None else Some e))
        | None => copyBuffer_loop fuel' dst1 src1 buflen written1
        end in
      if 0 <? nr then
        let '(dst1, (nw0, ew0)) := Write dst data in
        let invalid := (nw0 <? 0) || (nr <? nw0) in
        let nw := if invalid then 0 else nw0 in
        let ew := if invalid
                  then match ew0 with None => Some errInvalidWrite | _ => ew0 end
                  else ew0 in
        let written1 := wrap_int (written + nw) in
        match ew with
        | Some e => Some (dst1, src1, (written1, Some e))
        | None =>
            if negb (nr =? nw)
            then Some (dst1, src1, (written1, Some ErrShortWrite))
            else on_er dst1 written1
        end
      else on_er dst written
  end.

(** [io.CopyBuffer(dst, src, buf)]; it panics on an empty non-nil buffer,
    which is a copy that does not return ([None]).  The [WriterTo] and
    [ReaderFrom] shortcuts obey the same contract as the loop and are not
    modelled apart: which bytes are read and written, in which order, and
    what is returned are those of the loop; how the bytes are cut into
    [Write] calls is the loop's and need not be the shortcut's. *)
Definition CopyBuffer {W R} `{Writer W} `{Reader R}
    (fuel : nat) (dst : W) (src : R) (buf : list byte) : copy_result W R :=
  if (length buf =? 0)%nat then None
  else copyBuffer_loop fuel dst src (length buf) 0.

(** Number of reads after which a scripted stream is exhausted. *)
Fixpoint stream_size (s : stream) : nat :=
  match s with
  | [] => O
  | (data, _) :: rest => S (length data + stream_size rest)
  end.

(** The bytes a stream can deliver before its first error (or end). *)
Fixpoint avail (s : stream) : list byte :=
  match s with
  | [] => []
  | (data, None) :: rest => data ++ avail rest
  | (data, Some _) :: _ => data
  end.

(* --------------------------------------------------------------------- *)
(** ** package net/http: the response writer of a request *)

(** [http.Header] is a map from canonical keys to value lists. *)
Definition upper (a : ascii) : ascii :=
  let n := nat_of_ascii a in
  if ((97 <=? n) && (n <=? 122))%nat then ascii_of_nat (n - 32) else a.
Definition lower (a : ascii) : ascii :=
  let n := nat_of_ascii a in
  if ((65 <=? n) && (n <=? 90))%nat then ascii_of_nat (n + 32) else a.

(** [textproto.CanonicalMIMEHeaderKey] on a key made of letters, digits
    and dashes: upper case at the start and after a dash, lower case
    elsewhere. *)
Fixpoint canonical_from (up : bool) (s : string) : string :=
  match s with
  | EmptyString => EmptyString
  | String a rest =>
      String (if up then upper a else lower a)
             (canonical_from (Ascii.eqb a "-"%char) rest)
  end.
Definition CanonicalMIMEHeaderKey (s : string) : string := canonical_from true s.

Definition Header : Type := gmap string (list string).

(** [h.Add(key, value)] appends to the values of the canonical key. *)
Definition Header_Add (h : Header) (key value : string) : Header :=
  let k := CanonicalMIMEHeaderKey key in
  <[k := default [] (h !! k) ++ [value]]> h.

Definition Header_Set (h : Header) (key value : string) : Header :=
  <[CanonicalMIMEHeaderKey key := [value]]> h.

Definition Header_Del (h : Header) (key : string) : Header :=
  delete (CanonicalMIMEHeaderKey key) h.

(** The [http.ResponseWriter] the server hands to a handler.
    - [rw_header]: the map returned by [Header()];
    - [rw_status], [rw_sent]: status code and header snapshot, fixed by the
      first [WriteHeader] (explicit, or implied by the first [Write]);
    - [rw_body]: the body bytes the writer has accepted;
    - [rw_calls]: the arguments of the [Write] calls, in order;
    - [rw_fail]: [Some (k, e)] when the peer goes away after [k] more
      bytes, every later write failing with [e]. *)
Record ResponseWriter : Type := mkResponse {
  rw_header : Header;
  rw_status : option Z;
  rw_sent   : Header;
  rw_body   : list byte;
  rw_calls  : list (list byte);
  rw_fail   : option (nat * error);
}.

Definition new_response (fail : option (nat * error)) : ResponseWriter :=
  mkResponse ∅ None ∅ [] [] fail.

Definition StatusOK : Z := 200.
Definition StatusBadRequest : Z := 400.
Definition StatusUnauthorized : Z := 401.
Definition StatusNotFound : Z := 404.
Definition StatusInternalServerError : Z := 500.

(** [w.WriteHeader(code)] for a final status code, as the handler and
    [http.Error] use it (200, 400, 401, 404, 500): the first call fixes
    the status and takes the snapshot of the header, a later call changes
    nothing.  Informational codes (1xx), which the server sends without
    fixing the status, are outside this model. *)
Definition rw_WriteHeader (w : ResponseWriter) (code : Z) : ResponseWriter :=
  match rw_status w with
  | Some _ => w
  | None => mkResponse (rw_header w) (Some code) (rw_header w)
                       (rw_body w) (rw_calls w) (rw_fail w)
  end.

Definition rw_Header_Add (w : ResponseWriter) (key value : string) : ResponseWriter :=
  mkResponse (Header_Add (rw_header w) key value) (rw_status w) (rw_sent w)
             (rw_body w) (rw_calls w) (rw_fail w).

Definition rw_Header_Set (w : ResponseWriter) (key value : string) : ResponseWriter :=
  mkResponse (Header_Set (rw_header w) key value) (rw_status w) (rw_sent w)
             (rw_body w) (rw_calls w) (rw_fail w).

Definition rw_Header_Del (w : ResponseWriter) (key : string) : ResponseWriter :=
  mkResponse (Header_Del (rw_header w) key) (rw_status w) (rw_sent w)
             (rw_body w) (rw_calls w) (rw_fail w).

(** [w.Write(p)]: the first write sends the header with status 200; the
    bytes are accepted up to the point where the peer fails. *)
Definition rw_Write (w : ResponseWriter) (p : list byte)
    : ResponseWriter * (Z * option error) :=
  let w1 := rw_WriteHeader w StatusOK in
  match rw_fail w1 with
  | None =>
      (mkResponse (rw_header w1) (rw_status w1) (rw_sent w1)
                  (rw_body w1 ++ p) (rw_calls w1 ++ [p]) None,
       (Z.of_nat (length p), None))
  | Some (k, e) =>
      if (length p <=? k)%nat
      then (mkResponse (rw_header w1) (rw_status w1) (rw_sent w1)
                       (rw_body w1 ++ p) (rw_calls w1 ++ [p])
                       (Some ((k - length p)%nat, e)),
            (Z.of_nat (length p), None))
      else (mkResponse (rw_header w1) (rw_status w1) (rw_sent w1)
                       (rw_body w1 ++ take k p) (rw_calls w1 ++ [p])
                       (Some (O, e)),
            (Z.of_nat k, Some e))
  end.

#[export] Instance ResponseWriter_Write : Writer ResponseWriter := rw_Write.

(** [http.Error(w, msg, code)]: plain-text headers, the status, then the
    message as one line. *)
Definition http_Error (w : ResponseWriter) (msg : string) (code : Z) : ResponseWriter :=
  let w1 := rw_Header_Del w "Content-Length" in
  let w2 := rw_Header_Set w1 "Content-Type" "text/plain; charset=utf-8" in
  let w3 := rw_Header_Set w2 "X-Content-Type-Options" "nosniff" in
  let w4 := rw_WriteHeader w3 code in
  fst (rw_Write w4 (bytes_of (msg +:+ nl))).

(** [http.NotFound(w, r)]. *)
Definition http_NotFound (w : ResponseWriter) : ResponseWriter :=
  http_Error w "404 page not found" StatusNotFound.


(* --------------------------------------------------------------------- *)
(** ** package encoding/base64 *)

(** An [Encoding]: the 64-character alphabet and the padding character
    ([NoPadding] is [None]). *)
Record Encoding : Type := mkEncoding {
  enc_encode  : list byte;
  enc_padChar : option byte;
}.

Definition encodeStd : string :=
  "ABCDEFGHIJKLMNOPQRSTUVWXYZabcdefghijklmnopqrstuvwxyz0123456789+/".
Definition encodeURL : string :=
  "ABCDEFGHIJKLMNOPQRSTUVWXYZabcdefghijklmnopqrstuvwxyz0123456789-_".
Definition StdPadding : byte := "="%byte.

Definition StdEncoding : Encoding := mkEncoding (bytes_of encodeStd) (Some StdPadding).
Definition URLEncoding : Encoding := mkEncoding (bytes_of encodeURL) (Some StdPadding).

(** [enc.encode[val>>k&0x3F]]. *)
Definition sextet (enc : Encoding) (val : N) (k : N) : byte :=
  nth (N.to_nat (N.land (N.shiftr val k) 63)) (enc_encode enc) x00.

Definition pad (enc : Encoding) (k : nat) : list byte :=
  match enc_padChar enc with
  | Some c => repeat c k
  | None => []
  end.

(** The bytes [enc.Encode] stores: four characters for every three source
    bytes, then the remainder of one or two bytes with its padding. *)
Fixpoint encoded (enc : Encoding) (src : list byte) : list byte :=
  match src with
  | [] => []
  | [a] =>
      let val := N.shiftl (Byte.to_N a) 16 in
      [sextet enc val 18; sextet enc val 12] ++ pad enc 2
  | [a; b] =>
      let val := N.lor (N.shiftl (Byte.to_N a) 16) (N.shiftl (Byte.to_N b) 8) in
      [sextet enc val 18; sextet enc val 12; sextet enc val 6] ++ pad enc 1
  | a :: b :: c :: rest =>
      let val := N.lor (N.lor (N.shiftl (Byte.to_N a) 16)
                              (N.shiftl (Byte.to_N b) 8)) (Byte.to_N c) in
      sextet enc val 18 :: sextet enc val 12 :: sextet enc val 6 ::
      sextet enc val 0 :: encoded enc rest
  end.

(** [enc.Encode(dst, src)] overwrites the front of [dst]; an index out of
    range panics ([None]). *)
Definition Encode (enc : Encoding) (dst src : list byte) : option (list byte) :=
  let out := encoded enc src in
  if (length out <=? length dst)%nat
  then Some (out ++ drop (length out) dst)
  else None.

(** [enc.EncodedLen(n)]; Go's integer division truncates. *)
Definition EncodedLen (enc : Encoding) (n : Z) : Z :=
  match enc_padChar enc with
  | None => n ÷ 3 * 4 + (Z.rem n 3 * 8 + 5) ÷ 6
  | Some _ => (n + 2) ÷ 3 * 4
  end.

(* --------------------------------------------------------------------- *)
(** ** package bufio: the write side of the hijacked connection *)

(** [bufio.Writer] over the connection.  [bw_buf] holds the bytes written
    and not yet flushed, [bw_out] the bytes handed to the connection,
    [bw_err] the sticky error, and [bw_broken] the error every write to
    the connection meets once the peer is gone.  The buffer is taken large
    enough for a write never to force a flush. *)
Record bufioWriter : Type := mkBufio {
  bw_buf    : list byte;
  bw_out    : list byte;
  bw_err    : option error;
  bw_broken : option error;
}.

Definition new_bufio (broken : option error) : bufioWriter :=
  mkBufio [] [] None broken.

Definition bufio_Write (b : bufioWriter) (p : list byte)
    : bufioWriter * (Z * option error) :=
  match bw_err b with
  | Some e => (b, (0, Some e))
  | None => (mkBufio (bw_buf b ++ p) (bw_out b) None (bw_broken b),
             (Z.of_nat (length p), None))
  end.

#[export] Instance bufioWriter_Write : Writer bufioWriter := bufio_Write.

Definition bufio_Flush (b : bufioWriter) : bufioWriter :=
  match bw_err b with
  | Some _ => b
  | None =>
      match bw_buf b, bw_broken b with
      | [], _ => b
      | _, Some e => mkBufio (bw_buf b) (bw_out b) (Some e) (bw_broken b)
      | buf, None => mkBufio [] (bw_out b ++ buf) None None
      end
  end.

(* --------------------------------------------------------------------- *)
(** ** main.go: responseLogWriter *)

Definition noWritten : Z := -1.
Definition defaultStatus : Z := StatusOK.

(** [type responseLogWriter struct { http.ResponseWriter; body; header;
    status; size }].  The embedded [http.ResponseWriter] is an interface
    value and may be nil ([None]). *)
Record responseLogWriter (B : Type) : Type := mkLog {
  lw_ResponseWriter : option ResponseWriter;
  lw_body   : B;
  lw_header : Header;
  lw_status : Z;
  lw_size   : Z;
}.
Arguments mkLog {B} _ _ _ _ _.
Arguments lw_ResponseWriter {B} _.
Arguments lw_body {B} _.
Arguments lw_header {B} _.
Arguments lw_status {B} _.
Arguments lw_size {B} _.

(** The struct literal of the upload flow,
    [&responseLogWriter{body: bufrw.Writer, header: make(http.Header)}]:
    the fields it does not name take their zero value. *)
Definition new_responseLogWriter {B} (body : B) : responseLogWriter B :=
  mkLog None body ∅ 0 0.

(** [net/http] refuses a status code outside 100..999 with a panic. *)
Definition checkWriteHeaderCode (code : Z) : bool := (100 <=? code) && (code <=? 999).

Section ResponseLogWriter.
Context {B : Type} `{Writer B}.

(** [func (c *responseLogWriter) Written() bool { return c.size != noWritten }] *)
Definition Written (c : responseLogWriter B) : bool := negb (lw_size c =? noWritten).

(** [func (c *responseLogWriter) Size() int { return c.size }] *)
Definition Size (c : responseLogWriter B) : Z := lw_size c.

(** [func (c *responseLogWriter) Status() int { return c.status }] *)
Definition Status (c : responseLogWriter B) : Z := lw_status c.

(** [func (w *responseLogWriter) WriteHeader(code int)]:
    [if code > 0 && w.status != code { w.status = code }]. *)
Definition WriteHeader (w : responseLogWriter B) (code : Z) : responseLogWriter B :=
  if (0 <? code) && negb (lw_status w =? code)
  then mkLog (lw_ResponseWriter w) (lw_body w) (lw_header w) code (lw_size w)
  else w.

(** [func (w *responseLogWriter) WriteHeaderNow()]:
    [if !w.Written() { w.size = 0; w.ResponseWriter.WriteHeader(w.status) }].
    The call through a nil embedded interface, or with a status the
    server refuses, panics: [None]. *)
Definition WriteHeaderNow (w : responseLogWriter B) : option (responseLogWriter B) :=
  if Written w then Some w
  else
    match lw_ResponseWriter w with
    | None => None
    | Some rw =>
        if checkWriteHeaderCode (lw_status w)
        then Some (mkLog (Some (rw_WriteHeader rw (lw_status w)))
                         (lw_body w) (lw_header w) (lw_status w) 0)
        else None
    end.

(** [func (w *responseLogWriter) Write(data []byte) (n int, err error)]:
    [w.WriteHeaderNow(); n, err = w.body.Write(data); w.size += n]. *)
Definition lw_Write (w : responseLogWriter B) (data : list byte)
    : option (responseLogWriter B * (Z * option error)) :=
  match WriteHeaderNow w with
  | None => None
  | Some w1 =>
      let '(body1, (n, err)) := Write (lw_body w1) data in
      Some (mkLog (lw_ResponseWriter w1) body1 (lw_header w1) (lw_status w1)
                  (wrap_int (lw_size w1 + n)),
            (n, err))
  end.

(** [func (w responseLogWriter) Header() http.Header { return w.header }] *)
Definition lw_Header (w : responseLogWriter B) : Header := lw_header w.

(** A run of [Write] calls; [None] as soon as one panics.  The result
    carries the [n] each call returned. *)
Fixpoint lw_Writes (w : responseLogWriter B) (datas : list (list byte))
    : option (responseLogWriter B * list Z) :=
  match datas with
  | [] => Some (w, [])
  | data :: rest =>
      match lw_Write w data with
      | None => None
      | Some (w1, (n, _)) =>
          match lw_Writes w1 rest with
          | None => None
          | Some (w2, ns) => Some (w2, n :: ns)
          end
      end
  end.
End ResponseLogWriter.

(** [func (w *responseLogWriter) Flush()]:
    [w.WriteHeaderNow(); w.body.Flush()], for the buffered body of the
    upload flow. *)
Definition lw_Flush (w : responseLogWriter bufioWriter)
    : option (responseLogWriter bufioWriter) :=
  match WriteHeaderNow w with
  | None => None
  | Some w1 => Some (mkLog (lw_ResponseWriter w1) (bufio_Flush (lw_body w1))
                           (lw_header w1) (lw_status w1) (lw_size w1))
  end.

(** [func (w responseLogWriter) WriteString(s string)]:
    [return w.body.WriteString(s)]; the receiver is a copy, the buffer is
    shared. *)
Definition lw_WriteString (w : responseLogWriter bufioWriter) (s : string)
    : responseLogWriter bufioWriter * (Z * option error) :=
  let '(body1, r) := bufio_Write (lw_body w) (bytes_of s) in
  (mkLog (lw_ResponseWriter w) body1 (lw_header w) (lw_status w) (lw_size w), r).


(* --------------------------------------------------------------------- *)
(** ** main.go: clients, configuration, buffers *)

(** Identities of channels, of [*client] pointers and of the
    [http.ResponseWriter] variables that [&w] points to. *)
Definition chan : Type := nat.
Definition loc : Type := nat.
Definition wid : Type := nat.

(** [type client struct].  A nil channel or pointer is [None]. *)
Record client : Type := mkClient {
  fileName          : string;
  clientConnected   : chan;
  downloadCompleted : option chan;
  receiving         : bool;
  receiver          : option wid;
}.

(** The environment the process reads at start-up. *)
Record config : Type := mkConfig {
  downloadBaseUrl : string;
  validUserName   : string;
  validPassword   : string;
}.

Definition prefix : string := "streamer".

(** [const bufferSize = 1 << 15]. *)
Definition bufferSize : nat := Z.to_nat (Z.shiftl 1 15).

(** [bufPool.Get()]: a buffer of [bufferSize] bytes holding whatever its
    last borrower left in it ([stale]), zeroes when it is new. *)
Definition bufPool_Get (stale : list byte) : list byte :=
  take bufferSize (stale ++ repeat x00 bufferSize).

(** What the handler and the flows it competes with did to the shared
    objects, in order. *)
Inductive event : Type :=
| EvInsert (token : string) (p : loc)   (* clients[token] = p *)
| EvDelete (token : string)             (* delete(clients, token) *)
| EvSend (c : chan).                    (* c <- true was received *)

(** The state the closure of [main] shares between requests. *)
Record server : Type := mkServer {
  clients : gmap string loc;            (* map[string]*client *)
  heap    : gmap loc client;            (* the structs the pointers name *)
  writers : gmap wid ResponseWriter;    (* the response writers of GET requests *)
  fresh   : nat;                        (* next identity for make and & *)
  trace   : list event;
}.

Definition new_server : server := mkServer ∅ ∅ ∅ O [].

Definition set_writers (s : server) (ws : gmap wid ResponseWriter) : server :=
  mkServer (clients s) (heap s) ws (fresh s) (trace s).

Definition emit (s : server) (e : event) : server :=
  mkServer (clients s) (heap s) (writers s) (fresh s) (trace s ++ [e]).

(** A Go string holds at most [MaxInt] bytes; building a longer one does
    not succeed ([None]). *)
Definition go_string (s : string) : option string :=
  if Z.of_nat (String.length s) <=? MaxInt then Some s else None.

(* --------------------------------------------------------------------- *)
(** ** main.go: the POST branch (upload) *)

(** Outcome of [w.(http.Hijacker)] and [hj.Hijack()]: on success the read
    side of the connection and the error its write side will meet. *)
Inductive hijack : Type :=
| NotHijacker
| HijackFailed (e : error)
| Hijacked (body : stream) (broken : option error).

(** A POST request after routing: [fileName] cut from the URL, the result
    of [r.BasicAuth()], [r.ContentLength], the clock reading that seeds the
    generator, the content of the pooled buffer and the connection. *)
Record upload_request : Type := mkRequest {
  rq_fileName      : string;
  rq_BasicAuth     : option (string * string);
  rq_ContentLength : Z;
  rq_now           : Z;
  rq_stale         : list byte;
  rq_hijack        : hijack;
}.

(** The deferred calls of the POST branch. *)
Inductive deferred : Type :=
| DeferPut                          (* bufPool.Put(buffer) *)
| DeferDelete (fileID : string)     (* Lock; delete(clients, fileID); Unlock *)
| DeferClose                        (* conn.Close() *)
| DeferCompleted (newClient : loc). (* newClient.downloadCompleted <- true *)

(** The locals of an upload flow once the connection is hijacked.
    [up_w] is the wrapper over the write side, [up_bufrw] the read side,
    [up_calls] the arguments of the calls of [w.Write] so far, and
    [up_defers] the stack of deferred calls, latest first. *)
Record upload : Type := mkUpload {
  up_fileName      : string;
  up_fileID        : string;
  up_newClient     : loc;
  up_receiverCh    : chan;
  up_w             : responseLogWriter bufioWriter;
  up_calls         : list (list byte);
  up_bufrw         : bufioReader;
  up_ContentLength : Z;
  up_buffer        : list byte;
  up_closed        : bool;
  up_defers        : list deferred;
}.

(** How the first part of the POST branch ends: with a reply on the
    original response writer, or blocked in [select]. *)
Inductive started : Type :=
| Replied (w0 : ResponseWriter)
| Waiting (u : upload).

(** The [return] statement an upload flow leaves through after [select]. *)
Inductive exit : Type :=
| ExitDisconnected
| ExitTimedOut
| ExitCopyFailed (e : error)
| ExitTransferred.

(** The cases of the [select]. *)
Inductive select_case : Type :=
| CaseRecv (c : chan)      (* <-receiverCh *)
| CaseDone                 (* <-r.Context().Done() *)
| CaseAfter (d : Z).       (* <-time.After(d) *)

(** [time.Second], in nanoseconds. *)
Definition Second : Z := 1000000000.

Definition msg_credentials : string := "Invalid Credentials".
Definition msg_exists : string := "File already exists. Choose a different name.".
Definition msg_no_hijack : string := "webserver doesn't support hijacking".
Definition msg_connected : string := "Client connected." +:+ nl.
Definition msg_disconnected : string := "Request disconnected." +:+ nl.
Definition msg_timeout : string := "Timed out. No client connected in 120 seconds." +:+ nl.
Definition msg_transferred (fileName : string) : string :=
  fileName +:+ " was transferred successfully." +:+ nl.
Definition content_disposition (fileName : string) : string :=
  "attachment; filename=" +:+ dq +:+ fileName +:+ dq.

Section Handler.
(** The configuration, and the generator of math/rand:
    [rand_Read seed n] is what [rand.New(rand.NewSource(seed)).Read(b)]
    stores in a [b] of [n] bytes, with the error it returns. *)
Variable cfg : config.
Variable rand_Read : Z -> nat -> list byte * option error.

(** [b := make([]byte, 36); source := rand.NewSource(time.Now().UnixNano());
    rng := rand.New(source); n, err := rng.Read(b)]. *)
Definition draw (now : Z) : list byte * Z * option error :=
  let '(data, err) := rand_Read now 36 in
  (take 36 (data ++ repeat x00 36), Z.of_nat (length (take 36 data)), err).

(** [encodedLength := base64.StdEncoding.EncodedLen(n);
    base64.URLEncoding.Encode(buffer, b);
    fileID := string(buffer[:encodedLength])], [buffer] being the pooled
    slice.
    Returns the buffer as well, which the copy uses later. *)
Definition make_fileID (buffer b : list byte) (n : Z) : option (list byte * string) :=
  let encodedLength := EncodedLen StdEncoding n in
  buffer1 ← Encode URLEncoding buffer b;
  if (Z.to_nat encodedLength <=? length buffer1)%nat
  then Some (buffer1, string_of (take (Z.to_nat encodedLength) buffer1))
  else None.

(** The text of phase 1:
    [fmt.Sprintf("HTTP/1.1 200 OK\r\n\r\nTo download the file, curl -o %s %s/%s/%s\n",
                 fileName, downloadBaseUrl, prefix, fileID)]. *)
Definition msg_link (fileName fileID : string) : string :=
  "HTTP/1.1 200 OK" +:+ cr +:+ nl +:+ cr +:+ nl +:+
  "To download the file, curl -o " +:+ fileName +:+ " " +:+
  downloadBaseUrl cfg +:+ "/" +:+ prefix +:+ "/" +:+ fileID +:+ nl.

(** [!ok || user != validUserName || pass != validPassword]. *)
Definition bad_credentials (auth : option (string * string)) : bool :=
  match auth with
  | None => true
  | Some (user, pass) =>
      negb (String.eqb user (validUserName cfg))
      || negb (String.eqb pass (validPassword cfg))
  end.

(** [w.Write([]byte(msg)); bufrw.Writer.Flush()] on the hijacked
    connection. *)
Definition write_flush (u : upload) (msg : string) : option upload :=
  '(w1, _) ← lw_Write (up_w u) (bytes_of msg);
  let w2 := mkLog (lw_ResponseWriter w1) (bufio_Flush (lw_body w1))
                  (lw_header w1) (lw_status w1) (lw_size w1) in
  Some (mkUpload (up_fileName u) (up_fileID u) (up_newClient u)
                 (up_receiverCh u) w2 (up_calls u ++ [bytes_of msg])
                 (up_bufrw u) (up_ContentLength u) (up_buffer u)
                 (up_closed u) (up_defers u)).

Definition push_defer (u : upload) (d : deferred) : upload :=
  mkUpload (up_fileName u) (up_fileID u) (up_newClient u) (up_receiverCh u)
           (up_w u) (up_calls u) (up_bufrw u) (up_ContentLength u)
           (up_buffer u) (up_closed u) (d :: up_defers u).

Definition set_bufrw (u : upload) (r : bufioReader) : upload :=
  mkUpload (up_fileName u) (up_fileID u) (up_newClient u) (up_receiverCh u)
           (up_w u) (up_calls u) r (up_ContentLength u)
           (up_buffer u) (up_closed u) (up_defers u).

(** [delete(clients, fileID)] under the write lock. *)
Definition remove_client (s : server) (fileID : string) : server :=
  emit (mkServer (delete fileID (clients s)) (heap s) (writers s)
                 (fresh s) (trace s))
       (EvDelete fileID).

(** [receiverCh := make(chan bool);
    newClient := &client{clientConnected: receiverCh, fileName: fileName};
    clients[fileID] = newClient] under the write lock. *)
Definition register (s : server) (fileID fileName : string)
    : server * (chan * loc) :=
  let receiverCh := fresh s in
  let newClient := S (fresh s) in
  (emit (mkServer (<[fileID := newClient]> (clients s))
                  (<[newClient := mkClient fileName receiverCh None false None]>
                     (heap s))
                  (writers s) (S (S (fresh s))) (trace s))
        (EvInsert fileID newClient),
   (receiverCh, newClient)).

(** The POST branch up to the [select], run without another request
    getting between its test of the map and its insert.  Before the
    hijack the only deferred calls are [bufPool.Put] and the removal of
    the client, and they run when the handler returns early.  The test
    and the insert are two critical sections; [upload_check] and
    [upload_register] below give them one by one. *)
Definition upload_start (r : upload_request) (w0 : ResponseWriter) (s : server)
    : option (server * started) :=
  let fileName := rq_fileName r in
  if bad_credentials (rq_BasicAuth r)
  then Some (s, Replied (http_Error w0 msg_credentials StatusUnauthorized))
  else
    let '(b, n, err) := draw (rq_now r) in
    match err with
    | Some e =>
        Some (s, Replied (fst (rw_Write (rw_WriteHeader w0 StatusBadRequest)
                                        (bytes_of (Error e)))))
    | None =>
        '(buffer, fileID) ← make_fileID (bufPool_Get (rq_stale r)) b n;
        match clients s !! fileID with
        | Some _ =>
            Some (s, Replied (fst (rw_Write (rw_WriteHeader w0 StatusBadRequest)
                                            (bytes_of msg_exists))))
        | None =>
            let '(s1, (receiverCh, newClient)) := register s fileID fileName in
            match rq_hijack r with
            | NotHijacker =>
                Some (remove_client s1 fileID,
                      Replied (http_Error w0 msg_no_hijack StatusInternalServerError))
            | HijackFailed e =>
                Some (remove_client s1 fileID,
                      Replied (http_Error w0 (Error e) StatusInternalServerError))
            | Hijacked body broken =>
                link ← go_string (msg_link fileName fileID);
                u ← write_flush
                      (mkUpload fileName fileID newClient receiverCh
                                (new_responseLogWriter (new_bufio broken)) []
                                (new_reader body) (rq_ContentLength r) buffer false
                                [DeferClose; DeferDelete fileID; DeferPut])
                      link;
                Some (s1, Waiting u)
            end
        end
    end.

(** The first half of the POST branch, up to the [RUnlock] after the
    test of [clients[fileID]]: the request is answered, or it has passed
    the test with its pooled buffer and its token.  The map is read and
    nothing is changed. *)
Inductive checked : Type :=
| Refused (w0 : ResponseWriter)
| Passed (buffer : list byte) (fileID : string).

Definition upload_check (r : upload_request) (w0 : ResponseWriter) (s : server)
    : option checked :=
  if bad_credentials (rq_BasicAuth r)
  then Some (Refused (http_Error w0 msg_credentials StatusUnauthorized))
  else
    let '(b, n, err) := draw (rq_now r) in
    match err with
    | Some e =>
        Some (Refused (fst (rw_Write (rw_WriteHeader w0 StatusBadRequest)
                                     (bytes_of (Error e)))))
    | None =>
        '(buffer, fileID) ← make_fileID (bufPool_Get (rq_stale r)) b n;
        match clients s !! fileID with
        | Some _ =>
            Some (Refused (fst (rw_Write (rw_WriteHeader w0 StatusBadRequest)
                                         (bytes_of msg_exists))))
        | None => Some (Passed buffer fileID)
        end
    end.

(** The second half, from the [Lock] before the insert to the [select],
    on the state the map is in by then: [clients[fileID] = newClient]
    stores the client whether or not the key is there. *)
Definition upload_register (r : upload_request) (w0 : ResponseWriter)
    (buffer : list byte) (fileID : string) (s : server)
    : option (server * started) :=
  let fileName := rq_fileName r in
  let '(s1, (receiverCh, newClient)) := register s fileID fileName in
  match rq_hijack r with
  | NotHijacker =>
      Some (remove_client s1 fileID,
            Replied (http_Error w0 msg_no_hijack StatusInternalServerError))
  | HijackFailed e =>
      Some (remove_client s1 fileID,
            Replied (http_Error w0 (Error e) StatusInternalServerError))
  | Hijacked body broken =>
      link ← go_string (msg_link fileName fileID);
      u ← write_flush
            (mkUpload fileName fileID newClient receiverCh
                      (new_responseLogWriter (new_bufio broken)) []
                      (new_reader body) (rq_ContentLength r) buffer false
                      [DeferClose; DeferDelete fileID; DeferPut])
            link;
      Some (s1, Waiting u)
  end.

(** [select { case <-receiverCh: ... case <-r.Context().Done(): ...
    case <-time.After(120 * time.Second): ... }] *)
Definition upload_select (u : upload) : list select_case :=
  [CaseRecv (up_receiverCh u); CaseDone; CaseAfter (120 * Second)].

(** Fuel with which the copy of a scripted body returns. *)
Definition copy_fuel (u : upload) : nat := S (stream_size (br_pending (up_bufrw u))).

(** The POST branch from the [select] to its [return], given the case
    that fired.  [None]: the flow panics or never returns. *)
Definition upload_body (k : select_case) (u : upload) (s : server)
    : option (server * upload * exit) :=
  match k with
  | CaseRecv c =>
      if negb (c =? up_receiverCh u)%nat then None
      else
        u1 ← write_flush u msg_connected;
        let u2 := push_defer u1 (DeferCompleted (up_newClient u)) in
        cl ← heap s !! up_newClient u;
        w ← receiver cl;
        sink ← writers s !! w;
        let sink1 := rw_Header_Add sink "content-disposition"
                                   (content_disposition (up_fileName u)) in
        '(sink2, src, (_, err)) ←
           CopyBuffer (copy_fuel u) sink1
                      (LimitReader (up_bufrw u) (up_ContentLength u))
                      (up_buffer u);
        let s1 := set_writers s (<[w := sink2]> (writers s)) in
        let u3 := set_bufrw u2 (lr_R src) in
        match err with
        | Some e =>
            u4 ← write_flush u3 (Error e);
            Some (s1, u4, ExitCopyFailed e)
        | None =>
            u4 ← write_flush u3 (msg_transferred (up_fileName u));
            Some (s1, u4, ExitTransferred)
        end
  | CaseDone =>
      u1 ← write_flush u msg_disconnected;
      Some (s, u1, ExitDisconnected)
  | CaseAfter d =>
      if negb (d =? 120 * Second) then None
      else
        u1 ← write_flush u msg_timeout;
        Some (s, u1, ExitTimedOut)
  end.

(** What one deferred call does when it returns.  A send on a nil
    channel never returns.  The send of the completion signal,
    [newClient.downloadCompleted <- true], is unbuffered: it returns only
    when a download receives from that very channel, and blocks for good
    when none does.  [run_deferred] gives the effect of the send that was
    received; whether there is a receiver is decided by [perform], which
    lets the send happen only as the move [Complete]. *)
Definition run_deferred (d : deferred) (s : server) (u : upload)
    : option (server * upload) :=
  match d with
  | DeferCompleted newClient =>
      cl ← heap s !! newClient;
      c ← downloadCompleted cl;
      Some (emit s (EvSend c), u)
  | DeferClose =>
      Some (s, mkUpload (up_fileName u) (up_fileID u) (up_newClient u)
                        (up_receiverCh u) (up_w u) (up_calls u) (up_bufrw u)
                        (up_ContentLength u) (up_buffer u) true (up_defers u))
  | DeferDelete fileID => Some (remove_client s fileID, u)
  | DeferPut => Some (s, u)
  end.

(** The deferred calls run latest first when the handler returns.  For a
    paired flow this is the run in which the completion signal is
    received. *)
Fixpoint run_defers (ds : list deferred) (s : server) (u : upload)
    : option (server * upload) :=
  match ds with
  | [] => Some (s, u)
  | d :: rest =>
      '(s1, u1) ← run_deferred d s u;
      run_defers rest s1 u1
  end.

(** The POST branch from the [select] to the end of the handler, for a
    handler that does return: a paired flow whose completion signal no
    download receives stays in its deferred send, which [perform] shows
    and this function does not. *)
Definition upload_resume (k : select_case) (u : upload) (s : server)
    : option (server * upload * exit) :=
  '(s1, u1, x) ← upload_body k u s;
  '(s2, u2) ← run_defers (up_defers u1) s1 u1;
  Some (s2, u2, x).
End Handler.

(* --------------------------------------------------------------------- *)
(** ** main.go: the GET branch (download) *)

Definition msg_receiving : string :=
  "File already being received by another client." +:+ nl.

(** [RLock; client, ok := clients[fileName]; RUnlock]: the token is the
    file name of the URL. *)
Definition find_client (s : server) (token : string) : option loc :=
  clients s !! token.

(** [client.receiving], read through the pointer and outside the lock. *)
Definition is_receiving (s : server) (p : loc) : option bool :=
  receiving <$> heap s !! p.

(** [Lock; client.receiver = &w; client.receiving = true;
    client.downloadCompleted = make(chan bool); Unlock]. *)
Definition claim (s : server) (p : loc) (w : wid) : option server :=
  cl ← heap s !! p;
  Some (mkServer (clients s)
                 (<[p := mkClient (fileName cl) (clientConnected cl)
                                  (Some (fresh s)) true (Some w)]> (heap s))
                 (writers s) (S (fresh s)) (trace s)).

(** A reply written to the response writer the request came with. *)
Definition reply (s : server) (w : wid) (f : ResponseWriter -> ResponseWriter)
    : server :=
  set_writers s (alter f w (writers s)).

Inductive download_end : Type := NotFound | Rejected | Served.

(** Where a download flow stands: before the lookup, holding the pointer,
    past the test of [receiving], sending the pairing signal, waiting for
    the completion signal, or returned.  A waiting download holds the
    channel that [client.downloadCompleted] named when it began to wait:
    [<-client.downloadCompleted] evaluates its operand once, so that a
    later claim, which stores a new channel in the field, does not move
    it.  A nil channel is [None]. *)
Inductive download : Type :=
| DlStart (token : string)
| DlFound (p : loc)
| DlClaiming (p : loc)
| DlSending (p : loc)
| DlWaiting (c : option chan)
| DlDone (e : download_end).

(** One step of a download flow that needs no partner.  [None] when the
    flow is blocked on a channel or has returned. *)
Definition download_step (w : wid) (d : download) (s : server)
    : option (server * download) :=
  match d with
  | DlStart token =>
      match find_client s token with
      | Some p => Some (s, DlFound p)
      | None => Some (reply s w http_NotFound, DlDone NotFound)
      end
  | DlFound p =>
      r ← is_receiving s p;
      if negb r then Some (s, DlClaiming p)
      else Some (reply s w (fun rw => http_Error rw msg_receiving StatusBadRequest),
                 DlDone Rejected)
  | DlClaiming p =>
      s1 ← claim s p w;
      Some (s1, DlSending p)
  | DlSending _ | DlWaiting _ | DlDone _ => None
  end.

(** The GET branch run without interruption up to the point where it
    blocks or returns. *)
Definition download_start (token : string) (w : wid) (s : server)
    : option (server * download) :=
  '(s1, d1) ← download_step w (DlStart token) s;
  match d1 with
  | DlFound _ =>
      '(s2, d2) ← download_step w d1 s1;
      match d2 with
      | DlClaiming _ => download_step w d2 s2
      | _ => Some (s2, d2)
      end
  | _ => Some (s1, d1)
  end.

(** The channel a blocked download sends on, read through the pointer
    when the send is attempted, and the channel a waiting download
    receives from, which it read when it began to wait. *)
Definition sending_on (s : server) (d : download) : option chan :=
  match d with
  | DlSending p => clientConnected <$> heap s !! p
  | _ => None
  end.

Definition receiving_on (d : download) : option chan :=
  match d with
  | DlWaiting c => c
  | _ => None
  end.

(** The handler of a served download returns: the server completes the
    response. *)
Definition download_return (s : server) (w : wid) : server :=
  reply s w (fun rw => rw_WriteHeader rw StatusOK).

(* --------------------------------------------------------------------- *)
(** ** Flows running side by side *)

Inductive flow : Type :=
| Download (w : wid) (d : download)
| UpSelect (u : upload)                 (* blocked in select *)
| UpReturning (u : upload) (x : exit)   (* running its deferred calls *)
| UpDone (u : upload) (x : exit).

Record system : Type := mkSystem {
  sys_server : server;
  sys_flows  : list flow;
}.

(** What the scheduler may do next.  A send and its receive are one
    move.  With [Pair] the download's send is received by the [select],
    and the download goes on to [<-client.downloadCompleted]: it reads
    the field and waits on the channel it found.  With [Complete] the
    upload's deferred send, on the channel the field names at that
    moment, is received by a download that waits on that channel; with
    no such download the move does not exist and the upload stays where
    it is. *)
Inductive action : Type :=
| Step (i : nat)                       (* flow i moves on its own *)
| Fire (i : nat) (k : select_case)     (* the select of upload i: Done or After *)
| Pair (i j : nat)                     (* download i sends, the select of upload j receives *)
| Complete (j i : nat).                (* upload j sends, download i receives *)

Definition pop_defer (u : upload) : upload :=
  mkUpload (up_fileName u) (up_fileID u) (up_newClient u) (up_receiverCh u)
           (up_w u) (up_calls u) (up_bufrw u) (up_ContentLength u)
           (up_buffer u) (up_closed u) (tail (up_defers u)).

Definition returning (u : upload) (x : exit) : flow :=
  match up_defers u with
  | [] => UpDone u x
  | _ => UpReturning u x
  end.

Definition perform (a : action) (y : system) : option system :=
  let s := sys_server y in
  let fs := sys_flows y in
  match a with
  | Step i =>
      f ← fs !! i;
      match f with
      | Download w d =>
          '(s1, d1) ← download_step w d s;
          Some (mkSystem s1 (<[i := Download w d1]> fs))
      | UpReturning u x =>
          match up_defers u with
          | [] => None
          | DeferCompleted _ :: _ => None
          | d :: _ =>
              '(s1, u1) ← run_deferred d s u;
              Some (mkSystem s1 (<[i := returning (pop_defer u1) x]> fs))
          end
      | _ => None
      end
  | Fire i k =>
      f ← fs !! i;
      match f, k with
      | UpSelect u, (CaseDone | CaseAfter _) =>
          '(s1, u1, x) ← upload_body k u s;
          Some (mkSystem s1 (<[i := returning u1 x]> fs))
      | _, _ => None
      end
  | Pair i j =>
      f ← fs !! i;
      g ← fs !! j;
      match f, g with
      | Download w d, UpSelect u =>
          c ← sending_on s d;
          match d with
          | DlSending p =>
              cl ← heap s !! p;
              '(s1, u1, x) ← upload_body (CaseRecv c) u (emit s (EvSend c));
              Some (mkSystem s1 (<[j := returning u1 x]>
                                   (<[i := Download w (DlWaiting (downloadCompleted cl))]>
                                      fs)))
          | _ => None
          end
      | _, _ => None
      end
  | Complete j i =>
      g ← fs !! j;
      f ← fs !! i;
      match g, f with
      | UpReturning u x, Download w d =>
          match up_defers u with
          | DeferCompleted q :: _ =>
              cl ← heap s !! q;
              c ← downloadCompleted cl;
              c' ← receiving_on d;
              if negb (c =? c')%nat then None
              else
                '(s1, u1) ← run_deferred (DeferCompleted q) s u;
                Some (mkSystem (download_return s1 w)
                               (<[j := returning (pop_defer u1) x]>
                                  (<[i := Download w (DlDone Served)]> fs)))
          | _ => None
          end
      | _, _ => None
      end
  end.

(** A schedule, run from left to right. *)
Fixpoint run (sched : list action) (y : system) : option system :=
  match sched with
  | [] => Some y
  | a :: rest => y1 ← perform a y; run rest y1
  end.

(** A GET request arrives: the server creates its response writer. *)
Definition accept (s : server) (fail : option (nat * error)) : server * wid :=
  (mkServer (clients s) (heap s) (<[fresh s := new_response fail]> (writers s))
            (S (fresh s)) (trace s),
   fresh s).


(* --------------------------------------------------------------------- *)
(** ** Measures used by the statements *)

(** The [n] the body reports for each of a run of writes. *)
Fixpoint body_counts {B} `{Writer B} (b : B) (datas : list (list byte)) : list Z :=
  match datas with
  | [] => []
  | data :: rest =>
      let '(b1, (n, _)) := Write b data in
      n :: body_counts b1 rest
  end.

Definition sum_Z (ns : list Z) : Z := fold_right Z.add 0 ns.

(** The counts are non-negative and their total fits an [int]. *)
Definition counts_fit (ns : list Z) : bool :=
  forallb (Z.leb 0) ns && (sum_Z ns <=? MaxInt).

(** Characters that need no escaping in a URL path segment and that the
    URL alphabet draws from: letters, digits, dash and underscore. *)
Definition url_safe (c : byte) : bool :=
  let n := Byte.to_N c in
  ((65 <=? n) && (n <=? 90) || (97 <=? n) && (n <=? 122) ||
   (48 <=? n) && (n <=? 57) || (n =? 45) || (n =? 95))%N.

(* --------------------------------------------------------------------- *)
(** ** A sample deployment *)

(** The configuration of the README, a generator that repeats one byte,
    and the upload of a five-byte file. *)
Definition sample_config : config :=
  mkConfig "http://localhost:3000" "user" "password".

Definition sample_rand (seed : Z) (n : nat) : list byte * option error :=
  (repeat (nth (Z.to_nat (seed `mod` 256)) (bytes_of encodeStd) "a"%byte) n, None).

Definition failing_rand (seed : Z) (n : nat) : list byte * option error :=
  ([], Some (ErrOther "entropy source unavailable")).

Definition sample_upload (length : Z) (body : stream) : upload_request :=
  mkRequest "hello.txt" (Some ("user", "password")) length 7 []
            (Hijacked body None).

Definition hello_body : stream := [(bytes_of "hel", None); (bytes_of "lo", None)].

(** The header that travels with the status line of a response: the
    snapshot once it is taken, the live map until then. *)
Definition header_sent (w : ResponseWriter) : Header :=
  match rw_status w with
  | None => rw_header w
  | Some _ => rw_sent w
  end.

(** What one copy did, seen from both ends: [consumed] are the bytes the
    reader handed out, [accepted] how many of them the writer took. *)
Record copied (sink : ResponseWriter) (rd : bufioReader) (N : Z)
    (sink' : ResponseWriter) (rd' : bufioReader) (N' : Z) (err : option error)
    (consumed : list byte) (accepted : nat) : Prop := mkCopied {
  cp_read      : br_read rd' = br_read rd ++ consumed;
  cp_calls     : concat (rw_calls sink') = concat (rw_calls sink) ++ consumed;
  cp_body      : rw_body sink' = rw_body sink ++ take accepted consumed;
  cp_accepted  : (accepted <= length consumed)%nat;
  cp_prefix    : consumed = take (length consumed) (avail (br_pending rd));
  cp_limit     : (length consumed <= Z.to_nat N)%nat;
  cp_left      : N' = N - Z.of_nat (length consumed);
  cp_done      : err = None ->
                 accepted = length consumed /\
                 consumed = take (Z.to_nat N) (avail (br_pending rd));
  cp_short     : (accepted < length consumed)%nat -> err <> None;
  cp_header    : rw_header sink' = rw_header sink;
  cp_sent      : header_sent sink' = header_sent sink;
  cp_untouched : consumed = [] -> sink' = sink;
  cp_status    : consumed <> [] -> rw_status sink' = Some (default StatusOK (rw_status sink));
}.

(** What the claim of a download leaves behind for the upload flow [u]:
    its client names the response writer [w] and the completion channel
    [c], and [w] is the writer [sink]. *)
Definition paired (s : server) (u : upload) (w : wid) (c : chan)
    (sink : ResponseWriter) : Prop :=
  exists cl,
    heap s !! up_newClient u = Some cl /\
    receiver cl = Some w /\
    downloadCompleted cl = Some c /\
    writers s !! w = Some sink.

(** The text of phase 2 for each case of the [select], and the event the
    case stands for. *)
Definition phase2 (k : select_case) : string :=
  match k with
  | CaseRecv _ => msg_connected
  | CaseDone => msg_disconnected
  | CaseAfter _ => msg_timeout
  end.

(** The text of phase 3 after a copy that returned [err]. *)
Definition phase3 (fileName : string) (err : option error) : string :=
  match err with
  | Some e => Error e
  | None => msg_transferred fileName
  end.

Definition exit_of (err : option error) : exit :=
  match err with
  | Some e => ExitCopyFailed e
  | None => ExitTransferred
  end.

(** How often a trace removes the token, resp. sends on the channel. *)
Definition is_delete (token : string) (e : event) : bool :=
  match e with
  | EvDelete t => String.eqb t token
  | _ => false
  end.

Definition is_send (c : chan) (e : event) : bool :=
  match e with
  | EvSend c' => (c' =? c)%nat
  | _ => false
  end.

Definition deletions (token : string) (evs : list event) : nat :=
  length (filter (fun e => is_delete token e = true) evs).

Definition sends (c : chan) (evs : list event) : nat :=
  length (filter (fun e => is_send c e = true) evs).

(** [base64.RawURLEncoding]: the URL alphabet without padding. *)
Definition RawURLEncoding : Encoding := mkEncoding (bytes_of encodeURL) None.

(** The sample upload at its [select], and the same upload after a
    download claimed it. *)
Definition no_upload : upload :=
  mkUpload "" "" O O (new_responseLogWriter (new_bufio None)) [] (new_reader [])
           0 [] false [].

Definition sample_started (length : Z) (body : stream) : option (server * started) :=
  upload_start sample_config sample_rand (sample_upload length body)
               (new_response None) new_server.

Definition sample_server (length : Z) (body : stream) : server :=
  match sample_started length body with
  | Some (s, _) => s
  | None => new_server
  end.

Definition sample_flow (length : Z) (body : stream) : upload :=
  match sample_started length body with
  | Some (_, Waiting u) => u
  | _ => no_upload
  end.

Definition is_waiting (o : option (server * started)) : bool :=
  match o with
  | Some (_, Waiting _) => true
  | _ => false
  end.

Definition sample_claimed (length : Z) (body : stream) (fail : option (nat * error))
    : server :=
  let '(s, w) := accept (sample_server length body) fail in
  match download_start (up_fileID (sample_flow length body)) w s with
  | Some (s1, DlSending p) => emit s1 (EvSend (up_receiverCh (sample_flow length body)))
  | _ => s
  end.


(** Two downloads of the sample upload arrive while it waits: the flows
    are the upload (0) and the downloads (1 and 2). *)
Definition race_system : system :=
  let u := sample_flow 5 hello_body in
  let '(s1, w1) := accept (sample_server 5 hello_body) None in
  let '(s2, w2) := accept s1 None in
  mkSystem s2 [UpSelect u;
               Download w1 (DlStart (up_fileID u));
               Download w2 (DlStart (up_fileID u))].

(** Both downloads look the client up and test [receiving] before either
    takes the write lock. *)
Definition race_schedule : list action :=
  [Step 1; Step 2; Step 1; Step 2; Step 1; Step 2]%nat.

(** The same downloads, each running its lookup, test and claim without
    the other getting in between. *)
Definition serial_schedule : list action :=
  [Step 1; Step 1; Step 1; Step 2; Step 2]%nat.

(** What a system shows of its download flows and of the client. *)
Definition downloads (y : system) : list (wid * download) :=
  omap (fun f => match f with Download w d => Some (w, d) | _ => None end)
       (sys_flows y).

Definition client_of (y : system) (p : loc) : option client :=
  heap (sys_server y) !! p.

Definition response_of (y : system) (w : wid) : option (option Z * list byte) :=
  rw ← writers (sys_server y) !! w; Some (rw_status rw, rw_body rw).

Definition exits (y : system) : list exit :=
  omap (fun f => match f with UpDone _ x => Some x | _ => None end) (sys_flows y).

(** The state of an upload flow that has reached its [select]. *)
Record at_select (cfg : config) (r : upload_request) (s s1 : server) (u : upload)
  : Prop := mkAtSelect {
  sel_fileName  : up_fileName u = rq_fileName r;
  sel_fresh     : clients s !! up_fileID u = None;
  sel_channel   : up_receiverCh u = fresh s;
  sel_pointer   : up_newClient u = S (fresh s);
  sel_clients   : clients s1 = <[up_fileID u := up_newClient u]> (clients s);
  sel_heap      : heap s1 =
                    <[up_newClient u :=
                        mkClient (rq_fileName r) (up_receiverCh u) None false None]>
                      (heap s);
  sel_writers   : writers s1 = writers s;
  sel_trace     : trace s1 = trace s ++ [EvInsert (up_fileID u) (up_newClient u)];
  sel_calls     : up_calls u = [bytes_of (msg_link cfg (rq_fileName r) (up_fileID u))];
  sel_size      : 0 <= lw_size (up_w u) <= MaxInt;
  sel_embedded  : lw_ResponseWriter (up_w u) = None;
  sel_body      : exists body broken,
                    rq_hijack r = Hijacked body broken /\ up_bufrw u = new_reader body;
  sel_length    : up_ContentLength u = rq_ContentLength r;
  sel_buffer    : length (up_buffer u) = bufferSize;
  sel_open      : up_closed u = false;
  sel_defers    : up_defers u = [DeferClose; DeferDelete (up_fileID u); DeferPut];
}.

(* ===================================================================== *)
(** * Part I, continued. The rest of the handler *)
(* ===================================================================== *)

(* --------------------------------------------------------------------- *)
(** ** main.go: the route *)

(** [strings.LastIndex(s, substr)]: the index of the last instance of
    [substr] in [s], or -1. *)
Fixpoint LastIndex (s substr : string) : Z :=
  match s with
  | EmptyString => if String.prefix substr EmptyString then 0 else -1
  | String _ rest =>
      let i := LastIndex rest substr in
      if 0 <=? i then i + 1
      else if String.prefix substr s then 0 else -1
  end.

(** [s[n:]] for [n] within the string. *)
Fixpoint string_drop (n : nat) (s : string) : string :=
  match n, s with
  | O, _ => s
  | S n', String _ rest => string_drop n' rest
  | S _, EmptyString => EmptyString
  end.

(** [s[k:]]; a bound out of range panics ([None]). *)
Definition slice_from (k : Z) (s : string) : option string :=
  if (0 <=? k) && (k <=? Z.of_nat (String.length s))
  then Some (string_drop (Z.to_nat k) s)
  else None.

(** The separator the handler looks for, ["/" + prefix + "/"]. *)
Definition route_mark : string := "/" +:+ prefix +:+ "/".

(** How the handler reads the URL:
    [index := strings.LastIndex(url, "/"+prefix+"/")];
    [if index < 0 { http.NotFound(w, r); return }];
    [fileName := url[index+len(prefix)+2:]]. *)
Inductive routing : Type :=
| NoRoute
| Route (fileName : string)
| RoutePanic.

Definition route (url : string) : routing :=
  let index := LastIndex url route_mark in
  if index <? 0 then NoRoute
  else match slice_from (index + Z.of_nat (String.length prefix) + 2) url with
       | Some fileName => Route fileName
       | None => RoutePanic
       end.

(** No byte of the string is a slash. *)
Definition slash_free (s : string) : Prop :=
  Forall (fun c => c <> "/"%byte) (bytes_of s).

(* --------------------------------------------------------------------- *)
(** ** main.go: the handler as a whole *)

(** A request as [http.HandleFunc("/", ...)] receives it: the URL and the
    method, and for a POST the credentials, the declared length, the
    clock, the pooled buffer and the connection. *)
Record request : Type := mkHttp {
  hr_url           : string;
  hr_method        : string;
  hr_BasicAuth     : option (string * string);
  hr_ContentLength : Z;
  hr_now           : Z;
  hr_stale         : list byte;
  hr_hijack        : hijack;
}.

Definition upload_of (q : request) (fileName : string) : upload_request :=
  mkRequest fileName (hr_BasicAuth q) (hr_ContentLength q) (hr_now q)
            (hr_stale q) (hr_hijack q).

(** Where the handler stands when it blocks or returns: returned, with
    whatever it wrote in the response writer of the request; blocked in
    the [select] of an upload; or inside the GET branch. *)
Inductive handled : Type :=
| Returned
| Uploading (u : upload)
| Downloading (d : download).

(** The handler, up to the first point where it blocks or returns.  The
    response writer of the request is the entry [w] of [writers]. *)
Definition handle (cfg : config) (rand_Read : Z -> nat -> list byte * option error)
    (q : request) (w : wid) (s : server) : option (server * handled) :=
  match route (hr_url q) with
  | RoutePanic => None
  | NoRoute => Some (reply s w http_NotFound, Returned)
  | Route fileName =>
      if String.eqb (hr_method q) "POST" then
        w0 ← writers s !! w;
        '(s1, st) ← upload_start cfg rand_Read (upload_of q fileName) w0 s;
        match st with
        | Replied w1 => Some (set_writers s1 (<[w := w1]> (writers s1)), Returned)
        | Waiting u => Some (s1, Uploading u)
        end
      else if String.eqb (hr_method q) "GET" then
        '(s1, d) ← download_start fileName w s;
        Some (s1, match d with DlDone _ => Returned | _ => Downloading d end)
      else Some (s, Returned)
  end.

(** The URL of the download link of phase 1. *)
Definition link_url (cfg : config) (fileID : string) : string :=
  downloadBaseUrl cfg +:+ route_mark +:+ fileID.

(** A sample exchange through the handler: two requests have arrived,
    the POST of the README on writer 0 and a GET on writer 1. *)
Definition two_arrivals : server :=
  fst (accept (fst (accept new_server None)) None).

Definition sample_post : request :=
  mkHttp "/streamer/hello.txt" "POST" (Some ("user", "password")) 5 7 []
         (Hijacked hello_body None).

Definition sample_get (url : string) : request :=
  mkHttp url "GET" None 0 0 [] NotHijacker.

Definition sample_handled : option (server * handled) :=
  handle sample_config sample_rand sample_post 0%nat two_arrivals.

Definition handled_server (o : option (server * handled)) : server :=
  match o with
  | Some (s, _) => s
  | None => new_server
  end.

Definition handled_flow (o : option (server * handled)) : upload :=
  match o with
  | Some (_, Uploading u) => u
  | _ => no_upload
  end.

Definition is_uploading (o : option (server * handled)) : bool :=
  match o with
  | Some (_, Uploading _) => true
  | _ => false
  end.

(** What the peer of a hijacked connection has received from an upload
    flow, and what the flow still holds in its buffer. *)
Definition on_wire (u : upload) : list byte := bw_out (lw_body (up_w u)).

Definition unflushed (u : upload) : list byte := bw_buf (lw_body (up_w u)).

(** The registry after a run of deferred calls. *)
Definition deferred_deletes (ds : list deferred) (m : gmap string loc) : gmap string loc :=
  fold_left (fun m d => match d with DeferDelete fileID => delete fileID m | _ => m end)
            ds m.

(** The outcome of a resumed upload, taken apart. *)
Definition resumed_server (o : option (server * upload * exit)) : server :=
  match o with
  | Some (s, _, _) => s
  | None => new_server
  end.

Definition resumed_flow (o : option (server * upload * exit)) : upload :=
  match o with
  | Some (_, u, _) => u
  | None => no_upload
  end.

Definition resumed_exit (o : option (server * upload * exit)) : exit :=
  match o with
  | Some (_, _, x) => x
  | None => ExitDisconnected
  end.

Definition is_resumed (o : option (server * upload * exit)) : bool :=
  match o with
  | Some _ => true
  | None => false
  end.

(** A second upload that reads the clock of the sample upload: another
    name, no declared length, a pooled buffer that was used before, and
    a connection that cannot be hijacked. *)
Definition sample_twin : upload_request :=
  mkRequest "other.bin" (Some ("user", "password")) 0 7 (bytes_of "left over")
            NotHijacker.

(** The sample upload after its timeout. *)
Definition sample_timed_out : option (server * upload * exit) :=
  upload_resume (CaseAfter (120 * Second)) (sample_flow 5 hello_body)
                (sample_server 5 hello_body).

(** The outcome of the first part of an upload, taken apart. *)
Definition started_server (o : option (server * started)) : server :=
  match o with
  | Some (s, _) => s
  | None => new_server
  end.

Definition started_flow (o : option (server * started)) : upload :=
  match o with
  | Some (_, Waiting u) => u
  | _ => no_upload
  end.

(** The sample upload, started when the response writers 0 and 1 of two
    GET requests exist already. *)
Definition sample_exchange : option (server * started) :=
  upload_start sample_config sample_rand (sample_upload 5 hello_body)
               (new_response None) two_arrivals.

(** A whole exchange: the download claims, pairs with the upload and is
    served. *)
Definition exchange_schedule : list action :=
  [Step 1; Step 1; Step 1; Pair 1 0; Complete 0 1; Step 0; Step 0; Step 0]%nat.

(** The download looks the client up, the upload gives up for the reason
    [k] and returns, and only then the download goes on. *)
Definition late_schedule (k : select_case) : list action :=
  [Step 1; Fire 0 k; Step 0; Step 0; Step 0; Step 1; Step 1]%nat.

(* --------------------------------------------------------------------- *)
(** ** main.go: the methods of responseLogWriter, called in any order *)

(** The calls a user of the wrapper of the upload flow can make. *)
Inductive lw_call : Type :=
| CallWrite (data : list byte)
| CallWriteString (s : string)
| CallWriteHeader (code : Z)
| CallFlush.

Definition lw_call_run (w : responseLogWriter bufioWriter) (c : lw_call)
    : option (responseLogWriter bufioWriter) :=
  match c with
  | CallWrite data => fst <$> lw_Write w data
  | CallWriteString s => Some (fst (lw_WriteString w s))
  | CallWriteHeader code => Some (WriteHeader w code)
  | CallFlush => lw_Flush w
  end.

(** A run of calls; [None] as soon as one panics. *)
Fixpoint lw_calls (w : responseLogWriter bufioWriter) (cs : list lw_call)
    : option (responseLogWriter bufioWriter) :=
  match cs with
  | [] => Some w
  | c :: rest => w1 ← lw_call_run w c; lw_calls w1 rest
  end.

(** The bytes a run of calls hands over, the bytes of its [Write] calls
    alone, and the last status code it sets. *)
Fixpoint payload (cs : list lw_call) : list byte :=
  match cs with
  | [] => []
  | CallWrite data :: rest => data ++ payload rest
  | CallWriteString s :: rest => bytes_of s ++ payload rest
  | _ :: rest => payload rest
  end.

Fixpoint counted (cs : list lw_call) : Z :=
  match cs with
  | [] => 0
  | CallWrite data :: rest => Z.of_nat (length data) + counted rest
  | _ :: rest => counted rest
  end.

Fixpoint last_status (st : Z) (cs : list lw_call) : Z :=
  match cs with
  | [] => st
  | CallWriteHeader code :: rest => last_status (if 0 <? code then code else st) rest
  | _ :: rest => last_status st rest
  end.

(** The bytes a buffered connection holds or has sent. *)
Definition bw_all (b : bufioWriter) : list byte := bw_out b ++ bw_buf b.

(** A run of calls on the wrapper as the upload flow builds it. *)
Definition sample_calls : list lw_call :=
  [CallWriteHeader 404; CallWrite (bytes_of "ab"); CallWriteString "cd";
   CallWriteHeader 0; CallFlush; CallWrite (bytes_of "e")].

(** A wrapper in the state the constant [noWritten] stands for: nothing
    written yet, the status [defaultStatus] to be sent through the
    embedded writer. *)
Definition unwritten {B} (rw : option ResponseWriter) (body : B) : responseLogWriter B :=
  mkLog rw body ∅ defaultStatus noWritten.

(* --------------------------------------------------------------------- *)
(** ** Reading a token back *)

(** The place of a character in an alphabet: the table a decoder uses. *)
Fixpoint index_in (c : byte) (l : list byte) : nat :=
  match l with
  | [] => O
  | x :: rest => if Byte.eqb c x then O else S (index_in c rest)
  end.

(** The 24-bit value [Encode] builds from three source bytes. *)
Definition group (a b c : byte) : N :=
  N.lor (N.lor (N.shiftl (Byte.to_N a) 16) (N.shiftl (Byte.to_N b) 8)) (Byte.to_N c).

(** A second upload, which reads the clock later. *)
Definition second_upload : upload_request :=
  mkRequest "b.bin" (Some ("user", "password")) 3 8 []
            (Hijacked [(bytes_of "xyz", None)] None).


(** The sample upload over a connection that cannot be hijacked. *)
Definition plain_upload : upload_request :=
  mkRequest "hello.txt" (Some ("user", "password")) 5 7 [] NotHijacker.

(* --------------------------------------------------------------------- *)
(** ** The test and the insert of an upload, taken apart *)

(** The state without the entry of a token in its map. *)
Definition forget (s : server) (fileID : string) : server :=
  mkServer (delete fileID (clients s)) (heap s) (writers s) (fresh s) (trace s).

(** The outcome of the test, taken apart. *)
Definition checked_buffer (o : option checked) : list byte :=
  match o with
  | Some (Passed buffer _) => buffer
  | _ => []
  end.

Definition checked_token (o : option checked) : string :=
  match o with
  | Some (Passed _ fileID) => fileID
  | _ => EmptyString
  end.

Definition is_passed (o : option checked) : bool :=
  match o with
  | Some (Passed _ _) => true
  | _ => false
  end.

(** The sample upload: its test, made when the response writers 0 and 1
    of two GET requests exist and nothing is registered, and its
    insert. *)
Definition sample_checked : option checked :=
  upload_check sample_config sample_rand (sample_upload 5 hello_body)
               (new_response None) two_arrivals.

Definition sample_registered : option (server * started) :=
  upload_register sample_config (sample_upload 5 hello_body) (new_response None)
                  (checked_buffer sample_checked) (checked_token sample_checked)
                  two_arrivals.

(** An upload that reads the clock of the sample upload and makes its
    test on the same state, before the sample upload has inserted; its
    insert comes after that of the sample upload. *)
Definition twin_upload : upload_request :=
  mkRequest "other.bin" (Some ("user", "password")) 3 7 (bytes_of "left over")
            (Hijacked [(bytes_of "xyz", None)] None).

Definition twin_checked : option checked :=
  upload_check sample_config sample_rand twin_upload (new_response None) two_arrivals.

Definition twin_registered : option (server * started) :=
  upload_register sample_config twin_upload (new_response None)
                  (checked_buffer twin_checked) (checked_token twin_checked)
                  (started_server sample_registered).

(** The upload with the later clock reading: its test and its insert,
    both after the insert of the sample upload. *)
Definition second_checked : option checked :=
  upload_check sample_config sample_rand second_upload (new_response None)
               (started_server sample_registered).

Definition second_registered : option (server * started) :=
  upload_register sample_config second_upload (new_response None)
                  (checked_buffer second_checked) (checked_token second_checked)
                  (started_server sample_registered).

(* --------------------------------------------------------------------- *)
(** ** A second claim that comes late *)

(** Both downloads look the client up and test [receiving]; the first
    claims, delivers the pairing signal and waits for the completion
    signal; only then the second claims. *)
Definition late_claim_schedule : list action :=
  [Step 1; Step 2; Step 1; Step 2; Step 1; Pair 1 0; Step 2]%nat.

(** The two downloads of the sample upload, the client of the first
    going away after two bytes. *)
Definition failing_race_system : system :=
  let u := sample_flow 5 hello_body in
  let '(s1, w1) := accept (sample_server 5 hello_body)
                          (Some (2%nat, ErrOther "broken pipe")) in
  let '(s2, w2) := accept s1 None in
  mkSystem s2 [UpSelect u;
               Download w1 (DlStart (up_fileID u));
               Download w2 (DlStart (up_fileID u))].

(** What a system shows of the uploads that are running their deferred
    calls: the [return] they left through and the calls still to run. *)
Definition pending (y : system) : list (exit * list deferred) :=
  omap (fun f => match f with UpReturning u x => Some (x, up_defers u) | _ => None end)
       (sys_flows y).

(** What the uploaders have received. *)
Definition received (y : system) : list string :=
  omap (fun f => match f with
                 | UpSelect u | UpReturning u _ | UpDone u _ => Some (string_of (on_wire u))
                 | Download _ _ => None
                 end)
       (sys_flows y).

(** An upload in its deferred completion send, a download that waits on
    a channel and a download that is sending: does the field of the
    client name another channel than the one waited on? *)
Definition is_stranded (y : system) : bool :=
  match sys_flows y with
  | [UpReturning u _; Download _ (DlWaiting (Some c1)); Download _ (DlSending _)] =>
      match up_defers u with
      | DeferCompleted q :: _ =>
          match heap (sys_server y) !! q with
          | Some cl =>
              match downloadCompleted cl with
              | Some c2 => negb (c2 =? c1)%nat
              | None => false
              end
          | None => false
          end
      | _ => false
      end
  | _ => false
  end.

(* ===================================================================== *)
(** * Part II. Properties *)
(* ===================================================================== *)

(* --------------------------------------------------------------------- *)
(** ** Integers and strings *)

Lemma wrap_int_small z : - 2^63 <= z <= MaxInt -> wrap_int z = z.
Proof.
  unfold wrap_int, MaxInt. intros Hz.
  rewrite Z.mod_small; lia.
Qed.

Lemma wrap_int_not_noWritten a n :
  0 <= a <= MaxInt -> 0 <= n <= MaxInt -> wrap_int (a + n) <> noWritten.
Proof.
  unfold wrap_int, MaxInt, noWritten. intros Ha Hn Hw.
  destruct (Z_le_gt_dec (a + n) (2^63 - 1)) as [Hs|Hs].
  - rewrite Z.mod_small in Hw; lia.
  - replace (a + n + 2^63) with ((a + n - 2^63) + 1 * 2^64) in Hw by lia.
    rewrite Z.mod_add in Hw by lia.
    rewrite Z.mod_small in Hw; lia.
Qed.

Lemma length_bytes_of (s : string) : length (bytes_of s) = String.length s.
Proof.
  unfold bytes_of, list_byte_of_string. rewrite length_map.
  induction s as [|a s IH]; simpl; congruence.
Qed.

Lemma bytes_of_string_of (b : list byte) : bytes_of (string_of b) = b.
Proof. apply list_byte_of_string_of_list_byte. Qed.

(* --------------------------------------------------------------------- *)
(** ** responseLogWriter *)

Section ResponseLogWriterFacts.
Context {B : Type} `{Writer B}.

Lemma Written_iff (w : responseLogWriter B) :
  Written w = false <-> lw_size w = noWritten.
Proof.
  unfold Written. destruct (Z.eqb_spec (lw_size w) noWritten); simpl; intuition congruence.
Qed.

Lemma lw_Write_written (w : responseLogWriter B) (data : list byte) :
  lw_size w <> noWritten ->
  lw_Write w data =
    let '(b1, (n, err)) := Write (lw_body w) data in
    Some (mkLog (lw_ResponseWriter w) b1 (lw_header w) (lw_status w)
                (wrap_int (lw_size w + n)), (n, err)).
Proof.
  intros Hs. unfold lw_Write, WriteHeaderNow, Written.
  destruct (Z.eqb_spec (lw_size w) noWritten); [contradiction|]. reflexivity.
Qed.

Lemma counts_fit_cons n ns :
  counts_fit (n :: ns) = true -> 0 <= n /\ counts_fit ns = true /\ n + sum_Z ns <= MaxInt.
Proof.
  unfold counts_fit. simpl. rewrite !andb_true_iff.
  intros [[Hn Hall] Hsum]. apply Z.leb_le in Hn. apply Z.leb_le in Hsum.
  assert (Hpos : 0 <= sum_Z ns).
  { clear -Hall. induction ns as [|m ns IH]; simpl in *; [lia|].
    apply andb_true_iff in Hall as [Hm Hall]. apply Z.leb_le in Hm.
    specialize (IH Hall). lia. }
  split; [lia|]. split; [|lia].
  split; [exact Hall | apply Z.leb_le; lia].
Qed.

Lemma sum_Z_nonneg ns : counts_fit ns = true -> 0 <= sum_Z ns.
Proof.
  induction ns as [|n ns IH]; simpl; [lia|].
  intros Hf. apply counts_fit_cons in Hf as (Hn & Hf & _). specialize (IH Hf). lia.
Qed.

(** A run of writes on a wrapper whose counter is non-negative: nothing
    panics and the counter grows by the counts. *)
Lemma lw_Writes_counts (datas : list (list byte)) :
  forall w : responseLogWriter B,
    0 <= lw_size w ->
    counts_fit (body_counts (lw_body w) datas) = true ->
    lw_size w + sum_Z (body_counts (lw_body w) datas) <= MaxInt ->
    exists w',
      lw_Writes w datas = Some (w', body_counts (lw_body w) datas) /\
      lw_size w' = lw_size w + sum_Z (body_counts (lw_body w) datas) /\
      lw_ResponseWriter w' = lw_ResponseWriter w.
Proof.
  induction datas as [|data rest IH]; intros w Hpos Hfit Hmax.
  - exists w. simpl. split; [reflexivity|]. split; [lia|reflexivity].
  - simpl in *. rewrite lw_Write_written by (unfold noWritten; lia).
    destruct (Write (lw_body w) data) as [b1 [n err]] eqn:Hw.
    apply counts_fit_cons in Hfit as (Hn & Hfit & Hsum).
    pose proof (sum_Z_nonneg _ Hfit) as Hrest.
    simpl in Hmax.
    set (w1 := mkLog (lw_ResponseWriter w) b1 (lw_header w) (lw_status w)
                     (wrap_int (lw_size w + n))).
    assert (Hsz : lw_size w1 = lw_size w + n).
    { subst w1. simpl. apply wrap_int_small. unfold MaxInt in *. lia. }
    assert (Hb : lw_body w1 = b1) by reflexivity.
    assert (Hr : lw_ResponseWriter w1 = lw_ResponseWriter w) by reflexivity.
    clearbody w1.
    destruct (IH w1) as (w' & Hrun & Hsize & Hrw).
    + lia.
    + rewrite Hb. exact Hfit.
    + rewrite Hb. lia.
    + exists w'. rewrite Hb in Hrun, Hsize. rewrite Hrun.
      split; [reflexivity|]. split; [simpl; lia | congruence].
Qed.
End ResponseLogWriterFacts.

(** C9, as the code has it.  [Written] tests the counter against the
    sentinel -1, which the struct literal of the upload flow does not
    store: the wrapper answers [Written() = true] from its construction on
    and after every [Write], never sends a status line of its own (its
    embedded writer stays nil), and [Size] is the sum of the byte counts
    the [Write] calls returned, as long as that sum fits an [int]. *)
Theorem Written_from_construction {B : Type} `{Writer B}
    (body : B) (datas : list (list byte)) :
  counts_fit (body_counts body datas) = true ->
  (forall w : responseLogWriter B, Written w = false <-> lw_size w = noWritten) /\
  Written (new_responseLogWriter body) = true /\
  exists w,
    lw_Writes (new_responseLogWriter body) datas = Some (w, body_counts body datas) /\
    Written w = true /\
    Size w = sum_Z (body_counts body datas) /\
    lw_ResponseWriter w = None.
Proof.
  intros Hfit. split; [apply Written_iff|]. split; [reflexivity|].
  destruct (lw_Writes_counts datas (new_responseLogWriter body)) as (w & Hrun & Hsize & Hrw).
  - simpl. lia.
  - exact Hfit.
  - simpl. unfold counts_fit in Hfit. apply andb_true_iff in Hfit as [_ Hs].
    apply Z.leb_le in Hs. lia.
  - exists w. split; [exact Hrun|]. simpl in Hsize.
    pose proof (sum_Z_nonneg _ Hfit) as Hpos.
    repeat split.
    + unfold Written. destruct (Z.eqb_spec (lw_size w) noWritten) as [E|]; [|reflexivity].
      unfold noWritten in E. lia.
    + unfold Size. lia.
    + exact Hrw.
Qed.

(** C9 at a concrete run: three writes through a fresh buffer. *)
Lemma Written_from_construction_witness :
  exists w,
    lw_Writes (new_responseLogWriter (new_bufio None))
              [bytes_of "HTTP/1.1 200 OK"; []; bytes_of "Client connected."]
      = Some (w, [15; 0; 17]) /\
    Written w = true /\ Size w = 32.
Proof.
  destruct (Written_from_construction (new_bufio None)
              [bytes_of "HTTP/1.1 200 OK"; []; bytes_of "Client connected."])
    as (_ & _ & w & Hrun & Hw & Hs & _).
  - vm_compute. reflexivity.
  - exists w. split; [exact Hrun|]. split; [exact Hw|exact Hs].
Defined.

(** C9 as worded fails on the wrapper the upload flow builds: [Written] is
    not false after construction. *)
Lemma Written_after_construction_counterexample :
  ~ (Written (new_responseLogWriter (new_bufio None)) = false).
Proof. vm_compute. discriminate. Qed.

(* --------------------------------------------------------------------- *)
(** ** base64 and the file ID *)

Lemma sextet_index (val k : N) : (N.to_nat (N.land (N.shiftr val k) 63) < 64)%nat.
Proof.
  change 63%N with (N.ones 6). rewrite N.land_ones.
  pose proof (N.mod_upper_bound (N.shiftr val k) (2 ^ 6)%N) as Hlt.
  change (2 ^ 6)%N with 64%N in *. lia.
Qed.

Lemma sextet_URL (val k : N) : In (sextet URLEncoding val k) (bytes_of encodeURL).
Proof.
  unfold sextet. apply nth_In.
  change (length (enc_encode URLEncoding)) with 64%nat. apply sextet_index.
Qed.

Lemma encodeURL_url_safe : forallb url_safe (bytes_of encodeURL) = true.
Proof. vm_compute. reflexivity. Qed.

Lemma sextet_URL_safe (val k : N) : url_safe (sextet URLEncoding val k) = true.
Proof.
  pose proof encodeURL_url_safe as Hall. rewrite forallb_forall in Hall.
  apply Hall, sextet_URL.
Qed.

Lemma url_safe_plain (c : byte) :
  url_safe c = true -> c <> "+"%byte /\ c <> "/"%byte /\ c <> "="%byte.
Proof.
  intros Hc. repeat split; intros ->; vm_compute in Hc; discriminate.
Qed.

(** Whole groups of three bytes encode to four alphabet characters each,
    without padding. *)
Lemma encoded_groups (enc : Encoding) (n : nat) :
  forall src, length src = (3 * n)%nat ->
    length (encoded enc src) = (4 * n)%nat /\
    (enc = URLEncoding -> Forall (fun c => url_safe c = true) (encoded enc src)).
Proof.
  induction n as [|n IH]; intros src Hlen.
  - destruct src; [|simpl in Hlen; lia]. split; [reflexivity|]. intros _. constructor.
  - destruct src as [|a [|b [|c rest]]]; simpl in Hlen; try lia.
    destruct (IH rest) as [Hl Hsafe]; [lia|].
    cbn [encoded]. split.
    + simpl. lia.
    + intros ->. specialize (Hsafe eq_refl).
      repeat (constructor; [apply sextet_URL_safe|]). exact Hsafe.
Qed.

(** On whole groups the padded and the unpadded URL encodings agree. *)
Lemma encoded_groups_raw (n : nat) :
  forall src, length src = (3 * n)%nat ->
    encoded URLEncoding src = encoded RawURLEncoding src.
Proof.
  induction n as [|n IH]; intros src Hlen.
  - destruct src; [reflexivity|simpl in Hlen; lia].
  - destruct src as [|a [|b [|c rest]]]; simpl in Hlen; try lia.
    cbn [encoded]. rewrite (IH rest) by lia. reflexivity.
Qed.

Lemma length_draw (rand_Read : Z -> nat -> list byte * option error) (now : Z) :
  length (fst (fst (draw rand_Read now))) = 36%nat /\
  0 <= snd (fst (draw rand_Read now)) <= 36.
Proof.
  unfold draw. destruct (rand_Read now 36%nat) as [data err]. cbn [fst snd].
  rewrite !length_take, length_app, repeat_length. lia.
Qed.

Lemma bufferSize_value : Z.of_nat bufferSize = 32768.
Proof. unfold bufferSize. rewrite Z2Nat.id; [reflexivity|]. vm_compute. discriminate. Qed.

Lemma length_bufPool_Get (stale : list byte) : length (bufPool_Get stale) = bufferSize.
Proof.
  unfold bufPool_Get. rewrite length_take, length_app, repeat_length. lia.
Qed.

Lemma EncodedLen_Std (n : Z) :
  0 <= n <= 36 -> 0 <= EncodedLen StdEncoding n <= 48 /\ (n = 36 -> EncodedLen StdEncoding n = 48).
Proof.
  intros Hn. unfold EncodedLen. simpl.
  rewrite Z.quot_div_nonneg by lia.
  split; [|intros ->; reflexivity].
  pose proof (Z.div_le_mono (n + 2) 38 3 ltac:(lia) ltac:(lia)) as Hup.
  pose proof (Z.div_pos (n + 2) 3 ltac:(lia) ltac:(lia)) as Hlo.
  change (38 / 3) with 12 in Hup. lia.
Qed.

(** The file ID of 36 drawn bytes: a prefix of their URL encoding, hence
    made of URL-safe characters. *)
Lemma make_fileID_drawn (buffer b : list byte) (n : Z) :
  length buffer = bufferSize -> length b = 36%nat -> 0 <= n <= 36 ->
  exists buffer1 fileID,
    make_fileID buffer b n = Some (buffer1, fileID) /\
    length buffer1 = bufferSize /\
    bytes_of fileID = take (Z.to_nat (EncodedLen StdEncoding n)) (encoded URLEncoding b) /\
    Forall (fun c => url_safe c = true) (bytes_of fileID).
Proof.
  intros Hbuf Hb Hn.
  destruct (encoded_groups URLEncoding 12 b Hb) as [Hlen Hsafe].
  specialize (Hsafe eq_refl).
  destruct (EncodedLen_Std n Hn) as [Hel _].
  pose proof bufferSize_value as Hsize.
  unfold make_fileID, Encode. rewrite Hlen, Hbuf.
  destruct (Nat.leb_spec (4 * 12) bufferSize) as [Hle|Hgt]; [|lia].
  cbn [mbind option_bind].
  assert (Hl1 : length (encoded URLEncoding b ++ drop (4 * 12) buffer) = bufferSize).
  { rewrite length_app, length_drop, Hlen, Hbuf. lia. }
  rewrite Hl1.
  destruct (Nat.leb_spec (Z.to_nat (EncodedLen StdEncoding n)) bufferSize) as [Hle2|Hgt2]; [|lia].
  eexists _, _. split; [reflexivity|]. split; [exact Hl1|].
  rewrite bytes_of_string_of.
  rewrite take_app_le by lia.
  split; [reflexivity|]. apply Forall_take. exact Hsafe.
Qed.

(* --------------------------------------------------------------------- *)
(** ** The upload flow up to its select *)

#[local] Opaque bufferSize.

(** Reduce the projections of the records of the model, and nothing else. *)
Ltac fields :=
  cbn [up_fileName up_fileID up_newClient up_receiverCh up_w up_calls up_bufrw
       up_ContentLength up_buffer up_closed up_defers
       lw_ResponseWriter lw_body lw_header lw_status lw_size
       clients heap writers fresh trace emit set_writers
       fileName clientConnected downloadCompleted receiving receiver
       bw_buf bw_out bw_err bw_broken
       push_defer set_bufrw pop_defer fst snd] in *.

Lemma write_flush_written (u : upload) (msg : string) :
  lw_size (up_w u) <> noWritten ->
  write_flush u msg =
    let '(b1, (n, _)) := bufio_Write (lw_body (up_w u)) (bytes_of msg) in
    Some (mkUpload (up_fileName u) (up_fileID u) (up_newClient u) (up_receiverCh u)
            (mkLog (lw_ResponseWriter (up_w u)) (bufio_Flush b1) (lw_header (up_w u))
                   (lw_status (up_w u)) (wrap_int (lw_size (up_w u) + n)))
            (up_calls u ++ [bytes_of msg]) (up_bufrw u) (up_ContentLength u)
            (up_buffer u) (up_closed u) (up_defers u)).
Proof.
  intros Hs. unfold write_flush. rewrite lw_Write_written by exact Hs.
  unfold Write, bufioWriter_Write.
  destruct (bufio_Write (lw_body (up_w u)) (bytes_of msg)) as [b1 [n err]].
  reflexivity.
Qed.

Lemma bufio_Write_count (b : bufioWriter) (p : list byte) :
  fst (snd (bufio_Write b p)) = 0 \/ fst (snd (bufio_Write b p)) = Z.of_nat (length p).
Proof. unfold bufio_Write. destruct (bw_err b); simpl; auto. Qed.

(** What a write through the wrapper leaves unchanged, and what it adds. *)
Lemma write_flush_spec (u : upload) (msg : string) :
  lw_size (up_w u) <> noWritten ->
  exists u',
    write_flush u msg = Some u' /\
    up_calls u' = up_calls u ++ [bytes_of msg] /\
    up_fileName u' = up_fileName u /\ up_fileID u' = up_fileID u /\
    up_newClient u' = up_newClient u /\ up_receiverCh u' = up_receiverCh u /\
    up_bufrw u' = up_bufrw u /\ up_ContentLength u' = up_ContentLength u /\
    up_buffer u' = up_buffer u /\ up_closed u' = up_closed u /\
    up_defers u' = up_defers u /\
    lw_ResponseWriter (up_w u') = lw_ResponseWriter (up_w u) /\
    (lw_size (up_w u') = wrap_int (lw_size (up_w u)) \/
     lw_size (up_w u') = wrap_int (lw_size (up_w u) + Z.of_nat (String.length msg))).
Proof.
  intros Hs. rewrite write_flush_written by exact Hs.
  pose proof (bufio_Write_count (lw_body (up_w u)) (bytes_of msg)) as Hn.
  destruct (bufio_Write (lw_body (up_w u)) (bytes_of msg)) as [b1 [n err]].
  simpl in Hn. eexists. split; [reflexivity|]. simpl.
  repeat (split; [reflexivity|]).
  destruct Hn as [-> | ->]; [left; f_equal; lia | right; rewrite length_bytes_of; reflexivity].
Qed.

Lemma go_string_Some (s t : string) :
  go_string s = Some t -> t = s /\ Z.of_nat (String.length s) <= MaxInt.
Proof.
  unfold go_string. destruct (Z.leb_spec (Z.of_nat (String.length s)) MaxInt); [|discriminate].
  intros [= <-]. split; [reflexivity|assumption].
Qed.

Lemma upload_start_Waiting cfg rand_Read r w0 s s1 u :
  upload_start cfg rand_Read r w0 s = Some (s1, Waiting u) ->
  at_select cfg r s s1 u /\
  bad_credentials cfg (rq_BasicAuth r) = false /\
  exists b n buffer,
    draw rand_Read (rq_now r) = (b, n, None) /\
    make_fileID (bufPool_Get (rq_stale r)) b n = Some (buffer, up_fileID u).
Proof.
  unfold upload_start.
  destruct (bad_credentials cfg (rq_BasicAuth r)); [discriminate|].
  pose proof (length_draw rand_Read (rq_now r)) as [Hb Hn].
  destruct (draw rand_Read (rq_now r)) as [[b n] [e|]]; [discriminate|].
  cbn [fst snd] in Hb, Hn.
  destruct (make_fileID_drawn (bufPool_Get (rq_stale r)) b n
              (length_bufPool_Get _) Hb Hn) as (buffer & fileID & Hid & Hbuf & _).
  rewrite Hid. cbn [mbind option_bind].
  destruct (clients s !! fileID) eqn:Hfree; [discriminate|].
  unfold register.
  destruct (rq_hijack r) as [|e|body broken] eqn:Hhj; try discriminate.
  destruct (go_string (msg_link cfg (rq_fileName r) fileID)) as [link|] eqn:Hlink;
    [|discriminate].
  apply go_string_Some in Hlink as [-> Hfits].
  cbn [mbind option_bind].
  rewrite write_flush_written by (simpl; unfold noWritten; lia).
  unfold new_responseLogWriter, new_bufio, bufio_Write. fields.
  cbn [mbind option_bind].
  match goal with
  | |- Some (?a, Waiting ?b) = _ -> _ =>
      remember a as sa eqn:Hsa; remember b as ub eqn:Hub
  end.
  intros [= <- <-]. subst sa ub.
  split; [|split; [reflexivity|exists b, n, buffer; split; [reflexivity|exact Hid]]].
  constructor; fields; try reflexivity; try assumption.
  - rewrite length_bytes_of, wrap_int_small; unfold MaxInt in *; lia.
  - exists body, broken. split; [exact Hhj | reflexivity].
Qed.

(** An upload with good credentials, a successful draw, a free file ID, a
    connection that can be hijacked and a link that fits a string reaches
    its [select]. *)
Lemma upload_start_reaches_select cfg rand_Read r w0 s b n body broken :
  bad_credentials cfg (rq_BasicAuth r) = false ->
  draw rand_Read (rq_now r) = (b, n, None) ->
  rq_hijack r = Hijacked body broken ->
  (forall fileID, Z.of_nat (String.length (msg_link cfg (rq_fileName r) fileID)) <= MaxInt) ->
  (forall buffer fileID,
      make_fileID (bufPool_Get (rq_stale r)) b n = Some (buffer, fileID) ->
      clients s !! fileID = None) ->
  exists s1 u, upload_start cfg rand_Read r w0 s = Some (s1, Waiting u).
Proof.
  intros Hcred Hd Hhj Hfits Hfree.
  pose proof (length_draw rand_Read (rq_now r)) as [Hb Hn].
  rewrite Hd in Hb, Hn. cbn [fst snd] in Hb, Hn.
  destruct (make_fileID_drawn (bufPool_Get (rq_stale r)) b n
              (length_bufPool_Get _) Hb Hn) as (buffer & fileID & Hid & _).
  unfold upload_start. rewrite Hcred, Hd, Hid. cbn [mbind option_bind].
  rewrite (Hfree _ _ Hid). unfold register. rewrite Hhj.
  unfold go_string.
  destruct (Z.leb_spec (Z.of_nat (String.length (msg_link cfg (rq_fileName r) fileID))) MaxInt)
    as [_|Hbig]; [|specialize (Hfits fileID); lia].
  cbn [mbind option_bind].
  rewrite write_flush_written by (simpl; unfold noWritten; lia).
  unfold new_responseLogWriter, new_bufio, bufio_Write. fields.
  cbn [mbind option_bind]. eexists _, _. reflexivity.
Qed.

Lemma rw_Write_calls (w : ResponseWriter) (p : list byte) :
  rw_calls (fst (rw_Write w p)) = rw_calls w ++ [p].
Proof.
  unfold rw_Write, rw_WriteHeader.
  destruct w as [h [st|] sent body calls [[k e]|]]; simpl;
    try destruct (length p <=? k)%nat; reflexivity.
Qed.

Lemma rw_Write_status (w : ResponseWriter) (p : list byte) :
  rw_status (fst (rw_Write w p)) = Some (default StatusOK (rw_status w)).
Proof.
  unfold rw_Write, rw_WriteHeader.
  destruct w as [h [st|] sent body calls [[k e]|]]; simpl;
    try destruct (length p <=? k)%nat; reflexivity.
Qed.

Lemma rw_WriteHeader_fresh (w : ResponseWriter) (code : Z) :
  rw_status w = None ->
  rw_status (rw_WriteHeader w code) = Some code /\
  rw_calls (rw_WriteHeader w code) = rw_calls w.
Proof. intros Hs. unfold rw_WriteHeader. rewrite Hs. split; reflexivity. Qed.

Lemma rw_WriteHeader_calls (w : ResponseWriter) (code : Z) :
  rw_calls (rw_WriteHeader w code) = rw_calls w.
Proof. unfold rw_WriteHeader. destruct (rw_status w); reflexivity. Qed.

(** C6.  The file ID comes from exactly 36 bytes drawn from a generator
    seeded with the clock reading of the request; it is a prefix of their
    URL-alphabet encoding (all of it, 48 characters, when the generator
    fills the slice, and then equal to the unpadded URL encoding: 36 bytes
    are twelve whole groups), so it has no [+], [/] or [=] and every
    character may stand in a URL path unescaped.  When the draw fails the request is
    answered with status 400 and the error text, and the server is left as
    it was: no client is registered. *)
Theorem fileID_url_safe cfg rand_Read r w0 s data err :
  bad_credentials cfg (rq_BasicAuth r) = false ->
  rand_Read (rq_now r) 36%nat = (data, err) ->
  let b := take 36 (data ++ repeat x00 36) in
  let n := Z.of_nat (length (take 36 data)) in
  length b = 36%nat /\
  match err with
  | Some e =>
      exists w',
        upload_start cfg rand_Read r w0 s = Some (s, Replied w') /\
        rw_calls w' = rw_calls w0 ++ [bytes_of (Error e)] /\
        (rw_status w0 = None -> rw_status w' = Some StatusBadRequest)
  | None =>
      exists buffer fileID,
        make_fileID (bufPool_Get (rq_stale r)) b n = Some (buffer, fileID) /\
        bytes_of fileID =
          take (Z.to_nat (EncodedLen StdEncoding n)) (encoded URLEncoding b) /\
        Forall (fun c => url_safe c = true /\
                         c <> "+"%byte /\ c <> "/"%byte /\ c <> "="%byte)
               (bytes_of fileID) /\
        ((36 <= length data)%nat ->
           String.length fileID = 48%nat /\
           bytes_of fileID = encoded RawURLEncoding b) /\
        (forall s1 u,
            upload_start cfg rand_Read r w0 s = Some (s1, Waiting u) ->
            up_fileID u = fileID /\ clients s1 !! fileID = Some (up_newClient u))
  end.
Proof.
  intros Hcred Hdraw b n.
  pose proof (length_draw rand_Read (rq_now r)) as [Hb Hn].
  assert (Hd : draw rand_Read (rq_now r) = (b, n, err)).
  { unfold draw. rewrite Hdraw. reflexivity. }
  rewrite Hd in Hb, Hn. cbn [fst snd] in Hb, Hn.
  split; [exact Hb|].
  destruct err as [e|].
  - eexists. unfold upload_start. rewrite Hcred, Hd.
    split; [reflexivity|]. split.
    + rewrite rw_Write_calls, rw_WriteHeader_calls. reflexivity.
    + intros Hfresh. rewrite rw_Write_status.
      destruct (rw_WriteHeader_fresh w0 StatusBadRequest Hfresh) as [-> _]. reflexivity.
  - destruct (make_fileID_drawn (bufPool_Get (rq_stale r)) b n
                (length_bufPool_Get _) Hb Hn) as (buffer & fileID & Hid & _ & Henc & Hsafe).
    exists buffer, fileID. split; [exact Hid|]. split; [exact Henc|]. split; [|split].
    + eapply Forall_impl; [exact Hsafe|]. intros c Hc. split; [exact Hc|].
      apply url_safe_plain, Hc.
    + intros Hfull.
      assert (Hn36 : n = 36).
      { subst n. rewrite length_take. lia. }
      destruct (EncodedLen_Std n Hn) as [_ Hlen]. specialize (Hlen Hn36).
      destruct (encoded_groups URLEncoding 12 b Hb) as [Hl _].
      split.
      * rewrite <- length_bytes_of, Henc, Hlen, length_take, Hl. reflexivity.
      * rewrite Henc, Hlen, take_ge by (rewrite Hl; simpl; lia).
        apply (encoded_groups_raw 12), Hb.
    + intros s1 u Hstart.
      destruct (upload_start_Waiting _ _ _ _ _ _ _ Hstart)
        as (Hsel & _ & b' & n' & buffer' & Hd' & Hid').
      rewrite Hd in Hd'. injection Hd' as <- <-.
      rewrite Hid in Hid'. injection Hid' as _ Hu. split; [congruence|].
      rewrite (sel_clients _ _ _ _ _ Hsel), <- Hu. apply lookup_insert_eq.
Qed.

(** C6 on the sample deployment: a drawn token, and a failing generator. *)
Lemma fileID_url_safe_witness :
  (exists fileID,
      String.length fileID = 48%nat /\
      Forall (fun c => url_safe c = true /\
                       c <> "+"%byte /\ c <> "/"%byte /\ c <> "="%byte)
             (bytes_of fileID)) /\
  (exists w',
      upload_start sample_config failing_rand (sample_upload 5 hello_body)
                   (new_response None) new_server
        = Some (new_server, Replied w') /\
      rw_status w' = Some StatusBadRequest).
Proof.
  split.
  - destruct (fileID_url_safe sample_config sample_rand (sample_upload 5 hello_body)
                (new_response None) new_server
                (fst (sample_rand 7 36)) None eq_refl eq_refl)
      as (_ & buffer & fileID & _ & _ & Hsafe & Hlen & _).
    exists fileID. split; [apply Hlen; vm_compute; lia | exact Hsafe].
  - destruct (fileID_url_safe sample_config failing_rand (sample_upload 5 hello_body)
                (new_response None) new_server
                [] (Some (ErrOther "entropy source unavailable")) eq_refl eq_refl)
      as (_ & w' & Hstart & _ & Hstatus).
    exists w'. split; [exact Hstart | apply Hstatus; reflexivity].
Defined.

(** C8.  A file ID that is already a key of the registry: the request is
    answered with status 400 and the text asking for another name, and the
    server - registry, clients, trace - is exactly what it was. *)
Theorem collision_rejected cfg rand_Read r w0 s b n buffer fileID p :
  bad_credentials cfg (rq_BasicAuth r) = false ->
  draw rand_Read (rq_now r) = (b, n, None) ->
  make_fileID (bufPool_Get (rq_stale r)) b n = Some (buffer, fileID) ->
  clients s !! fileID = Some p ->
  exists s' w',
    upload_start cfg rand_Read r w0 s = Some (s', Replied w') /\
    s' = s /\
    clients s' !! fileID = Some p /\
    msg_exists = "File already exists. Choose a different name." /\
    rw_calls w' = rw_calls w0 ++ [bytes_of msg_exists] /\
    (rw_status w0 = None -> rw_status w' = Some StatusBadRequest).
Proof.
  intros Hcred Hd Hid Hp.
  unfold upload_start. rewrite Hcred, Hd, Hid. cbn [mbind option_bind]. rewrite Hp.
  eexists _, _. split; [reflexivity|]. split; [reflexivity|]. split; [exact Hp|].
  split; [reflexivity|]. split.
  - rewrite rw_Write_calls, rw_WriteHeader_calls. reflexivity.
  - intros Hfresh. rewrite rw_Write_status.
    destruct (rw_WriteHeader_fresh w0 StatusBadRequest Hfresh) as [-> _]. reflexivity.
Qed.

(* --------------------------------------------------------------------- *)
(** ** The copy from the request body to the response writer *)

Lemma avail_cons (data : list byte) (oe : option error) (rest : stream) :
  avail ((data, oe) :: rest) =
    data ++ match oe with None => avail rest | Some _ => [] end.
Proof. destruct oe; simpl; [rewrite app_nil_r|]; reflexivity. Qed.

Lemma bufio_Read_spec (rd : bufioReader) (c : nat) :
  (0 < c)%nat ->
  exists rd1 chunk er,
    bufio_Read rd c = (rd1, (chunk, er)) /\
    br_read rd1 = br_read rd ++ chunk /\
    (length chunk <= c)%nat /\
    match er with
    | None => avail (br_pending rd) = chunk ++ avail (br_pending rd1) /\
              (stream_size (br_pending rd1) < stream_size (br_pending rd))%nat
    | Some _ => avail (br_pending rd) = chunk
    end.
Proof.
  intros Hc. unfold bufio_Read.
  destruct rd as [[|[data oe] rest] done]; cbn [br_pending br_read].
  - eexists _, _, _. split; [reflexivity|]. cbn [br_read br_pending].
    rewrite app_nil_r. split; [reflexivity|]. split; [simpl; lia|reflexivity].
  - destruct (Nat.leb_spec (length data) c) as [Hfit|Hbig].
    + eexists _, _, _. split; [reflexivity|]. cbn [br_read br_pending].
      split; [reflexivity|]. split; [exact Hfit|].
      destruct oe; simpl; [reflexivity|]. split; [reflexivity|lia].
    + eexists _, _, _. split; [reflexivity|]. cbn [br_read br_pending].
      split; [reflexivity|]. split; [rewrite length_take; lia|].
      rewrite !avail_cons, app_assoc, take_drop. split; [reflexivity|].
      simpl. rewrite length_drop. lia.
Qed.

Lemma Limited_Read_spec (rd : bufioReader) (N : Z) (buflen : nat) :
  0 < N -> (0 < buflen)%nat ->
  exists rd1 chunk er,
    Read (mkLimited rd N) buflen
      = (mkLimited rd1 (N - Z.of_nat (length chunk)), (chunk, er)) /\
    br_read rd1 = br_read rd ++ chunk /\
    Z.of_nat (length chunk) <= N /\
    match er with
    | None => avail (br_pending rd) = chunk ++ avail (br_pending rd1) /\
              (stream_size (br_pending rd1) < stream_size (br_pending rd))%nat
    | Some _ => avail (br_pending rd) = chunk
    end.
Proof.
  intros HN Hbuf. unfold Read, LimitedReader_Read. cbn [lr_N lr_R].
  destruct (Z.leb_spec N 0) as [|_]; [lia|].
  set (c := if Z.of_nat buflen >? N then Z.to_nat N else buflen).
  assert (Hc : (0 < c)%nat /\ Z.of_nat c <= N).
  { subst c. destruct (Z.gtb_spec (Z.of_nat buflen) N); lia. }
  destruct (bufio_Read_spec rd c (proj1 Hc)) as (rd1 & chunk & er & Hrd & Hread & Hlen & Her).
  unfold Read, bufioReader_Read. rewrite Hrd.
  exists rd1, chunk, er. split; [reflexivity|]. split; [exact Hread|].
  split; [lia | exact Her].
Qed.

Lemma rw_Write_spec (w : ResponseWriter) (p : list byte) :
  exists w1 k ew,
    rw_Write w p = (w1, (Z.of_nat k, ew)) /\
    (k <= length p)%nat /\
    rw_body w1 = rw_body w ++ take k p /\
    rw_calls w1 = rw_calls w ++ [p] /\
    rw_header w1 = rw_header w /\
    header_sent w1 = header_sent w /\
    rw_status w1 = Some (default StatusOK (rw_status w)) /\
    (ew = None -> k = length p) /\
    ((k < length p)%nat -> ew <> None).
Proof.
  unfold rw_Write, rw_WriteHeader, header_sent.
  destruct w as [h [st|] sent body calls [[k e]|]]; cbn -[take];
    try destruct (Nat.leb_spec (length p) k).
  all: eexists _, _, _; (split; [reflexivity|]); cbn -[take];
    rewrite ?take_ge by lia; repeat split; try reflexivity; try lia;
    try discriminate; try (intros; lia).
Qed.

(** A copy that stops after one read. *)
Lemma copied_one sink rd N sink1 rd1 chunk k err :
  br_read rd1 = br_read rd ++ chunk ->
  (length chunk <= Z.to_nat N)%nat ->
  chunk = take (length chunk) (avail (br_pending rd)) ->
  (k <= length chunk)%nat ->
  rw_body sink1 = rw_body sink ++ take k chunk ->
  concat (rw_calls sink1) = concat (rw_calls sink) ++ chunk ->
  rw_header sink1 = rw_header sink ->
  header_sent sink1 = header_sent sink ->
  (chunk = [] -> sink1 = sink) ->
  (chunk <> [] -> rw_status sink1 = Some (default StatusOK (rw_status sink))) ->
  (err = None -> k = length chunk /\ chunk = take (Z.to_nat N) (avail (br_pending rd))) ->
  ((k < length chunk)%nat -> err <> None) ->
  copied sink rd N sink1 rd1 (N - Z.of_nat (length chunk)) err chunk k.
Proof. intros. constructor; auto. Qed.

(** A copy that goes on after a first chunk was read and written in full. *)
Lemma copied_cons sink rd N sink1 rd1 chunk sink' rd' N' err consumed accepted :
  br_read rd1 = br_read rd ++ chunk ->
  Z.of_nat (length chunk) <= N ->
  avail (br_pending rd) = chunk ++ avail (br_pending rd1) ->
  rw_body sink1 = rw_body sink ++ chunk ->
  concat (rw_calls sink1) = concat (rw_calls sink) ++ chunk ->
  rw_header sink1 = rw_header sink ->
  header_sent sink1 = header_sent sink ->
  (chunk = [] -> sink1 = sink) ->
  (chunk <> [] -> rw_status sink1 = Some (default StatusOK (rw_status sink))) ->
  copied sink1 rd1 (N - Z.of_nat (length chunk)) sink' rd' N' err consumed accepted ->
  copied sink rd N sink' rd' N' err (chunk ++ consumed) (length chunk + accepted).
Proof.
  intros Hread Hlen Havail Hbody Hcalls Hhdr Hsent Hsame Hstatus [].
  constructor.
  - rewrite cp_read0, Hread, app_assoc. reflexivity.
  - rewrite cp_calls0, Hcalls, app_assoc. reflexivity.
  - rewrite cp_body0, Hbody, take_app_add, app_assoc. reflexivity.
  - rewrite length_app. lia.
  - rewrite Havail, length_app, take_app_add. f_equal. exact cp_prefix0.
  - rewrite length_app. lia.
  - rewrite length_app. lia.
  - intros He. destruct (cp_done0 He) as [Ha Hc]. split.
    + rewrite length_app. lia.
    + rewrite Havail.
      replace (Z.to_nat N) with (length chunk + Z.to_nat (N - Z.of_nat (length chunk)))%nat by lia.
      rewrite take_app_add. f_equal. exact Hc.
  - rewrite length_app. intros Hlt. apply cp_short0. lia.
  - congruence.
  - congruence.
  - intros Hnil. apply app_eq_nil in Hnil as [Hc1 Hc2].
    rewrite (cp_untouched0 Hc2). apply Hsame, Hc1.
  - intros Hne. destruct consumed as [|x consumed'].
    + rewrite (cp_untouched0 eq_refl). apply Hstatus.
      intros ->. apply Hne. reflexivity.
    + rewrite cp_status0 by discriminate.
      destruct chunk as [|y chunk'].
      * rewrite (Hsame eq_refl). reflexivity.
      * rewrite Hstatus by discriminate. reflexivity.
Qed.

Lemma copyBuffer_loop_S {W R} `{Writer W} `{Reader R}
    (fuel : nat) (dst : W) (src : R) (buflen : nat) (written : Z) :
  copyBuffer_loop (S fuel) dst src buflen written =
    let '(src1, (data, er)) := Read src buflen in
    let nr := Z.of_nat (length data) in
    let on_er (dst1 : W) (written1 : Z) : copy_result W R :=
      match er with
      | Some e => Some (dst1, src1, (written1, if is_EOF e then None else Some e))
      | None => copyBuffer_loop fuel dst1 src1 buflen written1
      end in
    if 0 <? nr then
      let '(dst1, (nw0, ew0)) := Write dst data in
      let invalid := (nw0 <? 0) || (nr <? nw0) in
      let nw := if invalid then 0 else nw0 in
      let ew := if invalid
                then match ew0 with None => Some errInvalidWrite | _ => ew0 end
                else ew0 in
      let written1 := wrap_int (written + nw) in
      match ew with
      | Some e => Some (dst1, src1, (written1, Some e))
      | None =>
          if negb (nr =? nw)
          then Some (dst1, src1, (written1, Some ErrShortWrite))
          else on_er dst1 written1
      end
    else on_er dst written.
Proof. reflexivity. Qed.

(** The loop of the copy returns for every scripted body once the fuel
    exceeds the size of the script, and [copied] describes what it did. *)
Lemma copyBuffer_loop_spec (fuel : nat) :
  forall (sink : ResponseWriter) (rd : bufioReader) (N : Z) (buflen : nat) (written : Z),
    (0 < buflen)%nat ->
    (stream_size (br_pending rd) < fuel)%nat ->
    exists sink' rd' N' written' err consumed accepted,
      copyBuffer_loop fuel sink (mkLimited rd N) buflen written
        = Some (sink', mkLimited rd' N', (written', err)) /\
      copied sink rd N sink' rd' N' err consumed accepted.
Proof.
  induction fuel as [|fuel IH]; intros sink rd N buflen written Hbuf Hfuel; [lia|].
  rewrite copyBuffer_loop_S.
  destruct (Z.leb_spec N 0) as [HN|HN].
  - (* the limit is used up: the reader reports EOF at once *)
    assert (HR : Read (mkLimited rd N) buflen = (mkLimited rd N, ([], Some EOF))).
    { unfold Read, LimitedReader_Read. cbn [lr_N].
      destruct (Z.leb_spec N 0); [reflexivity|lia]. }
    rewrite HR. cbn [length Z.of_nat Z.ltb Z.compare is_EOF].
    exists sink, rd, N, written, None, [], 0%nat. split; [reflexivity|].
    replace N with (N - Z.of_nat (length (@nil byte))) at 2 by (simpl; lia).
    apply copied_one; rewrite ?app_nil_r; auto; try (simpl; lia); try contradiction.
    intros _. split; [reflexivity|]. replace (Z.to_nat N) with 0%nat by lia. reflexivity.
  - destruct (Limited_Read_spec rd N buflen HN Hbuf)
      as (rd1 & chunk & er & HR & Hread & Hlen & Her).
    rewrite HR. cbv beta iota zeta.
    destruct (Z.ltb_spec 0 (Z.of_nat (length chunk))) as [Hdata|Hnone].
    + (* some bytes were read: they are written *)
      destruct (rw_Write_spec sink chunk)
        as (sink1 & k & ew & HW & Hk & Hbody & Hcalls & Hhdr & Hsent & Hstatus & Hall & Hshort).
      change (Write sink chunk) with (rw_Write sink chunk).
      rewrite HW. cbv beta iota zeta.
      assert (Hvalid : (Z.of_nat k <? 0) || (Z.of_nat (length chunk) <? Z.of_nat k) = false).
      { apply orb_false_iff. split; apply Z.ltb_ge; lia. }
      rewrite Hvalid. cbv beta iota.
      assert (Hconcat : concat (rw_calls sink1) = concat (rw_calls sink) ++ chunk).
      { rewrite Hcalls, concat_app. simpl. rewrite app_nil_r. reflexivity. }
      assert (Hne : chunk <> []) by (intros ->; simpl in Hdata; lia).
      assert (Hpre : chunk = take (length chunk) (avail (br_pending rd))).
      { destruct er as [e|]; [rewrite Her | destruct Her as [-> _]].
        - symmetry. apply take_ge. lia.
        - rewrite take_app_length. reflexivity. }
      destruct ew as [e|].
      * (* the write failed *)
        exists sink1, rd1, (N - Z.of_nat (length chunk)), (wrap_int (written + Z.of_nat k)),
               (Some e), chunk, k. split; [reflexivity|].
        apply copied_one; auto; try lia; try contradiction; try discriminate.
      * specialize (Hall eq_refl). subst k.
        rewrite Z.eqb_refl. cbn [negb]. cbv beta iota.
        rewrite take_ge in Hbody by lia.
        destruct er as [e|].
        -- (* the read came with an error: the copy ends *)
           exists sink1, rd1, (N - Z.of_nat (length chunk)),
                  (wrap_int (written + Z.of_nat (length chunk))),
                  (if is_EOF e then None else Some e), chunk, (length chunk).
           split; [reflexivity|].
           apply copied_one; auto; try lia; try contradiction.
           ++ rewrite take_ge by lia. exact Hbody.
           ++ intros _. split; [reflexivity|]. rewrite Her.
              symmetry. apply take_ge. lia.
        -- destruct Her as [Havail Hsize].
           destruct (IH sink1 rd1 (N - Z.of_nat (length chunk)) buflen
                        (wrap_int (written + Z.of_nat (length chunk))) Hbuf)
             as (sink' & rd' & N' & written' & err & consumed & accepted & Hloop & Hcopied);
             [lia|].
           rewrite Hloop.
           exists sink', rd', N', written', err, (chunk ++ consumed), (length chunk + accepted)%nat.
           split; [reflexivity|].
           eapply copied_cons; eauto. contradiction.
    + (* nothing was read *)
      assert (Hnil : chunk = []) by (destruct chunk; [reflexivity|simpl in Hnone; lia]).
      subst chunk. rewrite app_nil_r in Hread.
      destruct er as [e|].
      * exists sink, rd1, (N - Z.of_nat (length (@nil byte))), written,
               (if is_EOF e then None else Some e), [], 0%nat.
        split; [reflexivity|].
        apply copied_one; rewrite ?app_nil_r; auto; try (simpl; lia); try contradiction.
        intros _. split; [reflexivity|]. rewrite Her, take_nil. reflexivity.
      * destruct Her as [Havail Hsize].
        destruct (IH sink rd1 (N - Z.of_nat (length (@nil byte))) buflen written Hbuf)
          as (sink' & rd' & N' & written' & err & consumed & accepted & Hloop & Hcopied);
          [lia|].
        rewrite Hloop.
        exists sink', rd', N', written', err, consumed, accepted.
        split; [reflexivity|].
        change consumed with ([] ++ consumed).
        change accepted with (length (@nil byte) + accepted)%nat.
        eapply copied_cons; eauto; rewrite ?app_nil_r; auto; try contradiction.
Qed.

Lemma CopyBuffer_spec (fuel : nat) (sink : ResponseWriter) (rd : bufioReader)
    (N : Z) (buf : list byte) :
  (0 < length buf)%nat ->
  (stream_size (br_pending rd) < fuel)%nat ->
  exists sink' rd' N' written err consumed accepted,
    CopyBuffer fuel sink (LimitReader rd N) buf
      = Some (sink', mkLimited rd' N', (written, err)) /\
    copied sink rd N sink' rd' N' err consumed accepted.
Proof.
  intros Hbuf Hfuel. unfold CopyBuffer, LimitReader.
  destruct (Nat.eqb_spec (length buf) 0) as [E|_]; [lia|].
  apply copyBuffer_loop_spec; assumption.
Qed.

(** With the limit used up before the first read, the copy moves
    nothing and reports no error. *)
Lemma CopyBuffer_no_length (fuel : nat) (sink : ResponseWriter) (rd : bufioReader)
    (N : Z) (buf : list byte) :
  (0 < length buf)%nat -> N <= 0 ->
  CopyBuffer (S fuel) sink (LimitReader rd N) buf = Some (sink, mkLimited rd N, (0, None)).
Proof.
  intros Hbuf HN. unfold CopyBuffer, LimitReader.
  destruct (Nat.eqb_spec (length buf) 0) as [E|_]; [lia|].
  rewrite copyBuffer_loop_S.
  assert (HR : Read (mkLimited rd N) (length buf) = (mkLimited rd N, ([], Some EOF))).
  { unfold Read, LimitedReader_Read. cbn [lr_N].
    destruct (Z.leb_spec N 0); [reflexivity|lia]. }
  rewrite HR. reflexivity.
Qed.

(* --------------------------------------------------------------------- *)
(** ** The upload flow from its select to the end of the handler *)

Lemma length_phase2 (k : select_case) : 0 <= Z.of_nat (String.length (phase2 k)) <= MaxInt.
Proof. destruct k; vm_compute; split; discriminate. Qed.

(** A second write through the wrapper of a flow at its [select] leaves a
    counter that is still not the sentinel. *)
Lemma write_flush_twice (u : upload) (k : select_case) :
  0 <= lw_size (up_w u) <= MaxInt ->
  exists u1,
    write_flush u (phase2 k) = Some u1 /\
    up_calls u1 = up_calls u ++ [bytes_of (phase2 k)] /\
    up_fileName u1 = up_fileName u /\ up_fileID u1 = up_fileID u /\
    up_newClient u1 = up_newClient u /\ up_receiverCh u1 = up_receiverCh u /\
    up_bufrw u1 = up_bufrw u /\ up_ContentLength u1 = up_ContentLength u /\
    up_buffer u1 = up_buffer u /\ up_closed u1 = up_closed u /\
    up_defers u1 = up_defers u /\
    lw_size (up_w u1) <> noWritten.
Proof.
  intros Hsize.
  destruct (write_flush_spec u (phase2 k)) as (u1 & Hw & Hc & H1 & H2 & H3 & H4 & H5 & H6 & H7 & H8 & H9 & _ & Hs).
  { unfold noWritten. lia. }
  exists u1. repeat (split; [assumption|]).
  pose proof (length_phase2 k) as Hlen.
  destruct Hs as [-> | ->].
  - replace (lw_size (up_w u)) with (lw_size (up_w u) + 0) by lia.
    apply wrap_int_not_noWritten; unfold MaxInt in *; lia.
  - apply wrap_int_not_noWritten; assumption.
Qed.

(** The flow leaves the [select] without a client: one more line on its
    response, then the deferred calls. *)
Lemma upload_resume_alone cfg r s0 s1 (u : upload) (k : select_case) (s : server) :
  at_select cfg r s0 s1 u ->
  k = CaseDone \/ k = CaseAfter (120 * Second) ->
  exists u',
    upload_resume k u s =
      Some (remove_client s (up_fileID u), u',
            match k with CaseDone => ExitDisconnected | _ => ExitTimedOut end) /\
    up_calls u' = up_calls u ++ [bytes_of (phase2 k)] /\
    up_bufrw u' = up_bufrw u /\
    up_closed u' = true.
Proof.
  intros Hsel Hk.
  destruct (write_flush_twice u k (sel_size _ _ _ _ _ Hsel))
    as (u1 & Hw & Hcalls & _ & Hid & _ & _ & Hrd & _ & _ & _ & Hdefers & _).
  rewrite (sel_defers _ _ _ _ _ Hsel) in Hdefers.
  unfold upload_resume, upload_body.
  destruct Hk as [-> | ->]; cbn [phase2] in Hw, Hcalls.
  - rewrite Hw. cbn [mbind option_bind]. rewrite Hdefers.
    cbn [run_defers run_deferred mbind option_bind].
    eexists. split; [reflexivity|]. cbn [up_calls up_bufrw up_closed].
    split; [exact Hcalls|]. split; [exact Hrd|reflexivity].
  - rewrite Z.eqb_refl. cbn [negb]. rewrite Hw. cbn [mbind option_bind]. rewrite Hdefers.
    cbn [run_defers run_deferred mbind option_bind].
    eexists. split; [reflexivity|]. cbn [up_calls up_bufrw up_closed].
    split; [exact Hcalls|]. split; [exact Hrd|reflexivity].
Qed.

(** The flow leaves the [select] with a client: the line of phase 2, the
    header and the copy on the client's writer, the line of phase 3, then
    the deferred calls, the completion signal first. *)
Lemma upload_resume_paired cfg r s0 s1 (u : upload) (s : server)
    (w : wid) (c : chan) (sink : ResponseWriter) :
  at_select cfg r s0 s1 u ->
  paired s u w c sink ->
  let sink1 := rw_Header_Add sink "content-disposition"
                             (content_disposition (up_fileName u)) in
  exists sink' rd' N' written err consumed accepted u',
    CopyBuffer (copy_fuel u) sink1
               (LimitReader (up_bufrw u) (up_ContentLength u)) (up_buffer u)
      = Some (sink', mkLimited rd' N', (written, err)) /\
    copied sink1 (up_bufrw u) (up_ContentLength u) sink' rd' N' err consumed accepted /\
    upload_resume (CaseRecv (up_receiverCh u)) u s =
      Some (remove_client (emit (set_writers s (<[w := sink']> (writers s))) (EvSend c))
                          (up_fileID u),
            u', exit_of err) /\
    up_calls u' = up_calls u ++ [bytes_of msg_connected;
                                 bytes_of (phase3 (up_fileName u) err)] /\
    up_bufrw u' = rd' /\
    up_closed u' = true.
Proof.
  intros Hsel (cl & Hcl & Hrecv & Hdone & Hsink) sink1.
  destruct (write_flush_twice u (CaseRecv (up_receiverCh u)) (sel_size _ _ _ _ _ Hsel))
    as (u1 & Hw & Hcalls & Hname & Hid & Hptr & _ & Hrd & _ & _ & _ & Hdefers & Hsize).
  rewrite (sel_defers _ _ _ _ _ Hsel) in Hdefers. cbn [phase2] in Hw, Hcalls.
  destruct (CopyBuffer_spec (copy_fuel u) sink1 (up_bufrw u) (up_ContentLength u)
              (up_buffer u))
    as (sink' & rd' & N' & written & err & consumed & accepted & Hcopy & Hcopied).
  { rewrite (sel_buffer _ _ _ _ _ Hsel).
    pose proof bufferSize_value. lia. }
  { unfold copy_fuel. lia. }
  set (u3 := set_bufrw (push_defer u1 (DeferCompleted (up_newClient u))) rd').
  destruct (write_flush_spec u3 (phase3 (up_fileName u) err))
    as (u4 & Hw4 & Hcalls4 & _ & Hid4 & _ & _ & Hrd4 & _ & _ & _ & Hdefers4 & _).
  { exact Hsize. }
  exists sink', rd', N', written, err, consumed, accepted.
  unfold upload_resume, upload_body.
  rewrite Nat.eqb_refl. cbn [negb]. rewrite Hw. cbn [mbind option_bind].
  rewrite Hcl. cbn [mbind option_bind]. rewrite Hrecv. cbn [mbind option_bind].
  rewrite Hsink. cbn [mbind option_bind].
  fold sink1. rewrite Hcopy. cbn [mbind option_bind lr_R].
  fold u3.
  assert (Hd4 : up_defers u4 =
                [DeferCompleted (up_newClient u); DeferClose;
                 DeferDelete (up_fileID u); DeferPut]).
  { rewrite Hdefers4. subst u3. cbn [set_bufrw push_defer up_defers].
    rewrite Hdefers. reflexivity. }
  assert (Hrun : forall x : exit,
    ('(s2, u2) ← run_defers (up_defers u4)
                  (set_writers s (<[w := sink']> (writers s))) u4;
     Some (s2, u2, x)) =
    Some (remove_client (emit (set_writers s (<[w := sink']> (writers s))) (EvSend c))
                        (up_fileID u),
          mkUpload (up_fileName u4) (up_fileID u4) (up_newClient u4) (up_receiverCh u4)
                   (up_w u4) (up_calls u4) (up_bufrw u4) (up_ContentLength u4)
                   (up_buffer u4) true (up_defers u4), x)).
  { intros x. rewrite Hd4 at 1.
    cbn [run_defers run_deferred mbind option_bind set_writers heap].
    rewrite Hcl. cbn [mbind option_bind]. rewrite Hdone. cbn [mbind option_bind].
    reflexivity. }
  eexists. split; [reflexivity|]. split; [exact Hcopied|].
  split.
  - destruct err as [e|]; cbn [phase3 exit_of] in *; rewrite Hw4; cbn [mbind option_bind];
      apply Hrun.
  - cbn [up_calls up_bufrw up_closed]. rewrite Hcalls4, Hrd4. subst u3.
    cbn [set_bufrw push_defer up_calls up_bufrw]. rewrite Hcalls, <- app_assoc.
    split; [reflexivity|]. split; reflexivity.
Qed.

(* --------------------------------------------------------------------- *)
(** ** The sample upload, and what a returning flow leaves *)

(** The sample upload reaches its [select]. *)
Lemma sample_at_select (length : Z) (body : stream) :
  is_waiting (sample_started length body) = true ->
  upload_start sample_config sample_rand (sample_upload length body)
               (new_response None) new_server
    = Some (sample_server length body, Waiting (sample_flow length body)).
Proof.
  unfold sample_server, sample_flow. fold (sample_started length body).
  destruct (sample_started length body) as [[s [w|u]]|]; simpl; intros H;
    try discriminate. reflexivity.
Qed.

Lemma remove_client_lookup (s : server) (fileID : string) :
  clients (remove_client s fileID) !! fileID = None /\
  trace (remove_client s fileID) = trace s ++ [EvDelete fileID].
Proof. unfold remove_client. cbn [emit clients trace]. split; [apply lookup_delete_eq|reflexivity]. Qed.

Lemma resumed_writer (s : server) (w : wid) (sink' : ResponseWriter) (c : chan)
    (fileID : string) :
  writers (remove_client (emit (set_writers s (<[w := sink']> (writers s))) (EvSend c))
                         fileID) !! w = Some sink'.
Proof. unfold remove_client. cbn [emit set_writers writers]. apply lookup_insert_eq. Qed.

(** C10.  A declared length below zero: the limited reader reports the
    end of the body before anything is read, so no byte and no call reach
    the client's writer, nothing is taken from the body, and the flow
    writes the success line. *)
Theorem unknown_length_copies_nothing cfg rand_Read r w0 s0 s1 u s w c sink :
  upload_start cfg rand_Read r w0 s0 = Some (s1, Waiting u) ->
  rq_ContentLength r < 0 ->
  paired s u w c sink ->
  exists s' u' sink',
    upload_resume (CaseRecv (up_receiverCh u)) u s = Some (s', u', ExitTransferred) /\
    writers s' !! w = Some sink' /\
    rw_body sink' = rw_body sink /\
    rw_calls sink' = rw_calls sink /\
    up_bufrw u' = up_bufrw u /\
    up_calls u' =
      up_calls u ++
      [bytes_of msg_connected;
       bytes_of (rq_fileName r +:+ " was transferred successfully." +:+ nl)].
Proof.
  intros Hstart Hneg Hpaired.
  destruct (upload_start_Waiting _ _ _ _ _ _ _ Hstart) as (Hsel & _).
  destruct (upload_resume_paired _ _ _ _ u s w c sink Hsel Hpaired)
    as (sink' & rd' & N' & written & err & consumed & accepted & u' & Hcopy & _ & Hres & Hcalls & Hrd & _).
  unfold copy_fuel in Hcopy. rewrite CopyBuffer_no_length in Hcopy.
  - injection Hcopy as <- <- _ _ <-.
    eexists _, u', _. split; [exact Hres|]. split; [apply resumed_writer|].
    split; [reflexivity|]. split; [reflexivity|]. split; [exact Hrd|].
    rewrite Hcalls, (sel_fileName _ _ _ _ _ Hsel). reflexivity.
  - rewrite (sel_buffer _ _ _ _ _ Hsel). pose proof bufferSize_value. lia.
  - rewrite (sel_length _ _ _ _ _ Hsel). lia.
Qed.

(** C10 on the sample upload sent with a chunked body. *)
Lemma unknown_length_copies_nothing_witness :
  exists s' u' sink',
    upload_resume (CaseRecv (up_receiverCh (sample_flow (-1) hello_body)))
                  (sample_flow (-1) hello_body) (sample_claimed (-1) hello_body None)
      = Some (s', u', ExitTransferred) /\
    writers s' !! 2%nat = Some sink' /\
    rw_body sink' = [] /\
    last (up_calls u') = Some (bytes_of ("hello.txt was transferred successfully." +:+ nl)).
Proof.
  destruct (unknown_length_copies_nothing sample_config sample_rand
              (sample_upload (-1) hello_body) (new_response None) new_server
              (sample_server (-1) hello_body) (sample_flow (-1) hello_body)
              (sample_claimed (-1) hello_body None)
              2%nat 3%nat (new_response None))
    as (s' & u' & sink' & Hres & Hw & Hbody & _ & _ & Hcalls).
  - apply sample_at_select. vm_compute. reflexivity.
  - reflexivity.
  - eexists. repeat split; vm_compute; reflexivity.
  - exists s', u', sink'. split; [exact Hres|]. split; [exact Hw|].
    split; [exact Hbody|]. rewrite Hcalls, last_app. reflexivity.
Defined.




(* --------------------------------------------------------------------- *)
(** ** The download flow *)

Lemma reply_fields (s : server) (w : wid) (f : ResponseWriter -> ResponseWriter) :
  clients (reply s w f) = clients s /\
  heap (reply s w f) = heap s /\
  trace (reply s w f) = trace s /\
  fresh (reply s w f) = fresh s /\
  writers (reply s w f) !! w = f <$> writers s !! w.
Proof.
  unfold reply, set_writers. cbn [clients heap trace fresh writers].
  repeat split. apply lookup_alter_eq.
Qed.

Lemma http_Error_status (rw : ResponseWriter) (msg : string) (code : Z) :
  rw_status rw = None ->
  rw_status (http_Error rw msg code) = Some code /\
  rw_calls (http_Error rw msg code) = rw_calls rw ++ [bytes_of (msg +:+ nl)].
Proof.
  intros Hfresh. unfold http_Error.
  rewrite rw_Write_status, rw_Write_calls.
  destruct (rw_WriteHeader_fresh
              (rw_Header_Set
                 (rw_Header_Set (rw_Header_Del rw "Content-Length")
                                "Content-Type" "text/plain; charset=utf-8")
                 "X-Content-Type-Options" "nosniff") code Hfresh) as [-> ->].
  split; reflexivity.
Qed.

(** A download of the token of an upload that waits in its [select],
    run up to its send: it claims the client, and leaves the state in
    which the upload flow finds its writer and its completion channel. *)
Lemma claim_pairs cfg r s0 s1 (u : upload) (w : wid) (rw : ResponseWriter) :
  at_select cfg r s0 s1 u ->
  writers s1 !! w = Some rw ->
  exists s2,
    download_start (up_fileID u) w s1 = Some (s2, DlSending (up_newClient u)) /\
    paired s2 u w (fresh s1) rw /\
    sending_on s2 (DlSending (up_newClient u)) = Some (up_receiverCh u).
Proof.
  intros Hsel Hw.
  assert (Hp : clients s1 !! up_fileID u = Some (up_newClient u)).
  { rewrite (sel_clients _ _ _ _ _ Hsel). apply lookup_insert_eq. }
  assert (Hcl : heap s1 !! up_newClient u
                = Some (mkClient (rq_fileName r) (up_receiverCh u) None false None)).
  { rewrite (sel_heap _ _ _ _ _ Hsel). apply lookup_insert_eq. }
  unfold download_start, download_step, find_client, is_receiving, claim.
  rewrite Hp. cbn [mbind option_bind]. rewrite Hcl.
  cbn [fmap option_fmap option_map mbind option_bind receiving negb].
  rewrite Hcl. cbn [mbind option_bind fileName clientConnected].
  eexists. split; [reflexivity|]. split.
  - eexists. cbn [heap writers]. split; [apply lookup_insert_eq|].
    split; [reflexivity|]. split; [reflexivity|exact Hw].
  - unfold sending_on. cbn [heap]. rewrite lookup_insert_eq. reflexivity.
Qed.

Lemma http_Error_body (rw : ResponseWriter) (msg : string) (code : Z) :
  rw_fail rw = None ->
  rw_body (http_Error rw msg code) = rw_body rw ++ bytes_of (msg +:+ nl).
Proof.
  destruct rw as [hd st snt bd cs fl]. cbn [rw_fail rw_body]. intros ->.
  unfold http_Error, rw_Write, rw_WriteHeader.
  cbn [rw_Header_Set rw_Header_Del rw_status rw_fail rw_body rw_header rw_sent rw_calls].
  destruct st; reflexivity.
Qed.

(** C7.  A download whose token is not a key of the registry is answered
    with [http.NotFound].  A download whose client is already receiving
    is answered with [http.Error] and status 400: one [Write] of the text
    "File already being received by another client." with its line feed
    and the line feed that [http.Error] adds to every message, so that
    the body ends in two line feeds; neither the registry nor any field
    of the client changes. *)
Theorem download_rejections (token : string) (w : wid) (s : server) (rw : ResponseWriter) :
  writers s !! w = Some rw ->
  rw_status rw = None ->
  (clients s !! token = None ->
     download_start token w s = Some (reply s w http_NotFound, DlDone NotFound) /\
     writers (reply s w http_NotFound) !! w = Some (http_NotFound rw) /\
     rw_status (http_NotFound rw) = Some StatusNotFound) /\
  (forall p cl,
     clients s !! token = Some p -> heap s !! p = Some cl -> receiving cl = true ->
     let rejected := fun rw => http_Error rw msg_receiving StatusBadRequest in
     let text := "File already being received by another client." +:+ nl +:+ nl in
     download_start token w s = Some (reply s w rejected, DlDone Rejected) /\
     writers (reply s w rejected) !! w = Some (rejected rw) /\
     rw_status (rejected rw) = Some StatusBadRequest /\
     rw_calls (rejected rw) = rw_calls rw ++ [bytes_of text] /\
     (rw_fail rw = None -> rw_body (rejected rw) = rw_body rw ++ bytes_of text) /\
     clients (reply s w rejected) = clients s /\
     heap (reply s w rejected) = heap s /\
     heap (reply s w rejected) !! p = Some cl /\
     trace (reply s w rejected) = trace s).
Proof.
  intros Hw Hfresh. split.
  - intros Hnone. unfold download_start, download_step, find_client. rewrite Hnone.
    cbn [mbind option_bind].
    destruct (reply_fields s w http_NotFound) as (_ & _ & _ & _ & Hl).
    rewrite Hl, Hw. split; [reflexivity|]. split; [reflexivity|].
    apply (http_Error_status rw "404 page not found" StatusNotFound Hfresh).
  - intros p cl Hp Hcl Hrecv rejected text.
    unfold download_start, download_step, find_client, is_receiving.
    rewrite Hp. cbn [mbind option_bind]. rewrite Hcl. cbn [fmap option_fmap option_map mbind option_bind].
    rewrite Hrecv. cbn [negb].
    destruct (reply_fields s w rejected) as (Hc & Hh & Ht & _ & Hl).
    destruct (http_Error_status rw msg_receiving StatusBadRequest Hfresh) as [Hst Hcalls].
    split; [reflexivity|].
    split; [rewrite Hl, Hw; reflexivity|].
    split; [exact Hst|]. split; [exact Hcalls|].
    split; [intros Hfail; exact (http_Error_body rw msg_receiving StatusBadRequest Hfail)|].
    split; [exact Hc|]. split; [exact Hh|]. split; [rewrite Hh; exact Hcl | exact Ht].
Qed.

(** C7 on the sample upload: an unknown token, and a second download of a
    claimed one. *)
Lemma download_rejections_witness :
  (exists s', download_start "nosuchtoken" 2%nat (sample_claimed 5 hello_body None)
              = Some (s', DlDone NotFound)) /\
  (exists s',
      download_start (up_fileID (sample_flow 5 hello_body)) 4%nat
                     (fst (accept (sample_claimed 5 hello_body None) None))
        = Some (s', DlDone Rejected) /\
      heap s' = heap (fst (accept (sample_claimed 5 hello_body None) None))).
Proof.
  split.
  - destruct (download_rejections "nosuchtoken" 2%nat (sample_claimed 5 hello_body None)
                (new_response None)) as [Hnot _].
    + vm_compute. reflexivity.
    + reflexivity.
    + destruct Hnot as (Hres & _).
      * vm_compute. reflexivity.
      * eexists. exact Hres.
  - destruct (download_rejections (up_fileID (sample_flow 5 hello_body)) 4%nat
                (fst (accept (sample_claimed 5 hello_body None) None))
                (new_response None)) as [_ Hrej].
    + vm_compute. reflexivity.
    + reflexivity.
    + destruct (Hrej 1%nat (mkClient "hello.txt" 0%nat (Some 3%nat) true (Some 2%nat)))
        as (Hres & _ & _ & _ & _ & _ & Hheap & _).
      * vm_compute. reflexivity.
      * vm_compute. reflexivity.
      * reflexivity.
      * eexists. split; [exact Hres | exact Hheap].
Defined.

(** C7 as worded fails on the code: the body of the rejection is not
    exactly the message.  The second download of the sample upload gets
    the message and one more line feed. *)
Lemma rejection_body_counterexample :
  (rw_body <$>
     (s' ← fst <$> download_start (up_fileID (sample_flow 5 hello_body)) 4%nat
                     (fst (accept (sample_claimed 5 hello_body None) None));
      writers s' !! 4%nat))
    = Some (bytes_of ("File already being received by another client." +:+ nl +:+ nl)) /\
  bytes_of ("File already being received by another client." +:+ nl +:+ nl)
    <> bytes_of ("File already being received by another client." +:+ nl).
Proof. split; [vm_compute; reflexivity | vm_compute; discriminate]. Qed.

(** C8 on the sample deployment: the same request sent twice within one
    tick of the clock draws the same file ID. *)
Lemma collision_rejected_witness :
  exists w',
    upload_start sample_config sample_rand (sample_upload 5 hello_body)
                 (new_response None) (sample_server 5 hello_body)
      = Some (sample_server 5 hello_body, Replied w') /\
    rw_status w' = Some StatusBadRequest /\
    rw_calls w' = [bytes_of "File already exists. Choose a different name."].
Proof.
  destruct (upload_start_Waiting sample_config sample_rand (sample_upload 5 hello_body)
              (new_response None) new_server
              (sample_server 5 hello_body) (sample_flow 5 hello_body))
    as (_ & Hcred & b & n & buffer & Hdraw & Hid).
  { apply sample_at_select. vm_compute. reflexivity. }
  destruct (collision_rejected sample_config sample_rand (sample_upload 5 hello_body)
              (new_response None) (sample_server 5 hello_body)
              b n buffer (up_fileID (sample_flow 5 hello_body)) 1%nat Hcred Hdraw Hid)
    as (s' & w' & Hres & -> & _ & _ & Hcalls & Hstatus).
  - vm_compute. reflexivity.
  - exists w'. split; [exact Hres|]. split; [apply Hstatus; reflexivity | exact Hcalls].
Defined.

(* --------------------------------------------------------------------- *)
(** ** Two downloads of one token *)

(** When each download runs its lookup, its test of [receiving] and its
    claim without the other in between, the first claims and the second
    is rejected. *)
Lemma serial_downloads_one_claim :
  downloads <$> run serial_schedule race_system
    = Some [(2%nat, DlSending 1%nat); (3%nat, DlDone Rejected)].
Proof. vm_compute. reflexivity. Qed.

(** The race does not depend on the sample: whenever a client is
    registered and not yet receiving, two downloads that both test
    [receiving] before either locks both end up sending the pairing
    signal, and the client names the writer of the later one. *)
Lemma unlocked_test_races (s : server) (f0 : flow) (token : string) (p : loc)
    (cl : client) (w1 w2 : wid) :
  clients s !! token = Some p ->
  heap s !! p = Some cl ->
  receiving cl = false ->
  exists y,
    run race_schedule
        (mkSystem s [f0; Download w1 (DlStart token); Download w2 (DlStart token)])
      = Some y /\
    sys_flows y = [f0; Download w1 (DlSending p); Download w2 (DlSending p)] /\
    heap (sys_server y) !! p
      = Some (mkClient (fileName cl) (clientConnected cl) (Some (S (fresh s))) true
                       (Some w2)).
Proof.
  intros Hp Hcl Hfree.
  unfold race_schedule, run, perform, download_step, find_client, is_receiving, claim.
  simpl. rewrite Hp. simpl. rewrite Hp. simpl.
  rewrite Hcl. simpl. rewrite Hfree. simpl.
  rewrite Hcl. simpl. rewrite Hfree. simpl.
  rewrite Hcl. simpl. rewrite lookup_insert_eq. simpl.
  eexists. split; [reflexivity|]. simpl.
  split; [reflexivity|]. rewrite insert_insert_eq. apply lookup_insert_eq.
Qed.

(** C2 fails on the code.  The test of [client.receiving] is made before
    the write lock is taken, so two downloads of one token can both pass
    it: after [race_schedule] both have stored their writer, set
    [receiving] and made a completion channel, the second overwriting the
    first, and neither is rejected.  Carried on, the first download
    delivers the pairing signal and ends with an empty response, the file
    goes to the writer of the second, and the second stays blocked on its
    send, which no flow will ever receive. *)
Theorem two_downloads_both_claim :
  (y ← run race_schedule race_system; Some (downloads y, client_of y 1%nat))
    = Some ([(2%nat, DlSending 1%nat); (3%nat, DlSending 1%nat)],
            Some (mkClient "hello.txt" 0%nat (Some 5%nat) true (Some 3%nat))) /\
  (y ← run (race_schedule ++ [Pair 1 0; Complete 0 1; Step 0; Step 0; Step 0]%nat)
           race_system;
   Some (downloads y, exits y, response_of y 2%nat, response_of y 3%nat,
         perform (Step 2) y, perform (Pair 2 0) y))
    = Some ([(2%nat, DlDone Served); (3%nat, DlSending 1%nat)], [ExitTransferred],
            Some (Some StatusOK, []), Some (Some StatusOK, bytes_of "hello"),
            None, None).
Proof. split; vm_compute; reflexivity. Qed.

(* ===================================================================== *)
(** * Part II, continued. Properties of the rest of the handler *)
(* ===================================================================== *)

(* --------------------------------------------------------------------- *)
(** ** The route *)

Lemma append_cons (a : ascii) (s t : string) : String a s +:+ t = String a (s +:+ t).
Proof. reflexivity. Qed.

Lemma append_nil (t : string) : "" +:+ t = t.
Proof. reflexivity. Qed.

Lemma string_drop_length (n : nat) (s : string) :
  String.length (string_drop n s) = (String.length s - n)%nat.
Proof.
  revert s. induction n as [|n IH]; intros [|a s]; simpl; auto.
Qed.

Lemma string_drop_app (pre s : string) :
  string_drop (String.length pre) (pre +:+ s) = s.
Proof.
  induction pre as [|a pre IH]; [reflexivity|].
  rewrite append_cons. cbn [String.length string_drop]. exact IH.
Qed.

Lemma string_drop_add (n m : nat) (s : string) :
  string_drop (n + m) s = string_drop m (string_drop n s).
Proof.
  revert s. induction n as [|n IH]; intros s; [reflexivity|].
  destruct s as [|a s]; simpl; [destruct m; reflexivity | apply IH].
Qed.

Lemma string_take_drop (n : nat) (s : string) :
  (n <= String.length s)%nat ->
  String.substring 0 n s +:+ string_drop n s = s.
Proof.
  revert s. induction n as [|n IH]; intros [|a s] Hn; simpl in *; try reflexivity; try lia.
  change (String a (substring 0 n s +:+ string_drop n s) = String a s).
  f_equal. apply IH. lia.
Qed.

(** A string that starts with [p] is [p] followed by something. *)
Lemma prefix_split (p s : string) :
  String.prefix p s = true <-> exists rest, s = p +:+ rest.
Proof.
  revert s. induction p as [|a p IH]; intros s; simpl.
  - split; [intros _; exists s; reflexivity | intros _; destruct s; reflexivity].
  - destruct s as [|b s].
    + split; [discriminate | intros [rest H]; discriminate].
    + cbn [String.prefix]. destruct (ascii_dec a b) as [->|Hne].
      * rewrite IH. split; intros [rest H]; exists rest; [rewrite H; reflexivity|].
        injection H as H. exact H.
      * split; [discriminate|]. intros [rest H]. injection H as H1 _. congruence.
Qed.

(** What [LastIndex] returns: -1 when [substr] starts nowhere in [s], and
    otherwise a place where it starts and after which it starts no more. *)
Lemma LastIndex_spec (substr s : string) :
  (LastIndex s substr = -1 /\
   forall j, (j <= String.length s)%nat ->
             String.prefix substr (string_drop j s) = false) \/
  (0 <= LastIndex s substr <= Z.of_nat (String.length s) /\
   String.prefix substr (string_drop (Z.to_nat (LastIndex s substr)) s) = true /\
   forall j, (Z.to_nat (LastIndex s substr) < j <= String.length s)%nat ->
             String.prefix substr (string_drop j s) = false).
Proof.
  induction s as [|a s IH].
  - cbn [LastIndex]. destruct (String.prefix substr "") eqn:Hp.
    + right. split; [simpl; lia|]. split; [exact Hp|]. intros j Hj. simpl in Hj. lia.
    + left. split; [reflexivity|]. intros j Hj. simpl in Hj.
      replace j with O by lia. exact Hp.
  - cbn [LastIndex]. destruct IH as [[Hi Hnone] | (Hi & Hat & Hlast)].
    + rewrite Hi. cbn [Z.leb Z.compare].
      destruct (String.prefix substr (String a s)) eqn:Hp.
      * right. split; [simpl String.length; lia|]. split; [exact Hp|].
        intros [|j] Hj; [lia|]. cbn [string_drop]. apply Hnone. simpl in Hj. lia.
      * left. split; [reflexivity|]. intros [|j] Hj; [exact Hp|].
        cbn [string_drop]. apply Hnone. simpl in Hj. lia.
    + destruct (Z.leb_spec 0 (LastIndex s substr)) as [_|Hneg]; [|lia].
      right. split; [simpl String.length; lia|].
      replace (Z.to_nat (LastIndex s substr + 1)) with (S (Z.to_nat (LastIndex s substr)))
        by lia.
      cbn [string_drop]. split; [exact Hat|].
      intros [|j] Hj; [lia|]. cbn [string_drop]. apply Hlast. simpl in Hj. lia.
Qed.

(** The last place where [substr] starts is what [LastIndex] returns. *)
Lemma LastIndex_unique (substr s : string) (i : nat) :
  (i <= String.length s)%nat ->
  String.prefix substr (string_drop i s) = true ->
  (forall j, (i < j <= String.length s)%nat ->
             String.prefix substr (string_drop j s) = false) ->
  LastIndex s substr = Z.of_nat i.
Proof.
  intros Hi Hat Hlast.
  destruct (LastIndex_spec substr s) as [[_ Hnone] | (Hr & Hat' & Hlast')].
  - rewrite Hnone in Hat by exact Hi. discriminate.
  - destruct (Nat.lt_trichotomy (Z.to_nat (LastIndex s substr)) i) as [Hlt | [Heq | Hgt]].
    + rewrite Hlast' in Hat by lia. discriminate.
    + lia.
    + rewrite Hlast in Hat' by lia. discriminate.
Qed.

Lemma string_length_app (s t : string) :
  String.length (s +:+ t) = (String.length s + String.length t)%nat.
Proof.
  induction s as [|a s IH]; [reflexivity|].
  rewrite append_cons. cbn [String.length Nat.add]. f_equal. exact IH.
Qed.

Lemma substring_length (n : nat) (s : string) :
  (n <= String.length s)%nat -> String.length (String.substring 0 n s) = n.
Proof.
  revert s. induction n as [|n IH]; intros [|a s] Hn; simpl in *; try reflexivity; try lia.
  f_equal. apply IH. lia.
Qed.

Lemma string_app_assoc (s t r : string) : (s +:+ t) +:+ r = s +:+ (t +:+ r).
Proof.
  induction s as [|a s IH]; [reflexivity|]. rewrite !append_cons. f_equal. exact IH.
Qed.

Lemma slash_free_cons (a : ascii) (s : string) :
  slash_free (String a s) <-> a <> "/"%char /\ slash_free s.
Proof.
  unfold slash_free, bytes_of, list_byte_of_string. cbn [list_ascii_of_string map].
  rewrite Forall_cons. split; intros [Ha Hs]; (split; [|exact Hs]).
  - intros ->. apply Ha. reflexivity.
  - intros Hb. apply Ha. apply (f_equal ascii_of_byte) in Hb.
    rewrite ascii_of_byte_of_ascii in Hb. exact Hb.
Qed.

Lemma slash_free_app (s t : string) :
  slash_free (s +:+ t) -> slash_free s /\ slash_free t.
Proof.
  induction s as [|a s IH]; [rewrite append_nil | rewrite append_cons].
  - intros Ht. split; [constructor | exact Ht].
  - rewrite !slash_free_cons. intros [Ha Hst]. destruct (IH Hst). auto.
Qed.

Lemma slash_free_drop (n : nat) (s : string) :
  slash_free s -> slash_free (string_drop n s).
Proof.
  revert s. induction n as [|n IH]; intros [|a s] Hs; cbn [string_drop]; auto.
  apply IH. apply slash_free_cons in Hs. tauto.
Qed.

Lemma slash_free_check (s : string) :
  forallb (fun c => negb (Byte.eqb c "/"%byte)) (bytes_of s) = true -> slash_free s.
Proof.
  unfold slash_free. rewrite forallb_forall, Forall_forall. intros Hall c Hc ->.
  apply list_elem_of_In in Hc. specialize (Hall _ Hc). discriminate.
Qed.

Lemma url_safe_slash_free (s : string) :
  Forall (fun c => url_safe c = true) (bytes_of s) -> slash_free s.
Proof.
  unfold slash_free. intros Hs. eapply Forall_impl; [exact Hs|].
  intros c Hc. apply url_safe_plain, Hc.
Qed.

(** The mark starts nowhere in a string without a slash, nor does its
    tail after the first slash. *)
Lemma slash_free_no_mark (s : string) :
  slash_free s ->
  String.prefix route_mark s = false /\ String.prefix (prefix +:+ "/") s = false.
Proof.
  intros Hs. split.
  - destruct (String.prefix route_mark s) eqn:Hp; [|reflexivity].
    apply prefix_split in Hp as [rest ->].
    change (route_mark +:+ rest) with (String "/" ((prefix +:+ "/") +:+ rest)) in Hs.
    apply slash_free_cons in Hs as [Hne _]. contradiction.
  - destruct (String.prefix (prefix +:+ "/") s) eqn:Hp; [|reflexivity].
    apply prefix_split in Hp as [rest ->].
    apply slash_free_app in Hs as [Hs _].
    change (prefix +:+ "/") with ("streamer" +:+ String "/" "") in Hs.
    apply slash_free_app in Hs as [_ Hs].
    apply slash_free_cons in Hs as [Hne _]. contradiction.
Qed.

Lemma route_after_mark (pre token : string) :
  slash_free token ->
  route (pre +:+ route_mark +:+ token) = Route token.
Proof.
  intros Hfree.
  assert (Hidx : LastIndex (pre +:+ route_mark +:+ token) route_mark
                 = Z.of_nat (String.length pre)).
  { apply LastIndex_unique.
    - rewrite string_length_app. lia.
    - rewrite string_drop_app. apply prefix_split. exists token. reflexivity.
    - intros j Hj.
      replace j with (String.length pre + (j - String.length pre))%nat by lia.
      rewrite string_drop_add, string_drop_app.
      rewrite !string_length_app in Hj.
      remember (j - String.length pre)%nat as d eqn:Hd.
      assert (Hpos : (0 < d)%nat) by lia. clear Hj Hd.
      do 9 (destruct d as [|d]; [try lia; try reflexivity|]).
      destruct d as [|d].
      + change (String.prefix route_mark (string_drop 9 (route_mark +:+ token)))
          with (String.prefix route_mark (String "/" token)).
        destruct (slash_free_no_mark token Hfree) as [_ Htail].
        change (String.prefix route_mark (String "/" token))
          with (String.prefix (prefix +:+ "/") token).
        exact Htail.
      + change (string_drop (S (S (S (S (S (S (S (S (S (S d))))))))))
                            (route_mark +:+ token))
          with (string_drop d token).
        apply slash_free_no_mark, slash_free_drop, Hfree. }
  unfold route. rewrite Hidx.
  destruct (Z.ltb_spec (Z.of_nat (String.length pre)) 0) as [Hneg|_]; [lia|].
  unfold slice_from. rewrite !string_length_app.
  change (String.length prefix) with 8%nat.
  change (String.length route_mark) with 10%nat.
  destruct (Z.leb_spec 0 (Z.of_nat (String.length pre) + Z.of_nat 8 + 2)); [|lia].
  destruct (Z.leb_spec (Z.of_nat (String.length pre) + Z.of_nat 8 + 2)
              (Z.of_nat (String.length pre + (10 + String.length token)))); [|lia].
  cbn [andb].
  replace (Z.to_nat (Z.of_nat (String.length pre) + Z.of_nat 8 + 2))
    with (String.length pre + 10)%nat by lia.
  rewrite string_drop_add, string_drop_app. reflexivity.
Qed.

(** X1.  A URL that ends in the mark followed by a name without a slash
    routes to that name, whatever stands before the mark: the link of
    phase 1 leads back to the token it advertises. *)
Theorem link_routes (pre token : string) :
  slash_free token ->
  route (pre +:+ route_mark +:+ token) = Route token.
Proof. exact (route_after_mark pre token). Qed.

(** X1 on the link of the README. *)
Lemma link_routes_witness :
  route ("http://localhost:3000" +:+ route_mark
         +:+ "DOMgNFnP1j7Nw__7LO8pR6Xl46oDqPuQqkTN2-FbmiSu2ie5")
    = Route "DOMgNFnP1j7Nw__7LO8pR6Xl46oDqPuQqkTN2-FbmiSu2ie5".
Proof.
  apply link_routes, slash_free_check. vm_compute. reflexivity.
Defined.

(** X2.  The route never panics.  It answers not-found exactly when the
    mark occurs nowhere in the URL; otherwise the name is all that
    follows the last place where the mark starts. *)
Theorem route_cases (url : string) :
  match route url with
  | NoRoute => forall pre rest, url <> pre +:+ route_mark +:+ rest
  | Route name =>
      exists pre,
        url = pre +:+ route_mark +:+ name /\
        forall pre' rest,
          url = pre' +:+ route_mark +:+ rest ->
          (String.length pre' <= String.length pre)%nat
  | RoutePanic => False
  end.
Proof.
  unfold route.
  destruct (LastIndex_spec route_mark url) as [[Hi Hnone] | (Hr & Hat & Hlast)].
  - rewrite Hi. cbn [Z.ltb Z.compare]. intros pre rest ->.
    specialize (Hnone (String.length pre)).
    rewrite string_drop_app in Hnone.
    assert (Hp : String.prefix route_mark (route_mark +:+ rest) = true)
      by (apply prefix_split; exists rest; reflexivity).
    rewrite Hnone in Hp; [discriminate|]. rewrite string_length_app. lia.
  - destruct (Z.ltb_spec (LastIndex url route_mark) 0) as [Hneg|_]; [lia|].
    set (i := Z.to_nat (LastIndex url route_mark)) in *.
    apply prefix_split in Hat as [name Hname].
    assert (Hlen : (i + 10 <= String.length url)%nat).
    { pose proof (string_drop_length i url) as Hd. rewrite Hname in Hd.
      rewrite string_length_app in Hd.
      change (String.length route_mark) with 10%nat in Hd. lia. }
    unfold slice_from. change (String.length prefix) with 8%nat.
    destruct (Z.leb_spec 0 (LastIndex url route_mark + Z.of_nat 8 + 2)); [|lia].
    destruct (Z.leb_spec (LastIndex url route_mark + Z.of_nat 8 + 2)
                (Z.of_nat (String.length url))); [|lia].
    cbn [andb].
    replace (Z.to_nat (LastIndex url route_mark + Z.of_nat 8 + 2)) with (i + 10)%nat by lia.
    rewrite string_drop_add, Hname.
    change 10%nat with (String.length route_mark). rewrite string_drop_app.
    exists (String.substring 0 i url). split.
    + rewrite <- Hname. symmetry. apply string_take_drop. lia.
    + intros pre' rest Hurl. rewrite substring_length by lia.
      destruct (Nat.le_gt_cases (String.length pre') i) as [Hle|Hgt]; [exact Hle|].
      specialize (Hlast (String.length pre')).
      rewrite Hurl, string_drop_app in Hlast.
      assert (Hp : String.prefix route_mark (route_mark +:+ rest) = true)
        by (apply prefix_split; exists rest; reflexivity).
      rewrite Hlast in Hp; [discriminate|].
      rewrite <- Hurl. split; [exact Hgt|].
      rewrite Hurl, string_length_app. lia.
Qed.

(* --------------------------------------------------------------------- *)
(** ** The handler as a whole *)

Lemma handle_Uploading cfg rand_Read q w s s1 u :
  handle cfg rand_Read q w s = Some (s1, Uploading u) ->
  exists fileName w0,
    route (hr_url q) = Route fileName /\
    hr_method q = "POST" /\
    writers s !! w = Some w0 /\
    upload_start cfg rand_Read (upload_of q fileName) w0 s = Some (s1, Waiting u).
Proof.
  unfold handle. destruct (route (hr_url q)) as [|fileName|]; try discriminate.
  destruct (String.eqb_spec (hr_method q) "POST") as [Hm|_].
  - destruct (writers s !! w) as [w0|]; [|discriminate]. cbn [mbind option_bind].
    destruct (upload_start cfg rand_Read (upload_of q fileName) w0 s)
      as [[s' [w1|u']]|] eqn:Hstart; cbn [mbind option_bind]; try discriminate.
    intros [= <- <-]. exists fileName, w0. auto.
  - destruct (String.eqb (hr_method q) "GET"); [|discriminate].
    destruct (download_start fileName w s) as [[s' d]|]; cbn [mbind option_bind];
      [|discriminate].
    destruct d; discriminate.
Qed.

Lemma fileID_slash_free cfg rand_Read r w0 s s1 u :
  upload_start cfg rand_Read r w0 s = Some (s1, Waiting u) ->
  slash_free (up_fileID u).
Proof.
  intros Hstart.
  destruct (upload_start_Waiting _ _ _ _ _ _ _ Hstart) as (_ & _ & b & n & buffer & Hd & Hid).
  pose proof (length_draw rand_Read (rq_now r)) as [Hb Hn].
  rewrite Hd in Hb, Hn. cbn [fst snd] in Hb, Hn.
  destruct (make_fileID_drawn (bufPool_Get (rq_stale r)) b n
              (length_bufPool_Get _) Hb Hn) as (buffer' & fileID & Hid' & _ & _ & Hsafe).
  rewrite Hid in Hid'. injection Hid' as _ <-.
  apply url_safe_slash_free, Hsafe.
Qed.

(** X3.  The link that phase 1 of an upload prints is good: a GET for
    the URL in that link, arriving while the upload waits, is routed to
    the token, finds the client, claims it and stands ready to send the
    pairing signal to this very upload. *)
Theorem link_leads_to_upload cfg rand_Read q w s s1 u q' w' rw :
  handle cfg rand_Read q w s = Some (s1, Uploading u) ->
  hr_url q' = link_url cfg (up_fileID u) ->
  hr_method q' = "GET" ->
  writers s1 !! w' = Some rw ->
  (exists fileName,
      up_calls u = [bytes_of ("HTTP/1.1 200 OK" +:+ cr +:+ nl +:+ cr +:+ nl +:+
                              "To download the file, curl -o " +:+ fileName +:+ " " +:+
                              link_url cfg (up_fileID u) +:+ nl)]) /\
  exists s2,
    handle cfg rand_Read q' w' s1
      = Some (s2, Downloading (DlSending (up_newClient u))) /\
    sending_on s2 (DlSending (up_newClient u)) = Some (up_receiverCh u) /\
    paired s2 u w' (fresh s1) rw.
Proof.
  intros Hup Hurl Hget Hw.
  destruct (handle_Uploading _ _ _ _ _ _ _ Hup) as (fileName & w0 & _ & _ & _ & Hstart).
  destruct (upload_start_Waiting _ _ _ _ _ _ _ Hstart) as (Hsel & _).
  split.
  - exists fileName. rewrite (sel_calls _ _ _ _ _ Hsel). do 2 f_equal.
    unfold msg_link, link_url. cbn [upload_of rq_fileName].
    do 8 f_equal. rewrite !string_app_assoc. reflexivity.
  - destruct (claim_pairs _ _ _ _ u w' rw Hsel Hw) as (s2 & Hdl & Hpaired & Hsend).
    exists s2. unfold handle. rewrite Hurl. unfold link_url.
    rewrite (route_after_mark _ _ (fileID_slash_free _ _ _ _ _ _ _ Hstart)).
    rewrite Hget. cbn [String.eqb Ascii.eqb Bool.eqb]. rewrite Hdl. cbn [mbind option_bind].
    split; [reflexivity|]. split; [exact Hsend | exact Hpaired].
Qed.

Lemma uploading_eq (o : option (server * handled)) :
  is_uploading o = true -> o = Some (handled_server o, Uploading (handled_flow o)).
Proof. destruct o as [[s [|u|d]]|]; simpl; intros H; try discriminate. reflexivity. Qed.

(** X3 on the sample exchange. *)
Lemma link_leads_to_upload_witness :
  exists s2,
    handle sample_config sample_rand
           (sample_get (link_url sample_config (up_fileID (handled_flow sample_handled))))
           1%nat (handled_server sample_handled)
      = Some (s2, Downloading (DlSending (up_newClient (handled_flow sample_handled)))) /\
    paired s2 (handled_flow sample_handled) 1%nat 4%nat (new_response None).
Proof.
  destruct (link_leads_to_upload sample_config sample_rand sample_post 0%nat two_arrivals
              (handled_server sample_handled) (handled_flow sample_handled)
              (sample_get (link_url sample_config (up_fileID (handled_flow sample_handled))))
              1%nat (new_response None))
    as (_ & s2 & Hget & _ & Hpaired).
  - apply (uploading_eq sample_handled). vm_compute. reflexivity.
  - reflexivity.
  - reflexivity.
  - vm_compute. reflexivity.
  - exists s2. split; [exact Hget|].
    replace 4%nat with (fresh (handled_server sample_handled)) by (vm_compute; reflexivity).
    exact Hpaired.
Defined.

(* --------------------------------------------------------------------- *)
(** ** The token is a function of the clock reading *)

Lemma bytes_of_inj (s t : string) : bytes_of s = bytes_of t -> s = t.
Proof.
  intros H0.
  rewrite <- (string_of_list_byte_of_string s), <- (string_of_list_byte_of_string t).
  unfold bytes_of in H0. rewrite H0. reflexivity.
Qed.

Lemma make_fileID_buffer (buffer buffer' b : list byte) (n : Z)
    (buffer1 : list byte) (fileID : string) :
  length buffer = bufferSize -> length buffer' = bufferSize ->
  length b = 36%nat -> 0 <= n <= 36 ->
  make_fileID buffer b n = Some (buffer1, fileID) ->
  exists buffer1', make_fileID buffer' b n = Some (buffer1', fileID).
Proof.
  intros Hl Hl' Hb Hn Hid.
  destruct (make_fileID_drawn buffer b n Hl Hb Hn) as (b1 & id1 & H1 & _ & Hbytes1 & _).
  destruct (make_fileID_drawn buffer' b n Hl' Hb Hn) as (b2 & id2 & H2 & _ & Hbytes2 & _).
  rewrite Hid in H1. injection H1 as _ <-.
  exists b2. rewrite H2. do 2 f_equal. apply bytes_of_inj. congruence.
Qed.

(** X4.  The token is a function of the clock reading alone: a second
    upload that reads the same clock value while the first waits draws
    the same token, whatever its file name, its declared length and the
    bytes its pooled buffer held, and is turned away with status 400 and
    the message of a name clash.  The shared state stays as it was. *)
Theorem same_clock_collides cfg rand_Read r r' w0 w0' s s1 u :
  upload_start cfg rand_Read r w0 s = Some (s1, Waiting u) ->
  rq_now r' = rq_now r ->
  bad_credentials cfg (rq_BasicAuth r') = false ->
  upload_start cfg rand_Read r' w0' s1 =
    Some (s1, Replied (fst (rw_Write (rw_WriteHeader w0' StatusBadRequest)
                                     (bytes_of msg_exists)))).
Proof.
  intros Hstart Hnow Hauth.
  destruct (upload_start_Waiting _ _ _ _ _ _ _ Hstart)
    as (Hsel & _ & b & n & buffer & Hd & Hid).
  pose proof (length_draw rand_Read (rq_now r)) as [Hb Hn].
  rewrite Hd in Hb, Hn. cbn [fst snd] in Hb, Hn.
  destruct (make_fileID_buffer _ (bufPool_Get (rq_stale r')) _ _ _ _
              (length_bufPool_Get _) (length_bufPool_Get _) Hb Hn Hid)
    as (buffer' & Hid').
  unfold upload_start. rewrite Hauth, Hnow, Hd, Hid'. cbn [mbind option_bind].
  rewrite (sel_clients _ _ _ _ _ Hsel), lookup_insert_eq. reflexivity.
Qed.

(** X4 on the sample upload and its twin. *)
Lemma same_clock_collides_witness :
  upload_start sample_config sample_rand sample_twin (new_response None)
               (sample_server 5 hello_body)
    = Some (sample_server 5 hello_body,
            Replied (fst (rw_Write (rw_WriteHeader (new_response None) StatusBadRequest)
                                   (bytes_of msg_exists)))).
Proof.
  apply (same_clock_collides sample_config sample_rand (sample_upload 5 hello_body)
           sample_twin (new_response None) (new_response None) new_server
           (sample_server 5 hello_body) (sample_flow 5 hello_body)).
  - apply sample_at_select. vm_compute. reflexivity.
  - reflexivity.
  - reflexivity.
Defined.

(* --------------------------------------------------------------------- *)
(** ** What a flow changes in the shared state *)

Lemma write_flush_inv (u u1 : upload) (msg : string) :
  write_flush u msg = Some u1 ->
  exists w1 r,
    lw_Write (up_w u) (bytes_of msg) = Some (w1, r) /\
    u1 = mkUpload (up_fileName u) (up_fileID u) (up_newClient u) (up_receiverCh u)
           (mkLog (lw_ResponseWriter w1) (bufio_Flush (lw_body w1)) (lw_header w1)
                  (lw_status w1) (lw_size w1))
           (up_calls u ++ [bytes_of msg]) (up_bufrw u) (up_ContentLength u)
           (up_buffer u) (up_closed u) (up_defers u).
Proof.
  unfold write_flush.
  destruct (lw_Write (up_w u) (bytes_of msg)) as [[w1 r]|]; cbn [mbind option_bind];
    [|discriminate].
  intros [= <-]. exists w1, r. split; reflexivity.
Qed.

Lemma lw_Write_body (w w1 : responseLogWriter bufioWriter) (data : list byte)
    (r : Z * option error) :
  lw_Write w data = Some (w1, r) ->
  lw_body w1 = fst (bufio_Write (lw_body w) data).
Proof.
  unfold lw_Write, WriteHeaderNow.
  destruct (Written w).
  - change (Write (lw_body w) data) with (bufio_Write (lw_body w) data).
    destruct (bufio_Write (lw_body w) data) as [b1 [n e]]. intros [= <- _]. reflexivity.
  - destruct (lw_ResponseWriter w) as [rw|]; [|discriminate].
    destruct (checkWriteHeaderCode (lw_status w)); [|discriminate].
    cbn [lw_body].
    change (Write (lw_body w) data) with (bufio_Write (lw_body w) data).
    destruct (bufio_Write (lw_body w) data) as [b1 [n e]]. intros [= <- _]. reflexivity.
Qed.

(** The part of the flow between the [select] and the [return]: it
    leaves the registry, the clients and the trace alone, and pushes the
    deferred completion signal when it was paired. *)
Lemma upload_body_frame (k : select_case) (u u1 : upload) (s s1 : server) (x : exit) :
  upload_body k u s = Some (s1, u1, x) ->
  clients s1 = clients s /\ heap s1 = heap s /\ trace s1 = trace s /\
  fresh s1 = fresh s /\
  up_fileID u1 = up_fileID u /\ up_newClient u1 = up_newClient u /\
  up_closed u1 = up_closed u /\
  up_defers u1 = match k with
                 | CaseRecv _ => DeferCompleted (up_newClient u) :: up_defers u
                 | _ => up_defers u
                 end /\
  (forall w', (forall cl, heap s !! up_newClient u = Some cl -> receiver cl <> Some w') ->
              writers s1 !! w' = writers s !! w') /\
  ((forall c, k <> CaseRecv c) -> writers s1 = writers s).
Proof.
  unfold upload_body. destruct k as [c| |d].
  - destruct (negb (c =? up_receiverCh u)%nat); [discriminate|].
    destruct (write_flush u msg_connected) as [ua|] eqn:Ha; cbn [mbind option_bind];
      [|discriminate].
    apply write_flush_inv in Ha as (wa & ra & _ & ->).
    destruct (heap s !! up_newClient u) as [cl|]; cbn [mbind option_bind]; [|discriminate].
    destruct (receiver cl) as [w|] eqn:Hrecv; cbn [mbind option_bind]; [|discriminate].
    destruct (writers s !! w) as [sink|]; cbn [mbind option_bind]; [|discriminate].
    destruct (CopyBuffer _ _ _ _) as [[[sink2 src] [nw err]]|]; cbn [mbind option_bind];
      [|discriminate].
    destruct err as [e|].
    + destruct (write_flush _ (Error e)) as [ub|] eqn:Hb; cbn [mbind option_bind];
        [|discriminate].
      apply write_flush_inv in Hb as (wb & rb & _ & ->).
      intros [= <- <- <-]. cbn. repeat split; try reflexivity.
      * intros w' Hw'. apply lookup_insert_ne. intros ->.
        exact (Hw' cl eq_refl Hrecv).
      * intros Hk. destruct (Hk c eq_refl).
    + destruct (write_flush _ (msg_transferred _)) as [ub|] eqn:Hb;
        cbn [mbind option_bind]; [|discriminate].
      apply write_flush_inv in Hb as (wb & rb & _ & ->).
      intros [= <- <- <-]. cbn. repeat split; try reflexivity.
      * intros w' Hw'. apply lookup_insert_ne. intros ->.
        exact (Hw' cl eq_refl Hrecv).
      * intros Hk. destruct (Hk c eq_refl).
  - destruct (write_flush u msg_disconnected) as [ua|] eqn:Ha; cbn [mbind option_bind];
      [|discriminate].
    apply write_flush_inv in Ha as (wa & ra & _ & ->).
    intros [= <- <- <-]. cbn. repeat split; reflexivity.
  - destruct (negb (d =? 120 * Second)); [discriminate|].
    destruct (write_flush u msg_timeout) as [ua|] eqn:Ha; cbn [mbind option_bind];
      [|discriminate].
    apply write_flush_inv in Ha as (wa & ra & _ & ->).
    intros [= <- <- <-]. cbn. repeat split; reflexivity.
Qed.

Lemma run_deferred_frame (d : deferred) (s s' : server) (u u' : upload) :
  run_deferred d s u = Some (s', u') ->
  clients s' = deferred_deletes [d] (clients s) /\
  heap s' = heap s /\ writers s' = writers s /\ fresh s' = fresh s /\
  up_w u' = up_w u /\ up_calls u' = up_calls u.
Proof.
  destruct d as [|fileID| |p]; cbn [run_deferred deferred_deletes fold_left].
  - intros [= <- <-]. repeat split; reflexivity.
  - intros [= <- <-]. repeat split; reflexivity.
  - intros [= <- <-]. repeat split; reflexivity.
  - destruct (heap s !! p) as [cl|]; cbn [mbind option_bind]; [|discriminate].
    destruct (downloadCompleted cl) as [c|]; cbn [mbind option_bind]; [|discriminate].
    intros [= <- <-]. repeat split; reflexivity.
Qed.

Lemma run_defers_frame (ds : list deferred) :
  forall (s s' : server) (u u' : upload),
    run_defers ds s u = Some (s', u') ->
    clients s' = deferred_deletes ds (clients s) /\
    heap s' = heap s /\ writers s' = writers s /\ fresh s' = fresh s /\
    up_w u' = up_w u /\ up_calls u' = up_calls u.
Proof.
  induction ds as [|d ds IH]; intros s s' u u'; cbn [run_defers].
  - intros [= <- <-]. repeat split; reflexivity.
  - destruct (run_deferred d s u) as [[sa ua]|] eqn:Hd; cbn [mbind option_bind];
      [|discriminate].
    intros Hrest.
    destruct (run_deferred_frame _ _ _ _ _ Hd) as (Hc & Hh & Hw & Hf & Huw & Huc).
    destruct (IH _ _ _ _ Hrest) as (Hc' & Hh' & Hw' & Hf' & Huw' & Huc').
    rewrite Hc', Hh', Hw', Hf', Huw', Huc', Hc, Hh, Hw, Hf, Huw, Huc.
    repeat split; reflexivity.
Qed.

(** The handler of an upload that passed its [select], taken apart. *)
Lemma upload_resume_inv (k : select_case) (u u' : upload) (s s' : server) (x : exit) :
  upload_resume k u s = Some (s', u', x) ->
  exists s1 u1,
    upload_body k u s = Some (s1, u1, x) /\
    run_defers (up_defers u1) s1 u1 = Some (s', u').
Proof.
  unfold upload_resume.
  destruct (upload_body k u s) as [[[s1 u1] x1]|]; cbn [mbind option_bind]; [|discriminate].
  destruct (run_defers (up_defers u1) s1 u1) as [[s2 u2]|] eqn:Hd;
    cbn [mbind option_bind]; [|discriminate].
  intros [= <- <- <-]. exists s1, u1. split; [reflexivity | exact Hd].
Qed.

Lemma upload_resume_clients cfg r s0 s1 (u u' : upload) (k : select_case)
    (s s' : server) (x : exit) :
  at_select cfg r s0 s1 u ->
  upload_resume k u s = Some (s', u', x) ->
  clients s' = delete (up_fileID u) (clients s) /\ heap s' = heap s.
Proof.
  intros Hsel Hres.
  destruct (upload_resume_inv _ _ _ _ _ _ Hres) as (sa & ua & Hbody & Hdefers).
  destruct (upload_body_frame _ _ _ _ _ _ Hbody)
    as (Hc & Hh & _ & _ & _ & _ & _ & Hd & _).
  destruct (run_defers_frame _ _ _ _ _ Hdefers) as (Hc' & Hh' & _).
  rewrite Hc', Hh', Hc, Hh, Hd, (sel_defers _ _ _ _ _ Hsel).
  split; [|reflexivity]. destruct k; reflexivity.
Qed.

(** The uninterrupted run is the test followed at once by the insert. *)
Lemma upload_start_steps cfg rand_Read r w0 s :
  upload_start cfg rand_Read r w0 s =
    c ← upload_check cfg rand_Read r w0 s;
    match c with
    | Refused w1 => Some (s, Replied w1)
    | Passed buffer fileID => upload_register cfg r w0 buffer fileID s
    end.
Proof.
  unfold upload_start, upload_check, upload_register.
  destruct (bad_credentials cfg (rq_BasicAuth r)); [reflexivity|].
  destruct (draw rand_Read (rq_now r)) as [[b n] [e|]]; [reflexivity|].
  destruct (make_fileID (bufPool_Get (rq_stale r)) b n) as [[buffer fileID]|];
    cbn [mbind option_bind]; [|reflexivity].
  destruct (clients s !! fileID); reflexivity.
Qed.

Lemma upload_check_inv cfg rand_Read r w0 s buffer fileID :
  upload_check cfg rand_Read r w0 s = Some (Passed buffer fileID) ->
  bad_credentials cfg (rq_BasicAuth r) = false /\
  clients s !! fileID = None /\
  exists b n,
    draw rand_Read (rq_now r) = (b, n, None) /\
    make_fileID (bufPool_Get (rq_stale r)) b n = Some (buffer, fileID).
Proof.
  unfold upload_check.
  destruct (bad_credentials cfg (rq_BasicAuth r)); [discriminate|].
  destruct (draw rand_Read (rq_now r)) as [[b n] [e|]]; [discriminate|].
  destruct (make_fileID (bufPool_Get (rq_stale r)) b n) as [[buffer' fileID']|] eqn:Hid;
    cbn [mbind option_bind]; [|discriminate].
  destruct (clients s !! fileID') eqn:Hfree; [discriminate|].
  intros [= <- <-]. split; [reflexivity|]. split; [exact Hfree|].
  exists b, n. split; [reflexivity | exact Hid].
Qed.

(** The test looks at the state only through the entry of the token. *)
Lemma upload_check_state cfg rand_Read r w0 s s' buffer fileID :
  upload_check cfg rand_Read r w0 s = Some (Passed buffer fileID) ->
  clients s' !! fileID = None ->
  upload_check cfg rand_Read r w0 s' = Some (Passed buffer fileID).
Proof.
  intros Hcheck Hfree.
  destruct (upload_check_inv _ _ _ _ _ _ _ Hcheck) as (Hauth & _ & b & n & Hd & Hid).
  unfold upload_check. rewrite Hauth, Hd, Hid. cbn [mbind option_bind].
  rewrite Hfree. reflexivity.
Qed.

(** The insert does not care whether the key is there. *)
Lemma upload_register_forget cfg r w0 buffer fileID s :
  upload_register cfg r w0 buffer fileID (forget s fileID)
    = upload_register cfg r w0 buffer fileID s.
Proof.
  unfold upload_register, register, forget. cbn [clients heap writers fresh trace].
  rewrite insert_delete_eq. reflexivity.
Qed.

(** An upload that passed its test and inserts later, over whatever the
    map holds by then, does what an uninterrupted upload does on the
    state without that entry. *)
Lemma upload_register_as_start cfg rand_Read r w0 s s' s1 st buffer fileID :
  upload_check cfg rand_Read r w0 s = Some (Passed buffer fileID) ->
  upload_register cfg r w0 buffer fileID s' = Some (s1, st) ->
  upload_start cfg rand_Read r w0 (forget s' fileID) = Some (s1, st).
Proof.
  intros Hcheck Hreg. rewrite upload_start_steps.
  rewrite (upload_check_state _ _ _ _ s (forget s' fileID) _ _ Hcheck)
    by (cbn [forget clients]; apply lookup_delete_eq).
  cbn [mbind option_bind]. rewrite upload_register_forget. exact Hreg.
Qed.

Lemma upload_register_Waiting cfg rand_Read r w0 s s' s1 u buffer fileID :
  upload_check cfg rand_Read r w0 s = Some (Passed buffer fileID) ->
  upload_register cfg r w0 buffer fileID s' = Some (s1, Waiting u) ->
  at_select cfg r (forget s' fileID) s1 u /\
  up_fileID u = fileID /\
  fresh s1 = S (S (fresh s')).
Proof.
  intros Hcheck Hreg.
  pose proof (upload_register_as_start _ _ _ _ _ _ _ _ _ _ Hcheck Hreg) as Hstart.
  destruct (upload_start_Waiting _ _ _ _ _ _ _ Hstart) as (Hsel & _ & b & n & x & Hd & Hid).
  destruct (upload_check_inv _ _ _ _ _ _ _ Hcheck) as (_ & _ & b' & n' & Hd' & Hid').
  rewrite Hd in Hd'. injection Hd' as <- <-. rewrite Hid in Hid'. injection Hid' as _ Htok.
  split; [exact Hsel|]. split; [exact Htok|].
  revert Hreg. unfold upload_register. cbn [register].
  destruct (rq_hijack r) as [|e|body broken]; try discriminate.
  destruct (go_string _) as [link|]; cbn [mbind option_bind]; [|discriminate].
  destruct (write_flush _ link) as [u0|]; cbn [mbind option_bind]; [|discriminate].
  intros [= <- _]. reflexivity.
Qed.

(** X5.  An upload changes the registry at its own token and nowhere
    else.  It passes its test only when the token is free in the state
    it tests.  Its insert, which may come later, stores its client at
    the token over whatever the map holds by then; a failed hijack
    deletes the token again at once; and when the handler returns after
    the [select], through whichever case, exactly that token is
    deleted.  When the token was still free at the insert and nobody
    else changed the map in between, the map is back where it was. *)
Theorem upload_registry_frame cfg rand_Read r w0 s s' s1 st buffer fileID :
  upload_check cfg rand_Read r w0 s = Some (Passed buffer fileID) ->
  upload_register cfg r w0 buffer fileID s' = Some (s1, st) ->
  clients s !! fileID = None /\
  match st with
  | Replied _ => clients s1 = delete fileID (clients s')
  | Waiting u =>
      up_fileID u = fileID /\
      clients s1 = <[fileID := up_newClient u]> (clients s') /\
      forall k s2 s3 u' x,
        upload_resume k u s2 = Some (s3, u', x) ->
        clients s3 = delete fileID (clients s2) /\
        (clients s' !! fileID = None -> clients s2 = clients s1 -> clients s3 = clients s')
  end.
Proof.
  intros Hcheck Hreg.
  destruct (upload_check_inv _ _ _ _ _ _ _ Hcheck) as (_ & Hfree & _).
  split; [exact Hfree|]. destruct st as [w1|u].
  - revert Hreg. unfold upload_register. cbn [register].
    destruct (rq_hijack r) as [|e|body broken].
    + intros [= <- _]. cbn. apply delete_insert_eq.
    + intros [= <- _]. cbn. apply delete_insert_eq.
    + destruct (go_string _); cbn [mbind option_bind]; [|discriminate].
      destruct (write_flush _ _); cbn [mbind option_bind]; discriminate.
  - destruct (upload_register_Waiting _ _ _ _ _ _ _ _ _ _ Hcheck Hreg) as (Hsel & Htok & _).
    split; [exact Htok|].
    assert (Hins : clients s1 = <[fileID := up_newClient u]> (clients s')).
    { rewrite (sel_clients _ _ _ _ _ Hsel), Htok. cbn [forget clients].
      apply insert_delete_eq. }
    split; [exact Hins|].
    intros k s2 s3 u' x Hres.
    destruct (upload_resume_clients _ _ _ _ _ _ _ _ _ _ Hsel Hres) as [Hc _].
    rewrite Htok in Hc. split; [exact Hc|]. intros Hfree' Hsame.
    rewrite Hc, Hsame, Hins. apply delete_insert_id, Hfree'.
Qed.

Lemma resumed_eq (o : option (server * upload * exit)) :
  is_resumed o = true -> o = Some (resumed_server o, resumed_flow o, resumed_exit o).
Proof. destruct o as [[[s u] x]|]; simpl; intros H0; [reflexivity|discriminate]. Qed.

Lemma started_eq (o : option (server * started)) :
  is_waiting o = true -> o = Some (started_server o, Waiting (started_flow o)).
Proof. destruct o as [[s [w|u]]|]; simpl; intros H0; try discriminate. reflexivity. Qed.

Lemma passed_eq (o : option checked) :
  is_passed o = true -> o = Some (Passed (checked_buffer o) (checked_token o)).
Proof. destruct o as [[w|buffer fileID]|]; simpl; intros H0; try discriminate. reflexivity. Qed.

(** X5 on the sample upload and its timeout. *)
Lemma upload_registry_frame_witness :
  clients two_arrivals !! checked_token sample_checked = None /\
  clients (resumed_server
             (upload_resume (CaseAfter (120 * Second)) (started_flow sample_registered)
                            (started_server sample_registered)))
    = clients two_arrivals.
Proof.
  destruct (upload_registry_frame sample_config sample_rand (sample_upload 5 hello_body)
              (new_response None) two_arrivals two_arrivals
              (started_server sample_registered) (Waiting (started_flow sample_registered))
              (checked_buffer sample_checked) (checked_token sample_checked))
    as (Hfree & _ & _ & Hback).
  - apply (passed_eq sample_checked). vm_compute. reflexivity.
  - apply (started_eq sample_registered). vm_compute. reflexivity.
  - split; [exact Hfree|].
    destruct (Hback (CaseAfter (120 * Second)) (started_server sample_registered)
                (resumed_server
                   (upload_resume (CaseAfter (120 * Second))
                                  (started_flow sample_registered)
                                  (started_server sample_registered)))
                (resumed_flow
                   (upload_resume (CaseAfter (120 * Second))
                                  (started_flow sample_registered)
                                  (started_server sample_registered)))
                (resumed_exit
                   (upload_resume (CaseAfter (120 * Second))
                                  (started_flow sample_registered)
                                  (started_server sample_registered))))
      as [_ Hrestored].
    + apply resumed_eq. vm_compute. reflexivity.
    + apply Hrestored; [exact Hfree | reflexivity].
Defined.

(** The GET branch, taken apart by its outcome. *)
Lemma download_start_inv (token : string) (w : wid) (s s' : server) (d : download) :
  download_start token w s = Some (s', d) ->
  clients s' = clients s /\ trace s' = trace s /\
  (forall w', w' <> w -> writers s' !! w' = writers s !! w') /\
  match d with
  | DlDone NotFound =>
      clients s !! token = None /\ heap s' = heap s /\
      writers s' !! w = http_NotFound <$> writers s !! w
  | DlDone Rejected =>
      heap s' = heap s /\
      writers s' !! w
        = (fun rw => http_Error rw msg_receiving StatusBadRequest) <$> writers s !! w /\
      exists p cl,
        clients s !! token = Some p /\ heap s !! p = Some cl /\ receiving cl = true
  | DlSending p =>
      writers s' = writers s /\
      (forall q, q <> p -> heap s' !! q = heap s !! q) /\
      exists cl,
        clients s !! token = Some p /\ heap s !! p = Some cl /\ receiving cl = false /\
        heap s' !! p = Some (mkClient (fileName cl) (clientConnected cl)
                                      (Some (fresh s)) true (Some w))
  | _ => False
  end.
Proof.
  unfold download_start, download_step, find_client, is_receiving, claim.
  destruct (clients s !! token) as [p|] eqn:Hp; cbn [mbind option_bind].
  - destruct (heap s !! p) as [cl|] eqn:Hcl;
      cbn [fmap option_fmap option_map mbind option_bind]; [|discriminate].
    destruct (receiving cl) eqn:Hr; cbn [negb].
    + intros [= <- <-].
      destruct (reply_fields s w (fun rw => http_Error rw msg_receiving StatusBadRequest))
        as (Hc & Hh & Ht & _ & Hw).
      split; [exact Hc|]. split; [exact Ht|]. split.
      * intros w' Hne. unfold reply, set_writers. cbn [writers].
        apply lookup_alter_ne. congruence.
      * split; [exact Hh|]. split; [exact Hw|]. exists p, cl. auto.
    + cbn [mbind option_bind]. rewrite Hcl. cbn [mbind option_bind].
      intros [= <- <-]. cbn [clients trace writers heap].
      split; [reflexivity|]. split; [reflexivity|]. split; [reflexivity|].
      split; [reflexivity|]. split.
      * intros q Hne. apply lookup_insert_ne. congruence.
      * exists cl. split; [reflexivity|]. split; [exact Hcl|]. split; [exact Hr|].
        apply lookup_insert_eq.
  - intros [= <- <-].
    destruct (reply_fields s w http_NotFound) as (Hc & Hh & Ht & _ & Hw).
    split; [exact Hc|]. split; [exact Ht|]. split.
    + intros w' Hne. unfold reply, set_writers. cbn [writers].
      apply lookup_alter_ne. congruence.
    + split; [reflexivity|]. split; [exact Hh | exact Hw].
Qed.

(** X6.  The GET branch ends in one of three ways and in no other: 404
    when the token is not registered, 400 when the client is marked as
    receiving, or blocked on the pairing send after marking the client.
    It never touches the registry map, the trace, or the response
    writer of another request; a reply changes no client, and a claim
    changes only the client it claims, whose file name and pairing
    channel it keeps. *)
Theorem download_outcomes (token : string) (w : wid) (s s' : server) (d : download) :
  download_start token w s = Some (s', d) ->
  clients s' = clients s /\ trace s' = trace s /\
  (forall w', w' <> w -> writers s' !! w' = writers s !! w') /\
  match d with
  | DlDone NotFound =>
      clients s !! token = None /\ heap s' = heap s /\
      writers s' !! w = http_NotFound <$> writers s !! w
  | DlDone Rejected =>
      heap s' = heap s /\
      writers s' !! w
        = (fun rw => http_Error rw msg_receiving StatusBadRequest) <$> writers s !! w /\
      exists p cl,
        clients s !! token = Some p /\ heap s !! p = Some cl /\ receiving cl = true
  | DlSending p =>
      writers s' = writers s /\
      (forall q, q <> p -> heap s' !! q = heap s !! q) /\
      exists cl,
        clients s !! token = Some p /\ heap s !! p = Some cl /\ receiving cl = false /\
        heap s' !! p = Some (mkClient (fileName cl) (clientConnected cl)
                                      (Some (fresh s)) true (Some w))
  | _ => False
  end.
Proof. exact (download_start_inv token w s s' d). Qed.

(** X6 on a download of a token nobody registered. *)
Lemma download_outcomes_witness :
  clients two_arrivals !! "no-such-token" = None /\
  writers (reply two_arrivals 1%nat http_NotFound) !! 0%nat = writers two_arrivals !! 0%nat.
Proof.
  destruct (download_outcomes "no-such-token" 1%nat two_arrivals
              (reply two_arrivals 1%nat http_NotFound) (DlDone NotFound))
    as (_ & _ & Hothers & Hfree & _).
  - vm_compute. reflexivity.
  - split; [exact Hfree|]. apply Hothers. discriminate.
Defined.

(** X7.  While a download holds a client, a second download of the same
    token that runs its lookup and test after the claim is turned away
    with status 400, and the claim of the first stays as it is. *)
Theorem second_download_rejected (token : string) (w1 w2 : wid) (s s1 : server) (p : loc) :
  download_start token w1 s = Some (s1, DlSending p) ->
  download_start token w2 s1
    = Some (reply s1 w2 (fun rw => http_Error rw msg_receiving StatusBadRequest),
            DlDone Rejected) /\
  heap (reply s1 w2 (fun rw => http_Error rw msg_receiving StatusBadRequest)) !! p
    = heap s1 !! p /\
  (receiver <$> heap s1 !! p) = Some (Some w1).
Proof.
  intros Hfirst.
  destruct (download_start_inv _ _ _ _ _ Hfirst)
    as (Hc & _ & _ & _ & _ & cl & Hp & _ & _ & Hcl').
  split; [|split].
  - unfold download_start, download_step, find_client, is_receiving.
    rewrite Hc, Hp. cbn [mbind option_bind]. rewrite Hcl'. reflexivity.
  - reflexivity.
  - rewrite Hcl'. reflexivity.
Qed.

(** X7 on the sample upload: the download on writer 1 claims it, the
    download on writer 2 comes second. *)
Lemma second_download_rejected_witness :
  exists s1,
    download_start (up_fileID (handled_flow sample_handled)) 1%nat
                   (handled_server sample_handled)
      = Some (s1, DlSending (up_newClient (handled_flow sample_handled))) /\
    download_start (up_fileID (handled_flow sample_handled)) 2%nat s1
      = Some (reply s1 2%nat (fun rw => http_Error rw msg_receiving StatusBadRequest),
              DlDone Rejected).
Proof.
  destruct (handle_Uploading sample_config sample_rand sample_post 0%nat two_arrivals
              (handled_server sample_handled) (handled_flow sample_handled))
    as (fileName & w0 & _ & _ & _ & Hstart).
  { apply (uploading_eq sample_handled). vm_compute. reflexivity. }
  destruct (upload_start_Waiting _ _ _ _ _ _ _ Hstart) as (Hsel & _).
  destruct (claim_pairs _ _ _ _ _ 1%nat (new_response None) Hsel) as (s1 & Hdl & _).
  { vm_compute. reflexivity. }
  exists s1. split; [exact Hdl|].
  exact (proj1 (second_download_rejected _ 1%nat 2%nat _ s1 _ Hdl)).
Defined.

(** X8.  The link of an upload is good for one exchange: once the
    handler of the upload has returned, through whichever case of the
    [select] and whether or not the copy succeeded, a GET for its token
    finds no client and is answered 404. *)
Theorem link_dies_with_upload cfg rand_Read r w0 s0 s1 (u u' : upload)
    (k : select_case) (s s' : server) (x : exit) (w : wid) :
  upload_start cfg rand_Read r w0 s0 = Some (s1, Waiting u) ->
  upload_resume k u s = Some (s', u', x) ->
  download_start (up_fileID u) w s' = Some (reply s' w http_NotFound, DlDone NotFound).
Proof.
  intros Hstart Hres.
  destruct (upload_start_Waiting _ _ _ _ _ _ _ Hstart) as (Hsel & _).
  destruct (upload_resume_clients _ _ _ _ _ _ _ _ _ _ Hsel Hres) as [Hc _].
  unfold download_start, download_step, find_client.
  rewrite Hc, lookup_delete_eq. reflexivity.
Qed.

(** X8 on the sample upload after its timeout. *)
Lemma link_dies_with_upload_witness :
  download_start (up_fileID (sample_flow 5 hello_body)) 0%nat
                 (resumed_server sample_timed_out)
    = Some (reply (resumed_server sample_timed_out) 0%nat http_NotFound, DlDone NotFound).
Proof.
  apply (link_dies_with_upload sample_config sample_rand (sample_upload 5 hello_body)
           (new_response None) new_server (sample_server 5 hello_body)
           (sample_flow 5 hello_body) (resumed_flow sample_timed_out)
           (CaseAfter (120 * Second)) (sample_server 5 hello_body)
           (resumed_server sample_timed_out) (resumed_exit sample_timed_out)).
  - apply sample_at_select. vm_compute. reflexivity.
  - apply (resumed_eq sample_timed_out). vm_compute. reflexivity.
Defined.

(* --------------------------------------------------------------------- *)
(** ** What reaches the uploader *)

(** A healthy connection with nothing buffered has sent what the flow
    wrote. *)
Lemma write_flush_wire (u u1 : upload) (msg : string) :
  write_flush u msg = Some u1 ->
  bw_broken (lw_body (up_w u1)) = bw_broken (lw_body (up_w u)) /\
  up_calls u1 = up_calls u ++ [bytes_of msg] /\
  match bw_broken (lw_body (up_w u)) with
  | None =>
      bw_err (lw_body (up_w u)) = None -> unflushed u = [] ->
      bw_err (lw_body (up_w u1)) = None /\ unflushed u1 = [] /\
      on_wire u1 = on_wire u ++ bytes_of msg
  | Some _ => on_wire u1 = on_wire u
  end.
Proof.
  intros Hw. apply write_flush_inv in Hw as (w1 & r0 & Hw & ->).
  apply lw_Write_body in Hw. unfold on_wire, unflushed. cbn [up_w lw_body up_calls].
  rewrite Hw. clear Hw. unfold bufio_Write, bufio_Flush.
  destruct (lw_body (up_w u)) as [buf out err broken]. cbn [bw_err bw_buf bw_out bw_broken].
  destruct err as [e|]; cbn [fst bw_err bw_buf bw_out bw_broken].
  - split; [reflexivity|]. split; [reflexivity|].
    destruct broken; [reflexivity|]. discriminate.
  - destruct (buf ++ bytes_of msg) as [|c rest] eqn:Happ.
    + cbn [bw_broken bw_out bw_err bw_buf]. split; [reflexivity|]. split; [reflexivity|].
      destruct broken; [reflexivity|]. intros _ ->. cbn [app] in Happ.
      rewrite Happ, app_nil_r. auto.
    + destruct broken as [e|]; cbn [bw_broken bw_out bw_err bw_buf].
      * auto.
      * split; [reflexivity|]. split; [reflexivity|]. intros _ ->.
        cbn [app] in Happ. rewrite Happ. auto.
Qed.

Lemma upload_start_wire cfg rand_Read r w0 s s1 u body broken :
  upload_start cfg rand_Read r w0 s = Some (s1, Waiting u) ->
  rq_hijack r = Hijacked body broken ->
  bw_broken (lw_body (up_w u)) = broken /\
  match broken with
  | None => bw_err (lw_body (up_w u)) = None /\ unflushed u = [] /\
            on_wire u = concat (up_calls u)
  | Some _ => on_wire u = []
  end.
Proof.
  unfold upload_start. intros Hstart Hhj. revert Hstart.
  destruct (bad_credentials cfg (rq_BasicAuth r)); [discriminate|].
  destruct (draw rand_Read (rq_now r)) as [[b n] [e|]]; [discriminate|].
  destruct (make_fileID _ b n) as [[buffer fileID]|]; cbn [mbind option_bind];
    [|discriminate].
  destruct (clients s !! fileID); [discriminate|].
  cbn [register]. rewrite Hhj.
  destruct (go_string _) as [link|]; cbn [mbind option_bind]; [|discriminate].
  destruct (write_flush _ link) as [u0|] eqn:Hw; cbn [mbind option_bind]; [|discriminate].
  intros [= _ <-].
  destruct (write_flush_wire _ _ _ Hw) as (Hb & Hcalls & Hwire).
  cbn [up_w lw_body new_responseLogWriter new_bufio bw_broken up_calls] in Hb, Hcalls, Hwire.
  split; [exact Hb|]. destruct broken as [e|].
  - exact Hwire.
  - destruct Hwire as (He & Hu & Ho); [reflexivity|reflexivity|].
    split; [exact He|]. split; [exact Hu|].
    rewrite Ho, Hcalls. cbn. rewrite app_nil_r. reflexivity.
Qed.

Lemma upload_body_wire (k : select_case) (u u1 : upload) (s s1 : server) (x : exit) :
  upload_body k u s = Some (s1, u1, x) ->
  match bw_broken (lw_body (up_w u)) with
  | None =>
      bw_err (lw_body (up_w u)) = None -> unflushed u = [] ->
      on_wire u = concat (up_calls u) ->
      unflushed u1 = [] /\ on_wire u1 = concat (up_calls u1)
  | Some _ => on_wire u1 = on_wire u
  end.
Proof.
  assert (Hone : forall u u1 msg,
             write_flush u msg = Some u1 ->
             match bw_broken (lw_body (up_w u)) with
             | None =>
                 bw_err (lw_body (up_w u)) = None -> unflushed u = [] ->
                 on_wire u = concat (up_calls u) ->
                 bw_err (lw_body (up_w u1)) = None /\
                 unflushed u1 = [] /\ on_wire u1 = concat (up_calls u1)
             | Some _ => on_wire u1 = on_wire u
             end).
  { intros v v1 msg Hw. destruct (write_flush_wire _ _ _ Hw) as (_ & Hcalls & Hwire).
    destruct (bw_broken (lw_body (up_w v))); [exact Hwire|].
    intros He Hu Ho. destruct (Hwire He Hu) as (He1 & Hu1 & Ho1).
    split; [exact He1|]. split; [exact Hu1|].
    rewrite Ho1, Hcalls, Ho, concat_app. cbn. rewrite app_nil_r. reflexivity. }
  unfold upload_body. destruct k as [c| |d].
  - destruct (negb (c =? up_receiverCh u)%nat); [discriminate|].
    destruct (write_flush u msg_connected) as [ua|] eqn:Ha; cbn [mbind option_bind];
      [|discriminate].
    destruct (heap s !! up_newClient u) as [cl|]; cbn [mbind option_bind]; [|discriminate].
    destruct (receiver cl) as [w|]; cbn [mbind option_bind]; [|discriminate].
    destruct (writers s !! w) as [sink|]; cbn [mbind option_bind]; [|discriminate].
    destruct (CopyBuffer _ _ _ _) as [[[sink2 src] [nw err]]|]; cbn [mbind option_bind];
      [|discriminate].
    pose proof (Hone _ _ _ Ha) as H1.
    destruct (write_flush_wire _ _ _ Ha) as (Hbr & _).
    assert (Hsecond : forall msg ub,
               write_flush (set_bufrw (push_defer ua (DeferCompleted (up_newClient u)))
                                      (lr_R src)) msg = Some ub ->
               match bw_broken (lw_body (up_w u)) with
               | None =>
                   bw_err (lw_body (up_w u)) = None -> unflushed u = [] ->
                   on_wire u = concat (up_calls u) ->
                   unflushed ub = [] /\ on_wire ub = concat (up_calls ub)
               | Some _ => on_wire ub = on_wire u
               end).
    { intros msg ub Hb. pose proof (Hone _ _ _ Hb) as H2.
      cbn [set_bufrw push_defer up_w up_calls] in H2.
      unfold on_wire, unflushed in *. cbn [set_bufrw push_defer up_w up_calls] in H2.
      rewrite Hbr in H2.
      destruct (bw_broken (lw_body (up_w u))).
      - rewrite H2. exact H1.
      - intros He Hu Ho. destruct (H1 He Hu Ho) as (He1 & Hu1 & Ho1).
        destruct (H2 He1 Hu1 Ho1) as (_ & Hu2 & Ho2). auto. }
    destruct err as [e|].
    + destruct (write_flush _ (Error e)) as [ub|] eqn:Hb; cbn [mbind option_bind];
        [|discriminate].
      intros [= _ <- _]. exact (Hsecond _ _ Hb).
    + destruct (write_flush _ (msg_transferred _)) as [ub|] eqn:Hb;
        cbn [mbind option_bind]; [|discriminate].
      intros [= _ <- _]. exact (Hsecond _ _ Hb).
  - destruct (write_flush u msg_disconnected) as [ua|] eqn:Ha; cbn [mbind option_bind];
      [|discriminate].
    intros [= _ <- _]. pose proof (Hone _ _ _ Ha) as H1.
    destruct (bw_broken (lw_body (up_w u))); [exact H1|].
    intros He Hu Ho. destruct (H1 He Hu Ho) as (_ & Hu1 & Ho1). auto.
  - destruct (negb (d =? 120 * Second)); [discriminate|].
    destruct (write_flush u msg_timeout) as [ua|] eqn:Ha; cbn [mbind option_bind];
      [|discriminate].
    intros [= _ <- _]. pose proof (Hone _ _ _ Ha) as H1.
    destruct (bw_broken (lw_body (up_w u))); [exact H1|].
    intros He Hu Ho. destruct (H1 He Hu Ho) as (_ & Hu1 & Ho1). auto.
Qed.

(** X9.  What the uploader receives.  Over a connection that stays
    healthy the bytes sent are, at the [select] and again when the
    handler returns, the texts the flow has written, in order and in
    full, and nothing is left in the buffer.  Over a connection whose
    peer is gone none of them is sent, while the flow goes on writing
    them. *)
Theorem response_reaches_uploader cfg rand_Read r w0 s s1 (u u' : upload)
    (body : stream) (broken : option error) (k : select_case) (s2 s3 : server) (x : exit) :
  upload_start cfg rand_Read r w0 s = Some (s1, Waiting u) ->
  rq_hijack r = Hijacked body broken ->
  upload_resume k u s2 = Some (s3, u', x) ->
  match broken with
  | None =>
      on_wire u = concat (up_calls u) /\
      on_wire u' = concat (up_calls u') /\ unflushed u' = []
  | Some _ => on_wire u' = [] /\ (length (up_calls u) < length (up_calls u'))%nat
  end.
Proof.
  intros Hstart Hhj Hres.
  destruct (upload_start_wire _ _ _ _ _ _ _ _ _ Hstart Hhj) as (Hbr & Hwire).
  destruct (upload_resume_inv _ _ _ _ _ _ Hres) as (sa & ua & Hbody & Hdefers).
  pose proof (upload_body_wire _ _ _ _ _ _ Hbody) as Hb. rewrite Hbr in Hb.
  destruct (run_defers_frame _ _ _ _ _ Hdefers) as (_ & _ & _ & _ & Hw & Hc).
  unfold on_wire, unflushed in *. rewrite Hw, Hc.
  destruct broken as [e|].
  - split; [congruence|].
    revert Hbody. unfold upload_body. clear.
    destruct k as [c| |d].
    + destruct (negb (c =? up_receiverCh u)%nat); [discriminate|].
      destruct (write_flush u msg_connected) as [ub|] eqn:Ha; cbn [mbind option_bind];
        [|discriminate].
      apply write_flush_inv in Ha as (wa & ra & _ & ->).
      destruct (heap s2 !! up_newClient u) as [cl|]; cbn [mbind option_bind];
        [|discriminate].
      destruct (receiver cl) as [w|]; cbn [mbind option_bind]; [|discriminate].
      destruct (writers s2 !! w) as [sink|]; cbn [mbind option_bind]; [|discriminate].
      destruct (CopyBuffer _ _ _ _) as [[[sink2 src] [nw err]]|]; cbn [mbind option_bind];
        [|discriminate].
      destruct err as [e|].
      * destruct (write_flush _ (Error e)) as [ub|] eqn:Hb; cbn [mbind option_bind];
          [|discriminate].
        apply write_flush_inv in Hb as (wb & rb & _ & ->).
        intros [= _ <- _]. cbn. rewrite !length_app. cbn. lia.
      * destruct (write_flush _ (msg_transferred _)) as [ub|] eqn:Hb;
          cbn [mbind option_bind]; [|discriminate].
        apply write_flush_inv in Hb as (wb & rb & _ & ->).
        intros [= _ <- _]. cbn. rewrite !length_app. cbn. lia.
    + destruct (write_flush u msg_disconnected) as [ub|] eqn:Ha; cbn [mbind option_bind];
        [|discriminate].
      apply write_flush_inv in Ha as (wa & ra & _ & ->).
      intros [= _ <- _]. cbn. rewrite length_app. cbn. lia.
    + destruct (negb (d =? 120 * Second)); [discriminate|].
      destruct (write_flush u msg_timeout) as [ub|] eqn:Ha; cbn [mbind option_bind];
        [|discriminate].
      apply write_flush_inv in Ha as (wa & ra & _ & ->).
      intros [= _ <- _]. cbn. rewrite length_app. cbn. lia.
  - destruct Hwire as (He & Hu & Ho). destruct (Hb He Hu Ho) as (Hu1 & Ho1). auto.
Qed.

(** X9 on the sample upload and its timeout. *)
Lemma response_reaches_uploader_witness :
  on_wire (resumed_flow sample_timed_out) = concat (up_calls (resumed_flow sample_timed_out)).
Proof.
  destruct (response_reaches_uploader sample_config sample_rand
              (sample_upload 5 hello_body) (new_response None) new_server
              (sample_server 5 hello_body) (sample_flow 5 hello_body)
              (resumed_flow sample_timed_out) hello_body None
              (CaseAfter (120 * Second)) (sample_server 5 hello_body)
              (resumed_server sample_timed_out) (resumed_exit sample_timed_out))
    as (_ & Hwire & _).
  - apply sample_at_select. vm_compute. reflexivity.
  - reflexivity.
  - apply (resumed_eq sample_timed_out). vm_compute. reflexivity.
  - exact Hwire.
Defined.

(* --------------------------------------------------------------------- *)
(** ** Exchanges, step by step *)

Lemma paired_emit (s : server) (u : upload) (w : wid) (c : chan) (sink : ResponseWriter)
    (e : event) :
  paired s u w c sink -> paired (emit s e) u w c sink.
Proof. intros (cl & H1 & H2 & H3 & H4). exists cl. auto. Qed.

Lemma server_eq (s t : server) :
  clients s = clients t -> heap s = heap t -> writers s = writers t ->
  fresh s = fresh t -> trace s = trace t -> s = t.
Proof. destruct s, t. cbn. intros -> -> -> -> ->. reflexivity. Qed.

(** The paired case of the [select] up to the [return], before the
    deferred calls run. *)
Lemma upload_body_paired cfg r s0 s1 (u : upload) (s : server)
    (w : wid) (c : chan) (sink : ResponseWriter) :
  at_select cfg r s0 s1 u ->
  paired s u w c sink ->
  exists sink' err u1,
    upload_body (CaseRecv (up_receiverCh u)) u s
      = Some (set_writers s (<[w := sink']> (writers s)), u1, exit_of err) /\
    up_defers u1 = [DeferCompleted (up_newClient u); DeferClose;
                    DeferDelete (up_fileID u); DeferPut] /\
    up_fileID u1 = up_fileID u /\
    (rw_status sink = None -> rw_status (rw_WriteHeader sink' StatusOK) = Some StatusOK).
Proof.
  intros Hsel Hpaired.
  destruct (upload_resume_paired _ _ _ _ _ s w c sink Hsel Hpaired)
    as (sink' & rd' & N' & written & err & consumed & accepted & u' &
        _ & Hcopied & Hres & _).
  destruct (upload_resume_inv _ _ _ _ _ _ Hres) as (sa & ua & Hbody & Hdefers).
  destruct (upload_body_frame _ _ _ _ _ _ Hbody)
    as (Hc & Hh & Ht & Hf & Hid & _ & _ & Hd & _).
  destruct (run_defers_frame _ _ _ _ _ Hdefers) as (_ & _ & Hw & _).
  exists sink', err, ua. split; [|split; [|split; [exact Hid|]]].
  - rewrite Hbody. do 3 f_equal. apply server_eq; try assumption.
    rewrite <- Hw. reflexivity.
  - rewrite Hd, (sel_defers _ _ _ _ _ Hsel). reflexivity.
  - intros Hfresh. destruct consumed as [|b0 rest] eqn:Hcons.
    + rewrite (cp_untouched _ _ _ _ _ _ _ _ _ Hcopied eq_refl).
      apply rw_WriteHeader_fresh. exact Hfresh.
    + assert (Hs : rw_status sink' = Some StatusOK).
      { rewrite (cp_status _ _ _ _ _ _ _ _ _ Hcopied) by discriminate.
        cbn [rw_Header_Add rw_status]. rewrite Hfresh. reflexivity. }
      unfold rw_WriteHeader. rewrite Hs. exact Hs.
Qed.

(** The moves of the scheduler, one lemma each. *)
Lemma perform_Step_download (i : nat) (s s1 : server) (fs : list flow)
    (w : wid) (d d1 : download) :
  fs !! i = Some (Download w d) ->
  download_step w d s = Some (s1, d1) ->
  perform (Step i) (mkSystem s fs) = Some (mkSystem s1 (<[i := Download w d1]> fs)).
Proof.
  intros Hf Hd. unfold perform. cbn [sys_flows sys_server].
  rewrite Hf. cbn [mbind option_bind]. rewrite Hd. reflexivity.
Qed.

Lemma perform_Step_deferred (i : nat) (s s1 : server) (fs : list flow)
    (u u1 : upload) (x : exit) (d : deferred) (ds : list deferred) :
  fs !! i = Some (UpReturning u x) ->
  up_defers u = d :: ds ->
  (forall q, d <> DeferCompleted q) ->
  run_deferred d s u = Some (s1, u1) ->
  perform (Step i) (mkSystem s fs)
    = Some (mkSystem s1 (<[i := returning (pop_defer u1) x]> fs)).
Proof.
  intros Hf Hds Hd Hrun. unfold perform. cbn [sys_flows sys_server].
  rewrite Hf. cbn [mbind option_bind]. rewrite Hds.
  destruct d as [|fileID| |q]; try (rewrite Hrun; reflexivity).
  destruct (Hd q eq_refl).
Qed.

Lemma perform_Fire (i : nat) (k : select_case) (s s1 : server) (fs : list flow)
    (u u1 : upload) (x : exit) :
  fs !! i = Some (UpSelect u) ->
  (forall c, k <> CaseRecv c) ->
  upload_body k u s = Some (s1, u1, x) ->
  perform (Fire i k) (mkSystem s fs) = Some (mkSystem s1 (<[i := returning u1 x]> fs)).
Proof.
  intros Hf Hk Hbody. unfold perform. cbn [sys_flows sys_server].
  rewrite Hf. cbn [mbind option_bind].
  destruct k as [c| |d]; try (rewrite Hbody; reflexivity).
  destruct (Hk c eq_refl).
Qed.

Lemma perform_Pair (i j : nat) (s s1 : server) (fs : list flow) (w : wid) (p : loc)
    (c : chan) (cl : client) (u u1 : upload) (x : exit) :
  fs !! i = Some (Download w (DlSending p)) ->
  fs !! j = Some (UpSelect u) ->
  heap s !! p = Some cl ->
  clientConnected cl = c ->
  upload_body (CaseRecv c) u (emit s (EvSend c)) = Some (s1, u1, x) ->
  perform (Pair i j) (mkSystem s fs)
    = Some (mkSystem s1 (<[j := returning u1 x]>
                           (<[i := Download w (DlWaiting (downloadCompleted cl))]> fs))).
Proof.
  intros Hf Hg Hcl Hc Hbody. unfold perform, sending_on. cbn [sys_flows sys_server].
  rewrite Hf, Hg. cbn [mbind option_bind]. rewrite Hcl.
  cbn [fmap option_fmap option_map mbind option_bind]. rewrite Hc, Hbody. reflexivity.
Qed.

Lemma perform_Complete (j i : nat) (s : server) (fs : list flow) (w : wid) (q : loc)
    (c : chan) (cl : client) (u : upload) (x : exit) (ds : list deferred) :
  fs !! j = Some (UpReturning u x) ->
  fs !! i = Some (Download w (DlWaiting (Some c))) ->
  up_defers u = DeferCompleted q :: ds ->
  heap s !! q = Some cl ->
  downloadCompleted cl = Some c ->
  perform (Complete j i) (mkSystem s fs)
    = Some (mkSystem (download_return (emit s (EvSend c)) w)
              (<[j := returning (pop_defer u) x]>
                 (<[i := Download w (DlDone Served)]> fs))).
Proof.
  intros Hg Hf Hds Hcl Hc. unfold perform. cbn [sys_flows sys_server].
  rewrite Hg, Hf. cbn [mbind option_bind]. rewrite Hds, Hcl. cbn [mbind option_bind].
  rewrite Hc. cbn [mbind option_bind receiving_on].
  rewrite Nat.eqb_refl. cbn [negb]. unfold run_deferred. rewrite Hcl.
  cbn [mbind option_bind]. rewrite Hc. reflexivity.
Qed.

(** The deferred calls of a flow that was not paired, or that has sent
    its completion signal, one step each. *)
Lemma run_three_defers (s : server) (u : upload) (x : exit) (g : flow) :
  up_defers u = [DeferClose; DeferDelete (up_fileID u); DeferPut] ->
  exists u',
    run [Step 0%nat; Step 0%nat; Step 0%nat] (mkSystem s [UpReturning u x; g])
      = Some (mkSystem (remove_client s (up_fileID u)) [UpDone u' x; g]) /\
    up_closed u' = true /\ up_defers u' = [] /\
    up_calls u' = up_calls u /\ up_w u' = up_w u /\ up_bufrw u' = up_bufrw u.
Proof.
  intros Hds. eexists. split.
  - cbn [run].
    erewrite perform_Step_deferred;
      [|reflexivity|exact Hds|discriminate|reflexivity].
    cbn [mbind option_bind]. cbn [insert list_insert]. unfold returning at 1.
    cbn [pop_defer up_defers]. rewrite Hds. cbn [tail].
    erewrite perform_Step_deferred;
      [|reflexivity|reflexivity|discriminate|reflexivity].
    cbn [mbind option_bind]. unfold returning at 1.
    cbn [pop_defer up_defers tail]. cbn [insert list_insert].
    erewrite perform_Step_deferred;
      [|reflexivity|reflexivity|discriminate|reflexivity].
    cbn [mbind option_bind]. unfold returning at 1.
    cbn [pop_defer up_defers tail]. cbn [insert list_insert].
    cbn [up_fileName up_fileID up_newClient up_receiverCh up_w up_calls up_bufrw
         up_ContentLength up_buffer up_closed].
    reflexivity.
  - cbn. auto.
Qed.

Lemma run_cons (a : action) (rest : list action) (y : system) :
  run (a :: rest) y = perform a y ≫= run rest.
Proof. reflexivity. Qed.

Lemma run_app (xs ys : list action) :
  forall y, run (xs ++ ys) y = run xs y ≫= run ys.
Proof.
  induction xs as [|a xs IH]; intros y; [reflexivity|].
  cbn [app run]. destruct (perform a y) as [y1|]; cbn [mbind option_bind]; [apply IH|].
  reflexivity.
Qed.

(** The case of the [select] that fires without a download. *)
Lemma upload_body_alone cfg r s0 s1 (u : upload) (k : select_case) (s : server) :
  at_select cfg r s0 s1 u ->
  k = CaseDone \/ k = CaseAfter (120 * Second) ->
  exists u1,
    upload_body k u s
      = Some (s, u1, match k with CaseDone => ExitDisconnected | _ => ExitTimedOut end) /\
    up_defers u1 = [DeferClose; DeferDelete (up_fileID u); DeferPut] /\
    up_fileID u1 = up_fileID u.
Proof.
  intros Hsel Hk.
  destruct (upload_resume_alone _ _ _ _ _ k s Hsel Hk) as (u' & Hres & _).
  destruct (upload_resume_inv _ _ _ _ _ _ Hres) as (sa & ua & Hbody & _).
  destruct (upload_body_frame _ _ _ _ _ _ Hbody)
    as (Hc & Hh & Ht & Hf & Hid & _ & _ & Hd & _ & Hw).
  exists ua. split; [|split; [|exact Hid]].
  - rewrite Hbody. do 3 f_equal. apply server_eq; try assumption.
    apply Hw. intros c. destruct Hk; subst k; discriminate.
  - rewrite Hd, (sel_defers _ _ _ _ _ Hsel). destruct Hk; subst k; reflexivity.
Qed.

(** X10.  A whole exchange, move by move.  The download looks the token
    up, tests and claims the client, and sends the pairing signal; the
    [select] of the upload receives it, the copy runs, the upload sends
    the completion signal and then closes the connection, deletes its
    token and returns.  Both handlers have returned, the registry map is
    what it was before the upload, the shared channels carried one
    pairing and one completion signal before the deletion, and the
    download is answered with status 200, whether the copy succeeded or
    not. *)
Theorem exchange_completes cfg rand_Read r w0 s0 s1 (u : upload) (w : wid)
    (rw : ResponseWriter) :
  upload_start cfg rand_Read r w0 s0 = Some (s1, Waiting u) ->
  writers s1 !! w = Some rw ->
  rw_status rw = None ->
  exists y u' err rw',
    run exchange_schedule
        (mkSystem s1 [UpSelect u; Download w (DlStart (up_fileID u))]) = Some y /\
    sys_flows y = [UpDone u' (exit_of err); Download w (DlDone Served)] /\
    up_closed u' = true /\ up_defers u' = [] /\
    clients (sys_server y) = clients s0 /\
    trace (sys_server y)
      = trace s1 ++ [EvSend (up_receiverCh u); EvSend (fresh s1); EvDelete (up_fileID u)] /\
    writers (sys_server y) !! w = Some rw' /\
    rw_status rw' = Some StatusOK.
Proof.
  intros Hstart Hw Hfresh.
  destruct (upload_start_Waiting _ _ _ _ _ _ _ Hstart) as (Hsel & _).
  assert (Hp : clients s1 !! up_fileID u = Some (up_newClient u)).
  { rewrite (sel_clients _ _ _ _ _ Hsel). apply lookup_insert_eq. }
  assert (Hcl : heap s1 !! up_newClient u
                = Some (mkClient (rq_fileName r) (up_receiverCh u) None false None)).
  { rewrite (sel_heap _ _ _ _ _ Hsel). apply lookup_insert_eq. }
  set (cl := mkClient (rq_fileName r) (up_receiverCh u) (Some (fresh s1)) true (Some w)).
  set (s2 := mkServer (clients s1) (<[up_newClient u := cl]> (heap s1)) (writers s1)
                      (S (fresh s1)) (trace s1)).
  assert (Hpaired : paired (emit s2 (EvSend (up_receiverCh u))) u w (fresh s1) rw).
  { exists cl. cbn [emit heap writers s2].
    split; [apply lookup_insert_eq|]. split; [reflexivity|]. split; [reflexivity|exact Hw]. }
  destruct (upload_body_paired _ _ _ _ u _ w (fresh s1) rw Hsel Hpaired)
    as (sink' & err & u1 & Hbody & Hds & Hid & Hstatus).
  set (s3 := set_writers (emit s2 (EvSend (up_receiverCh u)))
               (<[w := sink']> (writers (emit s2 (EvSend (up_receiverCh u)))))) in *.
  set (s4 := download_return (emit s3 (EvSend (fresh s1))) w).
  destruct (run_three_defers s4 (pop_defer u1) (exit_of err) (Download w (DlDone Served)))
    as (u' & Hrun & Hclosed & Hdone & _).
  { cbn [pop_defer up_defers up_fileID]. rewrite Hds, Hid. reflexivity. }
  exists (mkSystem (remove_client s4 (up_fileID u)) [UpDone u' (exit_of err);
                                                     Download w (DlDone Served)]),
         u', err, (rw_WriteHeader sink' StatusOK).
  split; [|split; [reflexivity|split; [exact Hclosed|split; [exact Hdone|]]]].
  - unfold exchange_schedule. rewrite run_cons.
    erewrite perform_Step_download;
      [|reflexivity|unfold download_step, find_client; rewrite Hp; reflexivity].
    cbn [mbind option_bind]. cbn [insert list_insert]. rewrite run_cons.
    erewrite perform_Step_download;
      [|reflexivity|unfold download_step, is_receiving; rewrite Hcl; reflexivity].
    cbn [mbind option_bind]. cbn [insert list_insert]. rewrite run_cons.
    erewrite perform_Step_download;
      [|reflexivity|unfold download_step, claim; rewrite Hcl; reflexivity].
    cbn [mbind option_bind fileName clientConnected]. cbn [insert list_insert].
    fold cl. fold s2. rewrite run_cons.
    erewrite (perform_Pair 1 0 s2 _ _ w (up_newClient u) (up_receiverCh u) cl);
      [|reflexivity|reflexivity
       |cbn [heap s2]; apply lookup_insert_eq
       |reflexivity
       |exact Hbody].
    cbn [mbind option_bind downloadCompleted cl]. cbn [insert list_insert].
    unfold returning at 1. rewrite Hds.
    rewrite run_cons.
    erewrite (perform_Complete 0 1 s3 _ w (up_newClient u) (fresh s1) cl);
      [|reflexivity|reflexivity|exact Hds
       |cbn [s3 heap set_writers emit s2]; apply lookup_insert_eq
       |reflexivity].
    cbn [mbind option_bind]. cbn [insert list_insert]. unfold returning at 1.
    cbn [pop_defer up_defers]. rewrite Hds. cbn [tail].
    fold s4. rewrite <- Hid. exact Hrun.
  - split; [|split; [|split; [|exact (Hstatus Hfresh)]]].
    + cbn. rewrite (sel_clients _ _ _ _ _ Hsel).
      apply delete_insert_id, (sel_fresh _ _ _ _ _ Hsel).
    + cbn. rewrite <- !app_assoc. reflexivity.
    + cbn. rewrite lookup_alter_eq, lookup_insert_eq. reflexivity.
Qed.

(** X10 on the sample upload and the download on writer 1. *)
Lemma exchange_completes_witness :
  exists y rw',
    run exchange_schedule
        (mkSystem (started_server sample_exchange)
                  [UpSelect (started_flow sample_exchange);
                   Download 1%nat (DlStart (up_fileID (started_flow sample_exchange)))])
      = Some y /\
    clients (sys_server y) = clients two_arrivals /\
    writers (sys_server y) !! 1%nat = Some rw' /\
    rw_status rw' = Some StatusOK.
Proof.
  destruct (exchange_completes sample_config sample_rand (sample_upload 5 hello_body)
              (new_response None) two_arrivals (started_server sample_exchange)
              (started_flow sample_exchange) 1%nat (new_response None))
    as (y & u' & err & rw' & Hrun & _ & _ & _ & Hclients & _ & Hw & Hstatus).
  - apply (started_eq sample_exchange). vm_compute. reflexivity.
  - vm_compute. reflexivity.
  - reflexivity.
  - exists y, rw'. auto.
Defined.

(** X11.  A download that looked the client up before the upload gave
    up is never answered.  The upload times out or is cancelled, and its
    handler returns and deletes the token; the download still holds the
    pointer, finds [receiving] unset, claims the orphaned client and
    blocks on its pairing send.  Nothing is left that could receive:
    the system has no move. *)
Theorem late_download_blocks cfg rand_Read r w0 s0 s1 (u : upload) (w : wid)
    (k : select_case) :
  upload_start cfg rand_Read r w0 s0 = Some (s1, Waiting u) ->
  k = CaseDone \/ k = CaseAfter (120 * Second) ->
  exists y u' x,
    run (late_schedule k)
        (mkSystem s1 [UpSelect u; Download w (DlStart (up_fileID u))]) = Some y /\
    sys_flows y = [UpDone u' x; Download w (DlSending (up_newClient u))] /\
    clients (sys_server y) !! up_fileID u = None /\
    writers (sys_server y) = writers s1 /\
    forall a, perform a y = None.
Proof.
  intros Hstart Hk.
  destruct (upload_start_Waiting _ _ _ _ _ _ _ Hstart) as (Hsel & _).
  assert (Hp : clients s1 !! up_fileID u = Some (up_newClient u)).
  { rewrite (sel_clients _ _ _ _ _ Hsel). apply lookup_insert_eq. }
  assert (Hcl : heap s1 !! up_newClient u
                = Some (mkClient (rq_fileName r) (up_receiverCh u) None false None)).
  { rewrite (sel_heap _ _ _ _ _ Hsel). apply lookup_insert_eq. }
  destruct (upload_body_alone _ _ _ _ _ k s1 Hsel Hk) as (u1 & Hbody & Hds & Hid).
  set (x := match k with CaseDone => ExitDisconnected | _ => ExitTimedOut end) in *.
  destruct (run_three_defers s1 u1 x (Download w (DlFound (up_newClient u))))
    as (u' & Hrun & _).
  { rewrite Hds, Hid. reflexivity. }
  eexists. exists u', x. split.
  - unfold late_schedule. rewrite run_cons.
    erewrite perform_Step_download;
      [|reflexivity|unfold download_step, find_client; rewrite Hp; reflexivity].
    cbn [mbind option_bind]. cbn [insert list_insert]. rewrite run_cons.
    erewrite perform_Fire;
      [|reflexivity|intros c; destruct Hk; subst k; discriminate|exact Hbody].
    cbn [mbind option_bind]. cbn [insert list_insert]. unfold returning at 1. rewrite Hds.
    change [Step 0%nat; Step 0%nat; Step 0%nat; Step 1%nat; Step 1%nat]
      with ([Step 0%nat; Step 0%nat; Step 0%nat] ++ [Step 1%nat; Step 1%nat]).
    rewrite run_app, Hrun. cbn [mbind option_bind]. rewrite run_cons.
    erewrite perform_Step_download;
      [|reflexivity
       |unfold download_step, is_receiving, remove_client; cbn [emit heap];
        rewrite Hcl; reflexivity].
    cbn [mbind option_bind]. cbn [insert list_insert]. rewrite run_cons.
    erewrite perform_Step_download;
      [|reflexivity
       |unfold download_step, claim, remove_client; cbn [emit heap];
        rewrite Hcl; reflexivity].
    cbn [mbind option_bind]. cbn [insert list_insert]. reflexivity.
  - cbn [sys_server sys_flows]. split; [reflexivity|]. split; [|split].
    + unfold remove_client. cbn [emit clients]. rewrite Hid. apply lookup_delete_eq.
    + reflexivity.
    + intros a. unfold perform. cbn [sys_flows sys_server].
      destruct a as [i|i k'|i j|j i].
      * destruct i as [|[|i]]; reflexivity.
      * destruct i as [|[|i]]; reflexivity.
      * destruct i as [|[|i]]; destruct j as [|[|j]]; reflexivity.
      * destruct j as [|[|j]]; destruct i as [|[|i]]; reflexivity.
Qed.

(** X11 on the sample upload and its timeout. *)
Lemma late_download_blocks_witness :
  exists y,
    run (late_schedule (CaseAfter (120 * Second)))
        (mkSystem (started_server sample_exchange)
                  [UpSelect (started_flow sample_exchange);
                   Download 1%nat (DlStart (up_fileID (started_flow sample_exchange)))])
      = Some y /\
    forall a, perform a y = None.
Proof.
  destruct (late_download_blocks sample_config sample_rand (sample_upload 5 hello_body)
              (new_response None) two_arrivals (started_server sample_exchange)
              (started_flow sample_exchange) 1%nat (CaseAfter (120 * Second)))
    as (y & u' & x & Hrun & _ & _ & _ & Hstuck).
  - apply (started_eq sample_exchange). vm_compute. reflexivity.
  - right. reflexivity.
  - exists y. auto.
Defined.

(* --------------------------------------------------------------------- *)
(** ** The wrapper under any run of calls *)

Lemma lw_calls_spec (cs : list lw_call) :
  forall w : responseLogWriter bufioWriter,
    0 <= lw_size w ->
    lw_size w + counted cs <= MaxInt ->
    bw_err (lw_body w) = None ->
    bw_broken (lw_body w) = None ->
    exists w',
      lw_calls w cs = Some w' /\
      bw_all (lw_body w') = bw_all (lw_body w) ++ payload cs /\
      lw_size w' = lw_size w + counted cs /\
      lw_status w' = last_status (lw_status w) cs /\
      lw_ResponseWriter w' = lw_ResponseWriter w /\
      lw_header w' = lw_header w /\
      bw_err (lw_body w') = None.
Proof.
  induction cs as [|c cs IH]; intros w Hsize Hfit Herr Hbroken.
  - exists w. cbn [lw_calls payload counted last_status].
    rewrite app_nil_r, Z.add_0_r. repeat split; auto.
  - assert (Hcs : 0 <= counted cs).
    { clear. induction cs as [|[d|s|code|] cs IH]; cbn [counted]; lia. }
    assert (Hw : lw_size w <> noWritten) by (unfold noWritten; lia).
    destruct c as [data|str|code|]; cbn [lw_calls lw_call_run counted payload last_status]
      in *.
    + rewrite (lw_Write_written w data Hw).
      change (Write (lw_body w) data) with (bufio_Write (lw_body w) data).
      unfold bufio_Write. rewrite Herr.
      cbn [fmap option_fmap option_map fst mbind option_bind].
      rewrite wrap_int_small by (unfold MaxInt in *; lia).
      destruct (IH (mkLog (lw_ResponseWriter w)
                          (mkBufio (bw_buf (lw_body w) ++ data) (bw_out (lw_body w)) None
                                   (bw_broken (lw_body w)))
                          (lw_header w) (lw_status w)
                          (lw_size w + Z.of_nat (length data))))
        as (w' & Hrun & Hall & Hsz & Hst & Hrw & Hhd & He);
        [cbn [lw_size]; lia | cbn [lw_size]; lia | reflexivity | exact Hbroken |].
      exists w'. split; [exact Hrun|]. split.
      { rewrite Hall. unfold bw_all. cbn [lw_body bw_out bw_buf].
        rewrite <- !app_assoc. reflexivity. }
      split; [|auto].
      rewrite Hsz. cbn [lw_size]. lia.
    + unfold lw_WriteString, bufio_Write. rewrite Herr. cbn [fst mbind option_bind].
      destruct (IH (mkLog (lw_ResponseWriter w)
                          (mkBufio (bw_buf (lw_body w) ++ bytes_of str)
                                   (bw_out (lw_body w)) None (bw_broken (lw_body w)))
                          (lw_header w) (lw_status w) (lw_size w)))
        as (w' & Hrun & Hall & Hsz & Hst & Hrw & Hhd & He);
        [exact Hsize | exact Hfit | reflexivity | exact Hbroken |].
      exists w'. split; [exact Hrun|]. split; [|auto].
      rewrite Hall. unfold bw_all. cbn [lw_body bw_out bw_buf].
      rewrite <- !app_assoc. reflexivity.
    + cbn [mbind option_bind].
      assert (Hwh : lw_size (WriteHeader w code) = lw_size w /\
                    lw_body (WriteHeader w code) = lw_body w /\
                    lw_ResponseWriter (WriteHeader w code) = lw_ResponseWriter w /\
                    lw_header (WriteHeader w code) = lw_header w /\
                    lw_status (WriteHeader w code) = if 0 <? code then code else lw_status w).
      { unfold WriteHeader. destruct (0 <? code); cbn [andb]; [|auto].
        destruct (Z.eqb_spec (lw_status w) code); cbn [negb]; auto. }
      destruct Hwh as (H1 & H2 & H3 & H4 & H5).
      destruct (IH (WriteHeader w code)) as (w' & Hrun & Hall & Hsz & Hst & Hrw & Hhd & He);
        [rewrite H1; exact Hsize | rewrite H1; exact Hfit
        |rewrite H2; exact Herr | rewrite H2; exact Hbroken |].
      exists w'. rewrite Hrun, Hall, Hsz, Hst, Hrw, Hhd, H1, H2, H3, H4, H5.
      repeat split; auto.
    + unfold lw_Flush, WriteHeaderNow, Written.
      destruct (Z.eqb_spec (lw_size w) noWritten) as [Heq|_]; [contradiction|].
      cbn [negb mbind option_bind].
      assert (Hfl : bw_all (bufio_Flush (lw_body w)) = bw_all (lw_body w) /\
                    bw_err (bufio_Flush (lw_body w)) = None /\
                    bw_broken (bufio_Flush (lw_body w)) = None).
      { unfold bufio_Flush, bw_all. rewrite Herr, Hbroken.
        destruct (bw_buf (lw_body w)) as [|b0 rest] eqn:Hbuf.
        - rewrite Hbuf. auto.
        - cbn [bw_out bw_buf bw_err bw_broken]. rewrite app_nil_r. auto. }
      destruct Hfl as (H1 & H2 & H3).
      destruct (IH (mkLog (lw_ResponseWriter w) (bufio_Flush (lw_body w)) (lw_header w)
                          (lw_status w) (lw_size w)))
        as (w' & Hrun & Hall & Hsz & Hst & Hrw & Hhd & He);
        [exact Hsize | exact Hfit | exact H2 | exact H3 |].
      exists w'. split; [exact Hrun|]. split; [|auto].
      rewrite Hall. cbn [lw_body]. rewrite H1. reflexivity.
Qed.

(** X12.  The wrapper of the upload flow under any run of its methods.
    No call panics, although the embedded writer is nil, because the
    wrapper counts as written from the start.  The connection receives
    the bytes of the [Write] and [WriteString] calls in the order of the
    calls; [Size] counts those of the [Write] calls only; [Status] is
    the last positive code passed to [WriteHeader], which is recorded
    and never sent; [Header] stays the empty map. *)
Theorem wrapper_calls (cs : list lw_call) :
  counted cs <= MaxInt ->
  exists w',
    lw_calls (new_responseLogWriter (new_bufio None)) cs = Some w' /\
    bw_all (lw_body w') = payload cs /\
    Size w' = counted cs /\
    Status w' = last_status 0 cs /\
    Written w' = true /\
    lw_ResponseWriter w' = None /\
    lw_Header w' = ∅.
Proof.
  intros Hfit.
  destruct (lw_calls_spec cs (new_responseLogWriter (new_bufio None)))
    as (w' & Hrun & Hall & Hsz & Hst & Hrw & Hhd & _);
    [cbn [new_responseLogWriter lw_size]; lia | exact Hfit | reflexivity | reflexivity |].
  exists w'. split; [exact Hrun|]. split; [exact Hall|]. split; [exact Hsz|].
  split; [exact Hst|]. split; [|split; [exact Hrw | exact Hhd]].
  unfold Written. rewrite Hsz. cbn [new_responseLogWriter lw_size].
  assert (Hcs : 0 <= counted cs).
  { clear. induction cs as [|[d|s|code|] cs IH]; cbn [counted]; lia. }
  destruct (Z.eqb_spec (0 + counted cs) noWritten) as [Heq|_]; [|reflexivity].
  unfold noWritten in Heq. lia.
Qed.

(** X12 on a run that sets a status, writes both ways and flushes. *)
Lemma wrapper_calls_witness :
  exists w',
    lw_calls (new_responseLogWriter (new_bufio None)) sample_calls = Some w' /\
    bw_all (lw_body w') = bytes_of "abcde" /\
    Size w' = 3 /\
    Status w' = 404.
Proof.
  destruct (wrapper_calls sample_calls) as (w' & Hrun & Hall & Hsz & Hst & _).
  - vm_compute. discriminate.
  - exists w'. split; [exact Hrun|]. split; [exact Hall|]. split; [exact Hsz | exact Hst].
Defined.

(** X13.  The state that [noWritten] stands for.  A wrapper whose size
    is [noWritten], over an embedded writer that has not sent its header
    yet: with a final status code (200 to 999) recorded, the first
    [Write] calls [WriteHeader] of the embedded writer with that code,
    once, and starts counting from zero, so that [Size] is the number of
    bytes the body took; the body bytes do not pass through the embedded
    writer.  With a recorded status outside 100..999 the first [Write]
    panics, and so it does without an embedded writer. *)
Theorem unwritten_sends_status_once {B : Type} `{Writer B}
    (w : responseLogWriter B) (rw : ResponseWriter)
    (data : list byte) (datas : list (list byte)) :
  lw_size w = noWritten ->
  counts_fit (body_counts (lw_body w) (data :: datas)) = true ->
  (lw_ResponseWriter w = None -> lw_Write w data = None) /\
  (lw_ResponseWriter w = Some rw -> rw_status rw = None ->
   checkWriteHeaderCode (lw_status w) = false ->
   lw_Write w data = None) /\
  (lw_ResponseWriter w = Some rw -> 200 <= lw_status w <= 999 ->
   rw_status rw = None ->
   exists w' rw',
     lw_Writes w (data :: datas) = Some (w', body_counts (lw_body w) (data :: datas)) /\
     Written w' = true /\
     Size w' = sum_Z (body_counts (lw_body w) (data :: datas)) /\
     lw_ResponseWriter w' = Some rw' /\
     rw_status rw' = Some (lw_status w) /\
     rw_calls rw' = rw_calls rw).
Proof.
  intros Hsize Hfit.
  assert (Hw : Written w = false) by (apply Written_iff; exact Hsize).
  split; [|split].
  - intros Hnil. unfold lw_Write, WriteHeaderNow. rewrite Hw, Hnil. reflexivity.
  - intros Hrw _ Hbad. unfold lw_Write, WriteHeaderNow. rewrite Hw, Hrw, Hbad. reflexivity.
  - intros Hrw Hfinal Hfresh.
    assert (Hgood : checkWriteHeaderCode (lw_status w) = true).
    { unfold checkWriteHeaderCode. apply andb_true_iff. split; apply Z.leb_le; lia. }
    cbn [body_counts] in Hfit |- *.
    destruct (Write (lw_body w) data) as [body1 [n e]] eqn:Hwrite.
    assert (Hfirst : lw_Write w data
                     = Some (mkLog (Some (rw_WriteHeader rw (lw_status w))) body1
                                   (lw_header w) (lw_status w) (wrap_int (0 + n)), (n, e))).
    { unfold lw_Write, WriteHeaderNow. rewrite Hw, Hrw, Hgood.
      cbn [lw_body lw_ResponseWriter lw_header lw_status lw_size].
      rewrite Hwrite. reflexivity. }
    cbn [lw_Writes]. rewrite Hfirst. clear Hfirst.
    apply counts_fit_cons in Hfit as (Hn & Hrest & Hsum).
    pose proof (sum_Z_nonneg _ Hrest) as Hpos.
    rewrite wrap_int_small by (unfold MaxInt in *; lia).
    destruct (lw_Writes_counts datas
                (mkLog (Some (rw_WriteHeader rw (lw_status w))) body1 (lw_header w)
                       (lw_status w) (0 + n)))
      as (w' & Hrun & Hsz & Hrw');
      [cbn [lw_size]; lia | exact Hrest | cbn [lw_size lw_body]; lia |].
    cbn [lw_body] in Hrun. rewrite Hrun. exists w', (rw_WriteHeader rw (lw_status w)).
    split; [reflexivity|].
    cbn [lw_size lw_ResponseWriter lw_body] in Hsz, Hrw'.
    split; [|split; [|split; [exact Hrw'|]]].
    + unfold Written. rewrite Hsz.
      destruct (Z.eqb_spec (0 + n + sum_Z (body_counts body1 datas)) noWritten) as [Heq|_];
        [|reflexivity].
      unfold noWritten in Heq. lia.
    + unfold Size. rewrite Hsz. cbn [sum_Z fold_right]. unfold sum_Z. lia.
    + split; [|apply rw_WriteHeader_calls].
      apply rw_WriteHeader_fresh. exact Hfresh.
Qed.

(** X13 on a wrapper over a response writer, with [defaultStatus]. *)
Lemma unwritten_sends_status_once_witness :
  exists w' rw',
    lw_Writes (unwritten (Some (new_response None)) (new_response None))
              [bytes_of "ab"; bytes_of "c"]
      = Some (w', [2; 1]) /\
    Size w' = 3 /\
    lw_ResponseWriter w' = Some rw' /\
    rw_status rw' = Some 200.
Proof.
  destruct (unwritten_sends_status_once
              (unwritten (Some (new_response None)) (new_response None))
              (new_response None) (bytes_of "ab") [bytes_of "c"])
    as (_ & _ & Hsent).
  - reflexivity.
  - vm_compute. reflexivity.
  - destruct Hsent as (w' & rw' & Hrun & _ & Hsz & Hrw & Hst & _);
      [reflexivity | vm_compute; split; discriminate | reflexivity |].
    exists w', rw'. split; [exact Hrun|]. split; [exact Hsz|]. split; [exact Hrw | exact Hst].
Defined.

(* --------------------------------------------------------------------- *)
(** ** The token keeps every bit of the draw *)

Lemma index_in_URL (i : nat) :
  (i < 64)%nat ->
  index_in (nth i (bytes_of encodeURL) x00) (bytes_of encodeURL) = i.
Proof.
  intros Hi.
  assert (Hall : forallb (fun i => Nat.eqb (index_in (nth i (bytes_of encodeURL) x00)
                                                     (bytes_of encodeURL)) i)
                         (seq 0 64) = true) by (vm_compute; reflexivity).
  rewrite forallb_forall in Hall. apply Nat.eqb_eq, Hall, in_seq. lia.
Qed.

Lemma sextet_inj (v v' k : N) :
  sextet URLEncoding v k = sextet URLEncoding v' k ->
  N.land (N.shiftr v k) 63 = N.land (N.shiftr v' k) 63.
Proof.
  unfold sextet. change (enc_encode URLEncoding) with (bytes_of encodeURL). intros Heq.
  apply (f_equal (fun c => index_in c (bytes_of encodeURL))) in Heq.
  rewrite !index_in_URL in Heq by apply sextet_index. lia.
Qed.

Lemma byte_testbit_high (a : byte) (n : N) : (8 <= n)%N -> N.testbit (Byte.to_N a) n = false.
Proof.
  intros Hn. pose proof (Byte.to_N_bounded a) as Hb.
  destruct (N.eq_dec (Byte.to_N a) 0%N) as [->|Hne]; [apply N.bits_0|].
  apply N.bits_above_log2.
  pose proof (N.log2_le_mono _ _ Hb) as Hl. change (N.log2 255%N) with 7%N in Hl. lia.
Qed.

Lemma group_testbit (a b c : byte) (n : N) :
  N.testbit (group a b c) n =
    if (n <? 8)%N then N.testbit (Byte.to_N c) n
    else if (n <? 16)%N then N.testbit (Byte.to_N b) (n - 8)
    else N.testbit (Byte.to_N a) (n - 16).
Proof.
  unfold group. rewrite !N.lor_spec.
  destruct (N.ltb_spec n 8%N) as [H8|H8].
  - rewrite !N.shiftl_spec_low by lia. reflexivity.
  - rewrite (byte_testbit_high c n H8), orb_false_r.
    destruct (N.ltb_spec n 16%N) as [H16|H16].
    + rewrite N.shiftl_spec_low by lia. rewrite N.shiftl_spec_high' by lia. reflexivity.
    + rewrite !N.shiftl_spec_high' by lia.
      rewrite (byte_testbit_high b (n - 8)) by lia. apply orb_false_r.
Qed.

Lemma sextet_testbit (v k i : N) :
  (i < 6)%N -> N.testbit (N.land (N.shiftr v k) 63) i = N.testbit v (i + k).
Proof.
  intros Hi. rewrite N.land_spec, N.shiftr_spec'.
  change 63%N with (N.ones 6). rewrite N.ones_spec_low by exact Hi. apply andb_true_r.
Qed.

Lemma sextets_testbit (v v' : N) :
  (forall k, In k [18; 12; 6; 0]%N ->
             N.land (N.shiftr v k) 63 = N.land (N.shiftr v' k) 63) ->
  forall n, (n < 24)%N -> N.testbit v n = N.testbit v' n.
Proof.
  intros Hk n Hn.
  assert (Hone : forall k, In k [18; 12; 6; 0]%N -> (k <= n < k + 6)%N ->
                           N.testbit v n = N.testbit v' n).
  { intros k Hin Hrange. replace n with (n - k + k)%N by lia.
    rewrite <- !sextet_testbit by lia. rewrite (Hk k Hin). reflexivity. }
  destruct (N.lt_ge_cases n 6%N); [apply (Hone 0%N); simpl; auto; lia|].
  destruct (N.lt_ge_cases n 12%N); [apply (Hone 6%N); simpl; auto; lia|].
  destruct (N.lt_ge_cases n 18%N); [apply (Hone 12%N); simpl; auto; lia|].
  apply (Hone 18%N); simpl; auto; lia.
Qed.

Lemma byte_bits_inj (a a' : byte) :
  (forall i, (i < 8)%N -> N.testbit (Byte.to_N a) i = N.testbit (Byte.to_N a') i) ->
  a = a'.
Proof.
  intros Hbits.
  assert (Heq : Byte.to_N a = Byte.to_N a').
  { apply N.bits_inj. intros n. destruct (N.lt_ge_cases n 8%N) as [Hlt|Hge].
    - apply Hbits, Hlt.
    - rewrite !byte_testbit_high by exact Hge. reflexivity. }
  pose proof (Byte.of_to_N a) as Ha. rewrite Heq, Byte.of_to_N in Ha. congruence.
Qed.

Lemma group_inj (a b c a' b' c' : byte) :
  (forall k, In k [18; 12; 6; 0]%N ->
             sextet URLEncoding (group a b c) k = sextet URLEncoding (group a' b' c') k) ->
  a = a' /\ b = b' /\ c = c'.
Proof.
  intros Hsx.
  assert (Hbits : forall n, (n < 24)%N ->
                            N.testbit (group a b c) n = N.testbit (group a' b' c') n).
  { apply sextets_testbit. intros k Hin. apply sextet_inj, Hsx, Hin. }
  split; [|split]; apply byte_bits_inj; intros i Hi.
  - specialize (Hbits (i + 16)%N ltac:(lia)). rewrite !group_testbit in Hbits.
    destruct (N.ltb_spec (i + 16) 8%N); [lia|].
    destruct (N.ltb_spec (i + 16) 16%N); [lia|].
    replace (i + 16 - 16)%N with i in Hbits by lia. exact Hbits.
  - specialize (Hbits (i + 8)%N ltac:(lia)). rewrite !group_testbit in Hbits.
    destruct (N.ltb_spec (i + 8) 8%N); [lia|].
    destruct (N.ltb_spec (i + 8) 16%N); [|lia].
    replace (i + 8 - 8)%N with i in Hbits by lia. exact Hbits.
  - specialize (Hbits i ltac:(lia)). rewrite !group_testbit in Hbits.
    destruct (N.ltb_spec i 8%N); [|lia]. exact Hbits.
Qed.

Lemma encoded_inj (n : nat) :
  forall src src' : list byte,
    length src = (3 * n)%nat -> length src' = (3 * n)%nat ->
    encoded URLEncoding src = encoded URLEncoding src' -> src = src'.
Proof.
  induction n as [|n IH]; intros src src' Hl Hl' Heq.
  - destruct src; [|simpl in Hl; lia]. destruct src'; [|simpl in Hl'; lia]. reflexivity.
  - destruct src as [|a [|b [|c rest]]]; simpl in Hl; try lia.
    destruct src' as [|a' [|b' [|c' rest']]]; simpl in Hl'; try lia.
    cbn [encoded] in Heq.
    change (N.lor (N.lor (N.shiftl (Byte.to_N a) 16) (N.shiftl (Byte.to_N b) 8))
                  (Byte.to_N c)) with (group a b c) in Heq.
    change (N.lor (N.lor (N.shiftl (Byte.to_N a') 16) (N.shiftl (Byte.to_N b') 8))
                  (Byte.to_N c')) with (group a' b' c') in Heq.
    injection Heq as H18 H12 H6 H0 Hrest.
    destruct (group_inj a b c a' b' c') as (-> & -> & ->).
    { intros k [<-|[<-|[<-|[<-|[]]]]]; assumption. }
    f_equal. f_equal. f_equal. apply IH; [lia | lia | exact Hrest].
Qed.

(** X14.  The token keeps every bit of the draw: two uploads whose
    generators filled all 36 bytes and that were given the same token
    drew the same 36 bytes.  Together with X4 this says that tokens
    clash exactly when the seeded generator repeats itself. *)
Theorem token_determines_draw cfg rand_Read r r' w0 w0' s s' s1 s1' (u u' : upload)
    (b b' : list byte) :
  upload_start cfg rand_Read r w0 s = Some (s1, Waiting u) ->
  upload_start cfg rand_Read r' w0' s' = Some (s1', Waiting u') ->
  draw rand_Read (rq_now r) = (b, 36, None) ->
  draw rand_Read (rq_now r') = (b', 36, None) ->
  up_fileID u = up_fileID u' ->
  b = b'.
Proof.
  intros Hstart Hstart' Hd Hd' Hid.
  destruct (upload_start_Waiting _ _ _ _ _ _ _ Hstart) as (_ & _ & b0 & n0 & buf0 & Hd0 & Hid0).
  destruct (upload_start_Waiting _ _ _ _ _ _ _ Hstart')
    as (_ & _ & b1 & n1 & buf1 & Hd1 & Hid1).
  rewrite Hd in Hd0. injection Hd0 as <- <-.
  rewrite Hd' in Hd1. injection Hd1 as <- <-.
  pose proof (length_draw rand_Read (rq_now r)) as [Hb _]. rewrite Hd in Hb.
  pose proof (length_draw rand_Read (rq_now r')) as [Hb' _]. rewrite Hd' in Hb'.
  cbn [fst snd] in Hb, Hb'.
  destruct (make_fileID_drawn (bufPool_Get (rq_stale r)) b 36 (length_bufPool_Get _) Hb
              ltac:(lia)) as (x1 & id1 & H1 & _ & Hbytes1 & _).
  destruct (make_fileID_drawn (bufPool_Get (rq_stale r')) b' 36 (length_bufPool_Get _) Hb'
              ltac:(lia)) as (x2 & id2 & H2 & _ & Hbytes2 & _).
  rewrite Hid0 in H1. injection H1 as _ <-.
  rewrite Hid1 in H2. injection H2 as _ <-.
  destruct (encoded_groups URLEncoding 12 b Hb) as [Hlen _].
  destruct (encoded_groups URLEncoding 12 b' Hb') as [Hlen' _].
  destruct (EncodedLen_Std 36 ltac:(lia)) as [_ H48]. rewrite (H48 eq_refl) in Hbytes1, Hbytes2.
  rewrite take_ge in Hbytes1 by (rewrite Hlen; simpl; lia).
  rewrite take_ge in Hbytes2 by (rewrite Hlen'; simpl; lia).
  apply (encoded_inj 12 b b' Hb Hb'). rewrite <- Hbytes1, <- Hbytes2, Hid. reflexivity.
Qed.

(** X14 on two uploads that read the same clock: the sample upload and
    an upload of an empty body. *)
Lemma token_determines_draw_witness :
  fst (fst (draw sample_rand (rq_now (sample_upload 5 hello_body))))
    = fst (fst (draw sample_rand (rq_now (sample_upload 0 [])))).
Proof.
  apply (token_determines_draw sample_config sample_rand
           (sample_upload 5 hello_body) (sample_upload 0 [])
           (new_response None) (new_response None) new_server new_server
           (sample_server 5 hello_body) (sample_server 0 [])
           (sample_flow 5 hello_body) (sample_flow 0 [])).
  - apply sample_at_select. vm_compute. reflexivity.
  - apply sample_at_select. vm_compute. reflexivity.
  - vm_compute. reflexivity.
  - vm_compute. reflexivity.
  - vm_compute. reflexivity.
Defined.

(* --------------------------------------------------------------------- *)
(** ** Uploads side by side *)

Lemma download_claims (token : string) (w : wid) (s : server) (p : loc) (cl : client) :
  clients s !! token = Some p ->
  heap s !! p = Some cl ->
  receiving cl = false ->
  download_start token w s
    = Some (mkServer (clients s)
              (<[p := mkClient (fileName cl) (clientConnected cl) (Some (fresh s)) true
                               (Some w)]> (heap s))
              (writers s) (S (fresh s)) (trace s),
            DlSending p).
Proof.
  intros Hp Hcl Hr.
  unfold download_start, download_step, find_client, is_receiving, claim.
  rewrite Hp. cbn [mbind option_bind]. rewrite Hcl.
  cbn [fmap option_fmap option_map mbind option_bind]. rewrite Hr. cbn [negb].
  cbn [mbind option_bind]. rewrite ?Hcl. reflexivity.
Qed.

(** X15.  Two uploads with different tokens that wait side by side do
    not cross.  Their pairing channels and their client structs differ.
    A download of the first token claims the client of the first upload
    and leaves that of the second alone; its pairing signal cannot be
    received by the [select] of the second upload, and when the first
    upload receives it, the second is still waiting, registered and
    unclaimed. *)
Theorem uploads_do_not_cross cfg rand_Read r1 r2 w1 w2 sa sb s0 s1 s2 (u1 u2 : upload)
    (b1 b2 : list byte) (id1 id2 : string) (w : wid) (rw : ResponseWriter) :
  upload_check cfg rand_Read r1 w1 sa = Some (Passed b1 id1) ->
  upload_check cfg rand_Read r2 w2 sb = Some (Passed b2 id2) ->
  upload_register cfg r1 w1 b1 id1 s0 = Some (s1, Waiting u1) ->
  upload_register cfg r2 w2 b2 id2 s1 = Some (s2, Waiting u2) ->
  id1 <> id2 ->
  writers s2 !! w = Some rw ->
  up_receiverCh u1 <> up_receiverCh u2 /\
  up_newClient u1 <> up_newClient u2 /\
  exists s3,
    download_start id1 w s2 = Some (s3, DlSending (up_newClient u1)) /\
    heap s3 !! up_newClient u2 = heap s2 !! up_newClient u2 /\
    perform (Pair 2 1)
            (mkSystem s3 [UpSelect u1; UpSelect u2;
                          Download w (DlSending (up_newClient u1))]) = None /\
    exists y,
      perform (Pair 2 0)
              (mkSystem s3 [UpSelect u1; UpSelect u2;
                            Download w (DlSending (up_newClient u1))]) = Some y /\
      sys_flows y !! 1%nat = Some (UpSelect u2) /\
      sys_flows y !! 2%nat = Some (Download w (DlWaiting (Some (fresh s2)))) /\
      clients (sys_server y) !! id2 = Some (up_newClient u2) /\
      heap (sys_server y) !! up_newClient u2
        = Some (mkClient (rq_fileName r2) (up_receiverCh u2) None false None).
Proof.
  intros Hcheck1 Hcheck2 Hreg1 Hreg2 Hid Hw.
  destruct (upload_register_Waiting _ _ _ _ _ _ _ _ _ _ Hcheck1 Hreg1)
    as (Hsel1 & Htok1 & Hf).
  destruct (upload_register_Waiting _ _ _ _ _ _ _ _ _ _ Hcheck2 Hreg2)
    as (Hsel2 & Htok2 & _).
  pose proof (sel_channel _ _ _ _ _ Hsel1) as Hc1.
  pose proof (sel_channel _ _ _ _ _ Hsel2) as Hc2.
  pose proof (sel_pointer _ _ _ _ _ Hsel1) as Hp1.
  pose proof (sel_pointer _ _ _ _ _ Hsel2) as Hp2.
  cbn [forget fresh] in Hc1, Hc2, Hp1, Hp2.
  assert (Hch : up_receiverCh u1 <> up_receiverCh u2) by lia.
  assert (Hpt : up_newClient u1 <> up_newClient u2) by lia.
  split; [exact Hch|]. split; [exact Hpt|].
  assert (Hl1 : clients s2 !! id1 = Some (up_newClient u1)).
  { rewrite (sel_clients _ _ _ _ _ Hsel2), Htok2, lookup_insert_ne by congruence.
    cbn [forget clients]. rewrite lookup_delete_ne by congruence.
    rewrite (sel_clients _ _ _ _ _ Hsel1), Htok1. apply lookup_insert_eq. }
  assert (Hh1 : heap s2 !! up_newClient u1
                = Some (mkClient (rq_fileName r1) (up_receiverCh u1) None false None)).
  { rewrite (sel_heap _ _ _ _ _ Hsel2), lookup_insert_ne by congruence.
    cbn [forget heap]. rewrite (sel_heap _ _ _ _ _ Hsel1). apply lookup_insert_eq. }
  assert (Hh2 : heap s2 !! up_newClient u2
                = Some (mkClient (rq_fileName r2) (up_receiverCh u2) None false None)).
  { rewrite (sel_heap _ _ _ _ _ Hsel2). apply lookup_insert_eq. }
  set (cl := mkClient (rq_fileName r1) (up_receiverCh u1) (Some (fresh s2)) true (Some w)).
  set (s3 := mkServer (clients s2) (<[up_newClient u1 := cl]> (heap s2)) (writers s2)
                      (S (fresh s2)) (trace s2)).
  assert (Hcl : heap s3 !! up_newClient u1 = Some cl)
    by (cbn [heap s3]; apply lookup_insert_eq).
  exists s3. split; [exact (download_claims _ w _ _ _ Hl1 Hh1 eq_refl)|].
  split; [cbn [heap s3]; apply lookup_insert_ne; congruence|].
  split.
  - unfold perform, sending_on. cbn [sys_flows sys_server].
    change ([UpSelect u1; UpSelect u2; Download w (DlSending (up_newClient u1))] !! 2%nat)
      with (Some (Download w (DlSending (up_newClient u1)))).
    change ([UpSelect u1; UpSelect u2; Download w (DlSending (up_newClient u1))] !! 1%nat)
      with (Some (UpSelect u2)).
    cbn [mbind option_bind]. rewrite Hcl.
    cbn [fmap option_fmap option_map mbind option_bind clientConnected cl].
    unfold upload_body.
    destruct (Nat.eqb_spec (up_receiverCh u1) (up_receiverCh u2)) as [Heq|_];
      [contradiction|].
    reflexivity.
  - assert (Hpaired : paired (emit s3 (EvSend (up_receiverCh u1))) u1 w (fresh s2) rw).
    { exists cl. cbn [emit heap writers s3].
      split; [apply lookup_insert_eq|].
      split; [reflexivity|]. split; [reflexivity | exact Hw]. }
    destruct (upload_body_paired _ _ _ _ u1 _ w (fresh s2) rw Hsel1 Hpaired)
      as (sink' & err & ua & Hbody & _).
    eexists. split.
    + eapply (perform_Pair 2 0 s3); [reflexivity | reflexivity | exact Hcl | reflexivity
                                    | exact Hbody].
    + cbn [sys_flows sys_server]. split; [reflexivity|]. split; [reflexivity|].
      cbn [set_writers emit clients heap s3]. split.
      * rewrite (sel_clients _ _ _ _ _ Hsel2), Htok2. apply lookup_insert_eq.
      * rewrite lookup_insert_ne by congruence. exact Hh2.
Qed.

(** X15 on the sample upload, the upload with the later clock reading
    and the download on writer 1. *)
Lemma uploads_do_not_cross_witness :
  exists s3,
    download_start (checked_token sample_checked) 1%nat (started_server second_registered)
      = Some (s3, DlSending (up_newClient (started_flow sample_registered))) /\
    perform (Pair 2 1)
            (mkSystem s3 [UpSelect (started_flow sample_registered);
                          UpSelect (started_flow second_registered);
                          Download 1%nat
                            (DlSending (up_newClient (started_flow sample_registered)))])
      = None.
Proof.
  destruct (uploads_do_not_cross sample_config sample_rand
              (sample_upload 5 hello_body) second_upload
              (new_response None) (new_response None)
              two_arrivals (started_server sample_registered)
              two_arrivals (started_server sample_registered)
              (started_server second_registered)
              (started_flow sample_registered) (started_flow second_registered)
              (checked_buffer sample_checked) (checked_buffer second_checked)
              (checked_token sample_checked) (checked_token second_checked)
              1%nat (new_response None))
    as (_ & _ & s3 & Hdl & _ & Hnone & _).
  - apply (passed_eq sample_checked). vm_compute. reflexivity.
  - apply (passed_eq second_checked). vm_compute. reflexivity.
  - apply (started_eq sample_registered). vm_compute. reflexivity.
  - apply (started_eq second_registered). vm_compute. reflexivity.
  - vm_compute. discriminate.
  - vm_compute. reflexivity.
  - exists s3. split; [exact Hdl | exact Hnone].
Defined.

(** X19.  Two uploads that read one clock value can both pass the test
    of the map before either inserts.  Then both wait with the same
    token.  The insert of the second replaces the entry of the first: a
    download of the token claims the client of the second upload, and
    its pairing signal cannot be received by the first, which nobody can
    reach any more.  When the first gives up, its deferred delete
    removes the entry that now belongs to the second, whose link is dead
    from then on although it still waits. *)
Theorem same_token_uploads_cross cfg rand_Read r1 r2 w1 w2 s0 (b1 : list byte)
    (fileID : string) :
  upload_check cfg rand_Read r1 w1 s0 = Some (Passed b1 fileID) ->
  rq_now r2 = rq_now r1 ->
  bad_credentials cfg (rq_BasicAuth r2) = false ->
  exists b2,
    upload_check cfg rand_Read r2 w2 s0 = Some (Passed b2 fileID) /\
    forall s1 s2 (u1 u2 : upload) (w : wid) (rw : ResponseWriter) (k : select_case),
      upload_register cfg r1 w1 b1 fileID s0 = Some (s1, Waiting u1) ->
      upload_register cfg r2 w2 b2 fileID s1 = Some (s2, Waiting u2) ->
      writers s2 !! w = Some rw ->
      k = CaseDone \/ k = CaseAfter (120 * Second) ->
      up_fileID u1 = fileID /\ up_fileID u2 = fileID /\
      up_newClient u1 <> up_newClient u2 /\
      clients s2 !! fileID = Some (up_newClient u2) /\
      (exists s3,
          download_start fileID w s2 = Some (s3, DlSending (up_newClient u2)) /\
          perform (Pair 2 0)
                  (mkSystem s3 [UpSelect u1; UpSelect u2;
                                Download w (DlSending (up_newClient u2))]) = None) /\
      (exists s4 u1' x,
          upload_resume k u1 s2 = Some (s4, u1', x) /\
          clients s4 !! fileID = None /\
          download_start fileID w s4
            = Some (reply s4 w http_NotFound, DlDone NotFound)).
Proof.
  intros Hcheck1 Hnow Hauth.
  destruct (upload_check_inv _ _ _ _ _ _ _ Hcheck1) as (_ & Hfree & b & n & Hd & Hid).
  pose proof (length_draw rand_Read (rq_now r1)) as [Hb Hn].
  rewrite Hd in Hb, Hn. cbn [fst snd] in Hb, Hn.
  destruct (make_fileID_buffer _ (bufPool_Get (rq_stale r2)) _ _ _ _
              (length_bufPool_Get _) (length_bufPool_Get _) Hb Hn Hid)
    as (b2 & Hid2).
  assert (Hcheck2 : upload_check cfg rand_Read r2 w2 s0 = Some (Passed b2 fileID)).
  { unfold upload_check. rewrite Hauth, Hnow, Hd, Hid2. cbn [mbind option_bind].
    rewrite Hfree. reflexivity. }
  exists b2. split; [exact Hcheck2|].
  intros s1 s2 u1 u2 w rw k Hreg1 Hreg2 Hw Hk.
  destruct (upload_register_Waiting _ _ _ _ _ _ _ _ _ _ Hcheck1 Hreg1)
    as (Hsel1 & Htok1 & Hf).
  destruct (upload_register_Waiting _ _ _ _ _ _ _ _ _ _ Hcheck2 Hreg2)
    as (Hsel2 & Htok2 & _).
  pose proof (sel_channel _ _ _ _ _ Hsel1) as Hc1.
  pose proof (sel_channel _ _ _ _ _ Hsel2) as Hc2.
  pose proof (sel_pointer _ _ _ _ _ Hsel1) as Hp1.
  pose proof (sel_pointer _ _ _ _ _ Hsel2) as Hp2.
  cbn [forget fresh] in Hc1, Hc2, Hp1, Hp2.
  split; [exact Htok1|]. split; [exact Htok2|]. split; [lia|].
  assert (Hl2 : clients s2 !! fileID = Some (up_newClient u2)).
  { rewrite (sel_clients _ _ _ _ _ Hsel2), Htok2. apply lookup_insert_eq. }
  split; [exact Hl2|].
  assert (Hh2 : heap s2 !! up_newClient u2
                = Some (mkClient (rq_fileName r2) (up_receiverCh u2) None false None)).
  { rewrite (sel_heap _ _ _ _ _ Hsel2). apply lookup_insert_eq. }
  split.
  - eexists. split; [exact (download_claims _ w _ _ _ Hl2 Hh2 eq_refl)|].
    unfold perform, sending_on. cbn [sys_flows sys_server heap].
    change ([UpSelect u1; UpSelect u2; Download w (DlSending (up_newClient u2))] !! 2%nat)
      with (Some (Download w (DlSending (up_newClient u2)))).
    change ([UpSelect u1; UpSelect u2; Download w (DlSending (up_newClient u2))] !! 0%nat)
      with (Some (UpSelect u1)).
    cbn [mbind option_bind]. rewrite lookup_insert_eq.
    cbn [fmap option_fmap option_map mbind option_bind clientConnected].
    unfold upload_body.
    destruct (Nat.eqb_spec (up_receiverCh u2) (up_receiverCh u1)) as [Heq|_]; [lia|].
    reflexivity.
  - destruct (upload_resume_alone _ _ _ _ _ k s2 Hsel1 Hk) as (u1' & Hres & _).
    eexists _, u1', _. split; [exact Hres|].
    rewrite Htok1. split; [apply remove_client_lookup|].
    unfold download_start, download_step, find_client.
    rewrite (proj1 (remove_client_lookup s2 fileID)). reflexivity.
Qed.

(** X19 on the sample upload and the upload that reads the same clock. *)
Lemma same_token_uploads_cross_witness :
  checked_token twin_checked = checked_token sample_checked /\
  clients (started_server twin_registered) !! checked_token sample_checked
    = Some (up_newClient (started_flow twin_registered)) /\
  exists s4 u1' x,
    upload_resume (CaseAfter (120 * Second)) (started_flow sample_registered)
                  (started_server twin_registered) = Some (s4, u1', x) /\
    clients s4 !! checked_token sample_checked = None.
Proof.
  destruct (same_token_uploads_cross sample_config sample_rand
              (sample_upload 5 hello_body) twin_upload
              (new_response None) (new_response None) two_arrivals
              (checked_buffer sample_checked) (checked_token sample_checked))
    as (b2 & Hcheck2 & Hcross).
  - apply (passed_eq sample_checked). vm_compute. reflexivity.
  - reflexivity.
  - reflexivity.
  - assert (Htwin : twin_checked = Some (Passed b2 (checked_token sample_checked)))
      by exact Hcheck2.
    assert (Hb2 : checked_buffer twin_checked = b2) by (rewrite Htwin; reflexivity).
    assert (Ht2 : checked_token twin_checked = checked_token sample_checked)
      by (rewrite Htwin; reflexivity).
    destruct (Hcross (started_server sample_registered) (started_server twin_registered)
                (started_flow sample_registered) (started_flow twin_registered)
                1%nat (new_response None) (CaseAfter (120 * Second)))
      as (_ & _ & _ & Hl2 & _ & s4 & u1' & x & Hres & Hgone & _).
    + apply (started_eq sample_registered). vm_compute. reflexivity.
    + rewrite <- Hb2, <- Ht2. apply (started_eq twin_registered). vm_compute. reflexivity.
    + vm_compute. reflexivity.
    + right. reflexivity.
    + split; [exact Ht2|]. split; [exact Hl2|]. exists s4, u1', x. auto.
Defined.

(** X16.  The server does not read the file before a download is
    there.  At the [select] nothing has been read from the body of the
    upload, and when the [select] ends with a disconnect or the timeout
    the handler returns with the body still unread, the connection
    closed and no response writer of a download touched. *)
Theorem body_unread_without_download cfg rand_Read r w0 s0 s1 (u u' : upload)
    (body : stream) (broken : option error) (k : select_case) (s s' : server) (x : exit) :
  upload_start cfg rand_Read r w0 s0 = Some (s1, Waiting u) ->
  rq_hijack r = Hijacked body broken ->
  k = CaseDone \/ k = CaseAfter (120 * Second) ->
  upload_resume k u s = Some (s', u', x) ->
  up_bufrw u = new_reader body /\
  up_bufrw u' = new_reader body /\
  br_read (up_bufrw u') = [] /\
  up_closed u' = true /\
  writers s' = writers s.
Proof.
  intros Hstart Hhj Hk Hres.
  destruct (upload_start_Waiting _ _ _ _ _ _ _ Hstart) as (Hsel & _).
  destruct (sel_body _ _ _ _ _ Hsel) as (body' & broken' & Hhj' & Hrd).
  rewrite Hhj in Hhj'. injection Hhj' as <- <-.
  destruct (upload_resume_alone _ _ _ _ _ k s Hsel Hk) as (ub & Hres' & _ & Hsame & Hclosed).
  rewrite Hres in Hres'. injection Hres' as -> <- _.
  rewrite Hsame, Hrd. repeat split; auto.
Qed.

(** X16 on the sample upload and its timeout. *)
Lemma body_unread_without_download_witness :
  up_bufrw (resumed_flow sample_timed_out) = new_reader hello_body /\
  up_closed (resumed_flow sample_timed_out) = true.
Proof.
  destruct (body_unread_without_download sample_config sample_rand
              (sample_upload 5 hello_body) (new_response None) new_server
              (sample_server 5 hello_body) (sample_flow 5 hello_body)
              (resumed_flow sample_timed_out) hello_body None
              (CaseAfter (120 * Second)) (sample_server 5 hello_body)
              (resumed_server sample_timed_out) (resumed_exit sample_timed_out))
    as (_ & Hrd & _ & Hclosed & _).
  - apply sample_at_select. vm_compute. reflexivity.
  - reflexivity.
  - right. reflexivity.
  - apply (resumed_eq sample_timed_out). vm_compute. reflexivity.
  - split; [exact Hrd | exact Hclosed].
Defined.

(* --------------------------------------------------------------------- *)
(** ** A connection that cannot be taken over *)

(** X18.  An authorised upload over a connection that cannot be
    hijacked, or whose hijack fails, is always answered and never waits:
    either with status 400 and the shared state untouched (the generator
    failed or the token is taken), or with status 500 and the reason as
    one line, after its client was registered and removed again, so that
    the registry map is what it was. *)
Theorem hijack_failure_reported cfg rand_Read r w0 s (msg : string) :
  bad_credentials cfg (rq_BasicAuth r) = false ->
  rw_status w0 = None ->
  (rq_hijack r = NotHijacker /\ msg = msg_no_hijack) \/
  (exists e, rq_hijack r = HijackFailed e /\ msg = Error e) ->
  exists s1 w1,
    upload_start cfg rand_Read r w0 s = Some (s1, Replied w1) /\
    ((s1 = s /\ rw_status w1 = Some StatusBadRequest) \/
     (rw_status w1 = Some StatusInternalServerError /\
      rw_calls w1 = rw_calls w0 ++ [bytes_of (msg +:+ nl)] /\
      clients s1 = clients s /\
      exists fileID p,
        clients s !! fileID = None /\
        trace s1 = trace s ++ [EvInsert fileID p; EvDelete fileID])).
Proof.
  intros Hauth Hfresh Hhj.
  assert (H400 : forall p, rw_status (fst (rw_Write (rw_WriteHeader w0 StatusBadRequest) p))
                           = Some StatusBadRequest).
  { intros p. rewrite rw_Write_status.
    rewrite (proj1 (rw_WriteHeader_fresh w0 StatusBadRequest Hfresh)). reflexivity. }
  unfold upload_start. rewrite Hauth.
  pose proof (length_draw rand_Read (rq_now r)) as [Hb Hn].
  destruct (draw rand_Read (rq_now r)) as [[b n] [e|]]; cbn [fst snd] in Hb, Hn.
  { eexists _, _. split; [reflexivity|]. left. split; [reflexivity | apply H400]. }
  destruct (make_fileID_drawn (bufPool_Get (rq_stale r)) b n (length_bufPool_Get _) Hb Hn)
    as (buffer & fileID & Hid & _).
  rewrite Hid. cbn [mbind option_bind].
  destruct (clients s !! fileID) eqn:Hfree.
  { eexists _, _. split; [reflexivity|]. left. split; [reflexivity | apply H400]. }
  cbn [register].
  assert (Hreply : forall m, rw_status (http_Error w0 m StatusInternalServerError)
                             = Some StatusInternalServerError /\
                             rw_calls (http_Error w0 m StatusInternalServerError)
                             = rw_calls w0 ++ [bytes_of (m +:+ nl)])
    by (intros m; apply http_Error_status, Hfresh).
  destruct Hhj as [[-> ->] | (e & -> & ->)].
  - eexists _, _. split; [reflexivity|]. right.
    destruct (Hreply msg_no_hijack) as [Hst Hcalls].
    split; [exact Hst|]. split; [exact Hcalls|]. cbn. split.
    + apply delete_insert_id, Hfree.
    + exists fileID, (S (fresh s)). split; [exact Hfree|].
      rewrite <- app_assoc. reflexivity.
  - eexists _, _. split; [reflexivity|]. right.
    destruct (Hreply (Error e)) as [Hst Hcalls].
    split; [exact Hst|]. split; [exact Hcalls|]. cbn. split.
    + apply delete_insert_id, Hfree.
    + exists fileID, (S (fresh s)). split; [exact Hfree|].
      rewrite <- app_assoc. reflexivity.
Qed.

(** X18 on the sample upload over a plain connection. *)
Lemma hijack_failure_reported_witness :
  exists s1 w1,
    upload_start sample_config sample_rand plain_upload (new_response None) new_server
      = Some (s1, Replied w1) /\
    rw_status w1 = Some StatusInternalServerError /\
    clients s1 = clients new_server.
Proof.
  destruct (hijack_failure_reported sample_config sample_rand plain_upload
              (new_response None) new_server msg_no_hijack)
    as (s1 & w1 & Hstart & [[_ Hst] | (Hst & _ & Hclients & _)]).
  - reflexivity.
  - reflexivity.
  - left. split; reflexivity.
  - exfalso. revert Hstart Hst. vm_compute. intros [= _ <-]. discriminate.
  - exists s1, w1. split; [exact Hstart|]. split; [exact Hst | exact Hclients].
Defined.

(* --------------------------------------------------------------------- *)
(** ** The line of the select *)

(** The [Write] calls between the [select] and the [return]. *)
Lemma upload_body_calls (k : select_case) (u u1 : upload) (s s1 : server) (x : exit) :
  upload_body k u s = Some (s1, u1, x) ->
  exists later,
    up_calls u1 = up_calls u ++ [bytes_of (phase2 k)] ++ later /\
    match k with
    | CaseRecv _ =>
        exists err, later = [bytes_of (phase3 (up_fileName u) err)] /\ x = exit_of err
    | CaseDone => later = [] /\ x = ExitDisconnected
    | CaseAfter _ => later = [] /\ x = ExitTimedOut
    end.
Proof.
  unfold upload_body. destruct k as [c| |d].
  - destruct (negb (c =? up_receiverCh u)%nat); [discriminate|].
    destruct (write_flush u msg_connected) as [ua|] eqn:Ha; cbn [mbind option_bind];
      [|discriminate].
    apply write_flush_inv in Ha as (wa & ra & _ & ->).
    destruct (heap s !! up_newClient u) as [cl|]; cbn [mbind option_bind]; [|discriminate].
    destruct (receiver cl) as [w|]; cbn [mbind option_bind]; [|discriminate].
    destruct (writers s !! w) as [sink|]; cbn [mbind option_bind]; [|discriminate].
    destruct (CopyBuffer _ _ _ _) as [[[sink2 src] [nw err]]|]; cbn [mbind option_bind];
      [|discriminate].
    destruct err as [e|].
    + destruct (write_flush _ (Error e)) as [ub|] eqn:Hb; cbn [mbind option_bind];
        [|discriminate].
      apply write_flush_inv in Hb as (wb & rb & _ & ->).
      intros [= _ <- <-]. exists [bytes_of (Error e)]. cbn [up_calls set_bufrw push_defer].
      split; [rewrite <- app_assoc; reflexivity|]. exists (Some e). split; reflexivity.
    + destruct (write_flush _ (msg_transferred _)) as [ub|] eqn:Hb;
        cbn [mbind option_bind]; [|discriminate].
      apply write_flush_inv in Hb as (wb & rb & _ & ->).
      intros [= _ <- <-]. exists [bytes_of (msg_transferred (up_fileName u))].
      cbn [up_calls set_bufrw push_defer].
      split; [rewrite <- app_assoc; reflexivity|]. exists None. split; reflexivity.
  - destruct (write_flush u msg_disconnected) as [ua|] eqn:Ha; cbn [mbind option_bind];
      [|discriminate].
    apply write_flush_inv in Ha as (wa & ra & _ & ->).
    intros [= _ <- <-]. exists []. cbn [up_calls]. auto.
  - destruct (negb (d =? 120 * Second)); [discriminate|].
    destruct (write_flush u msg_timeout) as [ua|] eqn:Ha; cbn [mbind option_bind];
      [|discriminate].
    apply write_flush_inv in Ha as (wa & ra & _ & ->).
    intros [= _ <- <-]. exists []. cbn [up_calls]. auto.
Qed.

(** C5.  After phase 1 the flow waits in a [select] with exactly three
    cases: a receive on its pairing channel, the cancellation of the
    request, a timer of 120 seconds.  Whichever case fires, the flow goes
    on to its [return], and what it writes to its response after the
    link of phase 1 is the one line of that case, followed by a line of
    phase 3 only when the case was the pairing.  Over a connection that
    takes the bytes, these lines are what the uploader has received when
    the flow returns, with nothing left in the buffer; over a connection
    whose peer is gone nothing is sent. *)
Theorem select_writes_one_line cfg rand_Read r w0 s0 s1 (u : upload)
    (body : stream) (broken : option error) (k : select_case) (s : server)
    (w : wid) (c : chan) (sink : ResponseWriter) :
  upload_start cfg rand_Read r w0 s0 = Some (s1, Waiting u) ->
  rq_hijack r = Hijacked body broken ->
  In k (upload_select u) ->
  (k = CaseRecv (up_receiverCh u) -> paired s u w c sink) ->
  upload_select u = [CaseRecv (up_receiverCh u); CaseDone; CaseAfter (120 * Second)] /\
  let line := match k with
              | CaseRecv _ => "Client connected." +:+ nl
              | CaseDone => "Request disconnected." +:+ nl
              | CaseAfter _ => "Timed out. No client connected in 120 seconds." +:+ nl
              end in
  exists s' u1 x later,
    upload_body k u s = Some (s', u1, x) /\
    up_calls u = [bytes_of (msg_link cfg (rq_fileName r) (up_fileID u))] /\
    up_calls u1 = up_calls u ++ [bytes_of line] ++ later /\
    match k with
    | CaseRecv _ =>
        exists err, later = [bytes_of (phase3 (rq_fileName r) err)] /\ x = exit_of err
    | CaseDone => later = [] /\ x = ExitDisconnected
    | CaseAfter _ => later = [] /\ x = ExitTimedOut
    end /\
    match broken with
    | None =>
        on_wire u = bytes_of (msg_link cfg (rq_fileName r) (up_fileID u)) /\
        on_wire u1 = on_wire u ++ bytes_of line ++ concat later /\
        unflushed u1 = []
    | Some _ => on_wire u1 = []
    end.
Proof.
  intros Hstart Hhj Hk Hpaired.
  destruct (upload_start_Waiting _ _ _ _ _ _ _ Hstart) as (Hsel & _).
  destruct (upload_start_wire _ _ _ _ _ _ _ _ _ Hstart Hhj) as (Hbr & Hwire).
  split; [reflexivity|]. intros line.
  assert (Hbody : exists s' u1 x, upload_body k u s = Some (s', u1, x)).
  { destruct Hk as [<- | [<- | [<- | []]]].
    - destruct (upload_body_paired _ _ _ _ u s w c sink Hsel (Hpaired eq_refl))
        as (sink' & err & u1 & Hb & _). eauto.
    - destruct (upload_body_alone _ _ _ _ u CaseDone s Hsel (or_introl eq_refl))
        as (u1 & Hb & _). eauto.
    - destruct (upload_body_alone _ _ _ _ u (CaseAfter (120 * Second)) s Hsel
                  (or_intror eq_refl)) as (u1 & Hb & _). eauto. }
  destruct Hbody as (s' & u1 & x & Hbody).
  destruct (upload_body_calls _ _ _ _ _ _ Hbody) as (later & Hcalls & Hlater).
  pose proof (upload_body_wire _ _ _ _ _ _ Hbody) as Hw. rewrite Hbr in Hw.
  assert (Hline : phase2 k = line) by (destruct k; reflexivity).
  rewrite Hline in Hcalls.
  exists s', u1, x, later. split; [exact Hbody|].
  split; [exact (sel_calls _ _ _ _ _ Hsel)|]. split; [exact Hcalls|].
  split.
  - rewrite (sel_fileName _ _ _ _ _ Hsel) in Hlater. exact Hlater.
  - destruct broken as [e|].
    + rewrite Hw. exact Hwire.
    + destruct Hwire as (He & Hu & Ho). destruct (Hw He Hu Ho) as (Hu1 & Ho1).
      split; [rewrite Ho, (sel_calls _ _ _ _ _ Hsel); cbn; apply app_nil_r|].
      split; [|exact Hu1].
      rewrite Ho1, Hcalls, Ho, !concat_app. cbn [concat]. rewrite app_nil_r. reflexivity.
Qed.

(** C5 on the sample upload, for each case of the [select]: paired with
    the download on writer 2, cancelled, and timed out. *)
Lemma select_writes_one_line_witness :
  (exists s' u1 x later,
      upload_body (CaseRecv (up_receiverCh (sample_flow 5 hello_body)))
                  (sample_flow 5 hello_body) (sample_claimed 5 hello_body None)
        = Some (s', u1, x) /\
      on_wire u1 = on_wire (sample_flow 5 hello_body)
                     ++ bytes_of ("Client connected." +:+ nl) ++ concat later) /\
  (exists s' u1,
      upload_body CaseDone (sample_flow 5 hello_body) (sample_server 5 hello_body)
        = Some (s', u1, ExitDisconnected) /\
      on_wire u1 = on_wire (sample_flow 5 hello_body)
                     ++ bytes_of ("Request disconnected." +:+ nl)) /\
  (exists s' u1,
      upload_body (CaseAfter (120 * Second)) (sample_flow 5 hello_body)
                  (sample_server 5 hello_body)
        = Some (s', u1, ExitTimedOut) /\
      on_wire u1 = on_wire (sample_flow 5 hello_body)
                     ++ bytes_of ("Timed out. No client connected in 120 seconds." +:+ nl)).
Proof.
  assert (Hstart : upload_start sample_config sample_rand (sample_upload 5 hello_body)
                     (new_response None) new_server
                   = Some (sample_server 5 hello_body, Waiting (sample_flow 5 hello_body))).
  { apply sample_at_select. vm_compute. reflexivity. }
  split; [|split].
  - destruct (select_writes_one_line sample_config sample_rand (sample_upload 5 hello_body)
                (new_response None) new_server
                (sample_server 5 hello_body) (sample_flow 5 hello_body) hello_body None
                (CaseRecv (up_receiverCh (sample_flow 5 hello_body)))
                (sample_claimed 5 hello_body None) 2%nat 3%nat (new_response None)
                Hstart eq_refl)
      as (_ & s' & u1 & x & later & Hbody & _ & _ & _ & _ & Hwire & _).
    + left. reflexivity.
    + intros _. eexists. repeat split; vm_compute; reflexivity.
    + exists s', u1, x, later. split; [exact Hbody | exact Hwire].
  - destruct (select_writes_one_line sample_config sample_rand (sample_upload 5 hello_body)
                (new_response None) new_server
                (sample_server 5 hello_body) (sample_flow 5 hello_body) hello_body None
                CaseDone (sample_server 5 hello_body) O O (new_response None)
                Hstart eq_refl)
      as (_ & s' & u1 & x & later & Hbody & _ & _ & [-> ->] & _ & Hwire & _).
    + right. left. reflexivity.
    + discriminate.
    + exists s', u1. split; [exact Hbody|]. rewrite Hwire. cbn [concat].
      rewrite app_nil_r. reflexivity.
  - destruct (select_writes_one_line sample_config sample_rand (sample_upload 5 hello_body)
                (new_response None) new_server
                (sample_server 5 hello_body) (sample_flow 5 hello_body) hello_body None
                (CaseAfter (120 * Second)) (sample_server 5 hello_body) O O
                (new_response None) Hstart eq_refl)
      as (_ & s' & u1 & x & later & Hbody & _ & _ & [-> ->] & _ & Hwire & _).
    + right. right. left. reflexivity.
    + discriminate.
    + exists s', u1. split; [exact Hbody|]. rewrite Hwire. cbn [concat].
      rewrite app_nil_r. reflexivity.
Defined.

(* --------------------------------------------------------------------- *)
(** ** The completion signal after a second claim *)

(** An upload whose deferred completion send finds the field of the
    client naming a channel on which no download waits has no move left,
    and neither have the two downloads. *)
Lemma stranded_no_move (y : system) :
  is_stranded y = true -> forall a, perform a y = None.
Proof.
  destruct y as [s fs]. unfold is_stranded. cbn [sys_flows sys_server].
  destruct fs as [|[w0 d0|u0|u x|u0 x0] [|[w1 [t1|p1|p1|p1|[c1|]|o1]|u1|u1 x1|u1 x1]
                     [|[w2 [t2|p2|p2|p2|c|o2]|u2|u2 x2|u2 x2] [|f3 fs]]]];
    try discriminate.
  destruct (up_defers u) as [|[|t'| |q] ds] eqn:Hds; try discriminate.
  destruct (heap s !! q) as [cl|] eqn:Hcl; try discriminate.
  destruct (downloadCompleted cl) as [c2|] eqn:Hc2; try discriminate.
  intros Hne a.
  destruct a as [i|i k|i j|j i]; unfold perform; cbn [sys_flows sys_server].
  - destruct i as [|[|[|i]]]; cbn; rewrite ?Hds; reflexivity.
  - destruct i as [|[|[|i]]]; destruct k; reflexivity.
  - destruct i as [|[|[|i]]]; destruct j as [|[|[|j]]]; reflexivity.
  - destruct j as [|[|[|j]]]; destruct i as [|[|[|i]]]; try reflexivity;
      cbn; rewrite Hds; cbn; rewrite ?Hcl; cbn; rewrite ?Hc2; cbn;
      rewrite ?Hne; reflexivity.
Qed.

(** C3 fails on the code.  The deferred send of the upload names the
    channel through the field [downloadCompleted] of the client when it
    runs, and a download that passed the unlocked test of [receiving]
    before the first claim can still claim the client after the pairing,
    which replaces the channel.  After [late_claim_schedule] the file has
    gone to the first download, which waits on the channel it claimed
    with; the upload has returned with its four deferred calls still to
    run and the first of them, the completion send, is on the channel of
    the second claim, where no flow receives; the second download is in
    its pairing send, which no [select] will take.  No flow can move: the
    completion signal is never delivered, the token stays in the registry
    and the trace holds no deletion. *)
Theorem late_claim_strands_upload :
  exists y,
    run late_claim_schedule race_system = Some y /\
    downloads y = [(2%nat, DlWaiting (Some 4%nat)); (3%nat, DlSending 1%nat)] /\
    client_of y 1%nat = Some (mkClient "hello.txt" 0%nat (Some 5%nat) true (Some 3%nat)) /\
    pending y = [(ExitTransferred,
                  [DeferCompleted 1%nat; DeferClose;
                   DeferDelete (up_fileID (sample_flow 5 hello_body)); DeferPut])] /\
    response_of y 2%nat = Some (Some StatusOK, bytes_of "hello") /\
    clients (sys_server y) !! up_fileID (sample_flow 5 hello_body) = Some 1%nat /\
    deletions (up_fileID (sample_flow 5 hello_body)) (trace (sys_server y)) = 0%nat /\
    sends 4%nat (trace (sys_server y)) = 0%nat /\
    sends 5%nat (trace (sys_server y)) = 0%nat /\
    forall a, perform a y = None.
Proof.
  assert (H : (y ← run late_claim_schedule race_system;
               Some (downloads y, client_of y 1%nat, pending y, response_of y 2%nat,
                     clients (sys_server y) !! up_fileID (sample_flow 5 hello_body),
                     deletions (up_fileID (sample_flow 5 hello_body)) (trace (sys_server y)),
                     sends 4%nat (trace (sys_server y)),
                     sends 5%nat (trace (sys_server y)), is_stranded y))
              = Some ([(2%nat, DlWaiting (Some 4%nat)); (3%nat, DlSending 1%nat)],
                      Some (mkClient "hello.txt" 0%nat (Some 5%nat) true (Some 3%nat)),
                      [(ExitTransferred,
                        [DeferCompleted 1%nat; DeferClose;
                         DeferDelete (up_fileID (sample_flow 5 hello_body)); DeferPut])],
                      Some (Some StatusOK, bytes_of "hello"), Some 1%nat,
                      0%nat, 0%nat, 0%nat, true))
    by (vm_compute; reflexivity).
  destruct (run late_claim_schedule race_system) as [y|]; [|discriminate H].
  cbn [mbind option_bind] in H.
  injection H as Hd Hc Hp Hr Ht Hdel Hs4 Hs5 Hst.
  exists y. repeat (split; [first [reflexivity | assumption]|]).
  exact (stranded_no_move y Hst).
Qed.

(** C4 fails on the code in the same way.  With the client of the first
    download gone after two bytes the copy returns the error of the
    write, and the upload does write its text, in place of the success
    line, after the line of the pairing.  But the second download has
    claimed the client in the meantime: the deferred completion send is
    on the channel of that claim, the first download is left waiting on
    its own, and no flow can move.  The completion signal is not sent
    once, and the blocked download does not unblock. *)
Theorem late_claim_drops_signal :
  exists y,
    run late_claim_schedule failing_race_system = Some y /\
    received y = [msg_link sample_config "hello.txt" (up_fileID (sample_flow 5 hello_body))
                    +:+ "Client connected." +:+ nl +:+ "broken pipe"] /\
    pending y = [(ExitCopyFailed (ErrOther "broken pipe"),
                  [DeferCompleted 1%nat; DeferClose;
                   DeferDelete (up_fileID (sample_flow 5 hello_body)); DeferPut])] /\
    response_of y 2%nat = Some (Some StatusOK, bytes_of "he") /\
    downloads y = [(2%nat, DlWaiting (Some 4%nat)); (3%nat, DlSending 1%nat)] /\
    client_of y 1%nat = Some (mkClient "hello.txt" 0%nat (Some 5%nat) true (Some 3%nat)) /\
    sends 4%nat (trace (sys_server y)) = 0%nat /\
    sends 5%nat (trace (sys_server y)) = 0%nat /\
    forall a, perform a y = None.
Proof.
  assert (H : (y ← run late_claim_schedule failing_race_system;
               Some (received y, pending y, response_of y 2%nat, downloads y,
                     client_of y 1%nat,
                     sends 4%nat (trace (sys_server y)),
                     sends 5%nat (trace (sys_server y)), is_stranded y))
              = Some ([msg_link sample_config "hello.txt"
                                (up_fileID (sample_flow 5 hello_body))
                         +:+ "Client connected." +:+ nl +:+ "broken pipe"],
                      [(ExitCopyFailed (ErrOther "broken pipe"),
                        [DeferCompleted 1%nat; DeferClose;
                         DeferDelete (up_fileID (sample_flow 5 hello_body)); DeferPut])],
                      Some (Some StatusOK, bytes_of "he"),
                      [(2%nat, DlWaiting (Some 4%nat)); (3%nat, DlSending 1%nat)],
                      Some (mkClient "hello.txt" 0%nat (Some 5%nat) true (Some 3%nat)),
                      0%nat, 0%nat, true))
    by (vm_compute; reflexivity).
  destruct (run late_claim_schedule failing_race_system) as [y|]; [|discriminate H].
  cbn [mbind option_bind] in H.
  injection H as Hrc Hp Hr Hd Hc Hs4 Hs5 Hst.
  exists y. repeat (split; [first [reflexivity | assumption]|]).
  exact (stranded_no_move y Hst).
Qed.
